(** * Arthya income-forecasting pipeline: a shallow embedding

    The Python sources embedded here are
      - [ml/data/preprocessing/featureExtraction.py]  (module [FeatureExtraction])
      - [ml/models/inference.py]                      (module [Inference])
      - [ml/main.py]                                  (module [Main])
      - [ml/pipelines/training.py]                    (module [Training])
      - [ml/dataGenerator.py]                         (module [DataGenerator])

    Numbers.  A Python/numpy float is modelled by [float]: either a finite
    value, kept as a rational, or one of the IEEE special values (+inf,
    -inf, NaN) that numpy produces when dividing by zero.  The arithmetic
    on the columns of a frame is exact.  Where the sources take the integer
    part of a product of a length and a float (the split indices), the
    product is the binary64 one: the operands are doubles and the result
    is rounded to the nearest double, ties to even ([Float.double]).
    Overflow and signed zeros are not part of the model.

    Errors.  Python exceptions are values of [exn]; code that can raise
    returns a [result]. *)

From Stdlib Require Import ZArith QArith Qround Qabs Qminmax Qpower Lia Lqa List String.
From stdpp Require Import gmap strings list sorting pretty.
Import ListNotations.

Local Open Scope Z_scope.

(** ** Floats *)

Inductive float : Type :=
| Fin (q : Q)
| PInf
| NInf
| NaN.

Module Float.

Definition is_nan (x : float) : bool :=
  match x with NaN => true | _ => false end.

Definition is_finite (x : float) : bool :=
  match x with Fin _ => true | _ => false end.

Definition of_Z (n : Z) : float := Fin (inject_Z n).

Definition of_nat (n : nat) : float := of_Z (Z.of_nat n).

(** Sign of a rational: -1, 0 or 1. *)
Definition Qsgn (q : Q) : Z := Z.sgn (Qnum q).

Definition neg (x : float) : float :=
  match x with
  | Fin q => Fin (- q)
  | PInf => NInf
  | NInf => PInf
  | NaN => NaN
  end.

Definition add (x y : float) : float :=
  match x, y with
  | NaN, _ | _, NaN => NaN
  | Fin a, Fin b => Fin (a + b)
  | PInf, NInf | NInf, PInf => NaN
  | PInf, _ | _, PInf => PInf
  | NInf, _ | _, NInf => NInf
  end.

Definition sub (x y : float) : float := add x (neg y).

(** An infinity with the sign [s]; [inf * 0] is NaN. *)
Definition signed_inf (s : Z) : float :=
  match s with
  | Z0 => NaN
  | Zpos _ => PInf
  | Zneg _ => NInf
  end.

Definition sgn (x : float) : Z :=
  match x with
  | Fin q => Qsgn q
  | PInf => 1
  | NInf => -1
  | NaN => 0
  end.

Definition mul (x y : float) : float :=
  match x, y with
  | NaN, _ | _, NaN => NaN
  | Fin a, Fin b => Fin (a * b)
  | _, _ => signed_inf (sgn x * sgn y)
  end.

(** numpy division: a finite value divided by zero is an infinity of the
    sign of the numerator, 0/0 is NaN; nothing is raised. *)
Definition div (x y : float) : float :=
  match x, y with
  | NaN, _ | _, NaN => NaN
  | Fin a, Fin b =>
      if Qeq_bool b 0 then signed_inf (Qsgn a) else Fin (a / b)
  | Fin _, _ => Fin 0
  | _, Fin b => signed_inf (sgn x * (if Qeq_bool b 0 then 1 else Qsgn b))
  | _, _ => NaN
  end.

Definition abs (x : float) : float :=
  match x with
  | Fin q => Fin (Qabs q)
  | PInf | NInf => PInf
  | NaN => NaN
  end.

(** [x ** 2]. *)
Definition sq (x : float) : float := mul x x.

(** Number of fractional bits kept by [Qsqrt]. *)
Definition sqrt_bits : Z := 64.

(** Square root of a non-negative rational, rounded down to a multiple of
    [1 / (den * 2^sqrt_bits)]; exact on squares of rationals. *)
Definition Qsqrt (q : Q) : Q :=
  let d := Zpos (Qden q) in
  Qmake (Z.sqrt (Qnum q * d * 4 ^ sqrt_bits))
        (Z.to_pos (d * 2 ^ sqrt_bits)).

(** [np.sqrt]: NaN on negative input. *)
Definition sqrt (x : float) : float :=
  match x with
  | Fin q => if Qle_bool 0 q then Fin (Qsqrt q) else NaN
  | PInf => PInf
  | NInf | NaN => NaN
  end.

(** Round half to even, as [np.rint] and Python's [round] do. *)
Definition rint (q : Q) : Z :=
  let f := Qfloor q in
  match (q - inject_Z f ?= 1 # 2)%Q with
  | Lt => f
  | Gt => f + 1
  | Eq => if Z.even f then f else f + 1
  end.

(** *** binary64

    The doubles are the rationals [m * 2^(e - 52)] with [|m| <= 2^53] and
    [e >= -1022]; the exponent has no upper end here. *)

(** Exponent of a positive rational: the [e] with [2^e <= q < 2^(e+1)]. *)
Definition ilog2 (q : Q) : Z :=
  let e0 := Z.log2 (Qnum q) - Z.log2 (Zpos (Qden q)) in
  if Qle_bool (2 ^ e0) q then e0 else e0 - 1.

(** Exponent of the doubles around [q]: below [2^-1022] they are the
    multiples of [2^-1074]. *)
Definition expo (q : Q) : Z := Z.max (ilog2 (Qabs q)) (-1022).

(** Distance between neighbouring doubles around [q]. *)
Definition ulp (q : Q) : Q := (2 ^ (expo q - 52))%Q.

(** The double nearest to [q], ties to the even significand: what the
    parser makes of a literal and what [*], [-] return for the exact
    result [q]. *)
Definition double (q : Q) : Q :=
  if Qeq_bool q 0 then 0%Q else (inject_Z (rint (q / ulp q)) * ulp q)%Q.

(** [round(x, -1)] on a numpy value: [rint(x / 10) * 10]. *)
Definition round_m1 (x : float) : float :=
  match x with
  | Fin q => Fin (inject_Z (rint (q / 10)) * 10)
  | _ => x
  end.

(** [np.round(x)] with no decimals. *)
Definition round0 (x : float) : float :=
  match x with
  | Fin q => Fin (inject_Z (rint q))
  | _ => x
  end.

(** Truth value of a float: everything except zero is true (NaN too). *)
Definition truthy (x : float) : bool :=
  match x with
  | Fin q => negb (Qeq_bool q 0)
  | _ => true
  end.

(** [x or y]. *)
Definition or_else (x y : float) : float := if truthy x then x else y.

(** The divisor is the float zero. *)
Definition is_zero (x : float) : bool :=
  match x with
  | Fin q => Qeq_bool q 0
  | _ => false
  end.

(** Equality of floats as values (rationals up to [Qeq]); NaN is related
    to NaN here, since the relation compares results, not Python's [==]. *)
Definition same (x y : float) : Prop :=
  match x, y with
  | Fin a, Fin b => (a == b)%Q
  | PInf, PInf | NInf, NInf | NaN, NaN => True
  | _, _ => False
  end.

Definition sum (xs : list float) : float := fold_left add xs (Fin 0).

(** [np.mean] of an array: NaN on the empty array. *)
Definition mean (xs : list float) : float :=
  div (sum xs) (of_nat (length xs)).

End Float.

Declare Scope float_scope.
Delimit Scope float_scope with fl.
Infix "+" := Float.add : float_scope.
Infix "-" := Float.sub : float_scope.
Infix "*" := Float.mul : float_scope.
Infix "/" := Float.div : float_scope.

(** ** Exceptions and results *)

Inductive exn : Type :=
| ValueError (msg : string)
| TypeError (msg : string)
| KeyError (key : string)
| FileNotFoundError (path : string)
| UnboundLocalError (var : string)
| IndexError
| LibraryError (origin : string).   (* raised inside Prophet, sklearn, json *)

Inductive result (A : Type) : Type :=
| Ok (a : A)
| Raise (e : exn).
Arguments Ok {A} a.
Arguments Raise {A} e.

Definition bind {A B} (r : result A) (k : A -> result B) : result B :=
  match r with
  | Ok a => k a
  | Raise e => Raise e
  end.

Notation "'let*' x := r 'in' k" := (bind r (fun x => k))
  (at level 10, x name, r at level 200, k at level 200).
Notation "'let*' ' p := r 'in' k" := (bind r (fun x => match x with p => k end))
  (at level 10, p strict pattern, r at level 200, k at level 200).

Definition raises {A} (r : result A) : Prop := exists e, r = Raise e.

Definition is_ok {A} (r : result A) : bool :=
  match r with Ok _ => true | Raise _ => false end.

(** A local variable: [None] once it has been deleted with [del]. *)
Definition read_local {A} (name : string) (v : option A) : result A :=
  match v with
  | Some a => Ok a
  | None => Raise (UnboundLocalError name)
  end.

(** ** Data frames *)

Local Open Scope string_scope.

Inductive cell : Type :=
| CNum (x : float)
| CStr (s : string)
| CDate (t : Z).

(** One record of the table: column name to value, as in the JSON records
    and CSV rows the frames are built from. *)
Abbreviation Row := (gmap string cell).

Record DataFrame : Type := mkFrame {
  columns : list string;
  rows : list Row;
}.

Module Frame.

Definition len (df : DataFrame) : nat := length (rows df).

Definition has_column (c : string) (df : DataFrame) : bool :=
  bool_decide (c ∈ columns df).

(** Numeric reading of a cell; a missing or non-numeric entry is NaN. *)
Definition num (o : option cell) : float :=
  match o with
  | Some (CNum x) => x
  | _ => NaN
  end.

(** [df[c].values] for a numeric column. *)
Definition values (c : string) (df : DataFrame) : list float :=
  map (fun r : Row => num (r !! c)) (rows df).

(** Timestamp of a row; [None] stands for NaT. *)
Definition stamp (c : string) (r : Row) : option Z :=
  match r !! c with
  | Some (CDate t) => Some t
  | _ => None
  end.

(** Order used by [sort_values]: ascending, NaT last. *)
Definition stamp_leb (a b : option Z) : bool :=
  match a, b with
  | Some x, Some y => (x <=? y)%Z
  | Some _, None => true
  | None, Some _ => false
  | None, None => true
  end.

Fixpoint insert_sorted (c : string) (r : Row) (l : list Row) : list Row :=
  match l with
  | [] => [r]
  | r' :: l' =>
      if stamp_leb (stamp c r) (stamp c r') then r :: l
      else r' :: insert_sorted c r l'
  end.

(** [df.sort_values(c).reset_index(drop=True)], by insertion.  pandas
    does not promise an order among equal timestamps; here they keep the
    order they had. *)
Definition sort_values (c : string) (df : DataFrame) : DataFrame :=
  mkFrame (columns df) (fold_right (insert_sorted c) [] (rows df)).

(** [a] is not later than [b] in the column [c]. *)
Definition precedes (c : string) (a b : Row) : Prop :=
  stamp_leb (stamp c a) (stamp c b) = true.

(** Position selected by a Python slice bound [k] on a sequence of
    length [n]: negative bounds count from the end, all are clipped. *)
Definition slice_pos (n : nat) (k : Z) : nat :=
  if (k <? 0)%Z then Z.to_nat (Z.max 0 (Z.of_nat n + k))
  else Nat.min (Z.to_nat k) n.

(** [df.iloc[:k]] and [df.iloc[k:]]. *)
Definition iloc_to (k : Z) (df : DataFrame) : DataFrame :=
  mkFrame (columns df) (take (slice_pos (len df) k) (rows df)).

Definition iloc_from (k : Z) (df : DataFrame) : DataFrame :=
  mkFrame (columns df) (drop (slice_pos (len df) k) (rows df)).

(** [df[c] = vs] for a float array as long as the frame (every use below
    builds [vs] from the frame itself): a new column is appended to the
    column index, an existing one is overwritten. *)
Definition assign (c : string) (vs : list float) (df : DataFrame) : DataFrame :=
  mkFrame (if has_column c df then columns df else columns df ++ [c])
          (zip_with (fun (r : Row) v => <[c := CNum v]> r) (rows df) vs).

Definition fillna0_cell (x : cell) : cell :=
  match x with
  | CNum NaN => CNum (Fin 0)
  | _ => x
  end.

(** [df.fillna(0)]: every missing or NaN entry of every column becomes 0. *)
Definition fillna0 (df : DataFrame) : DataFrame :=
  mkFrame (columns df)
    (map (fun r : Row =>
            fold_right (fun c (acc : Row) =>
                          match acc !! c with
                          | None => <[c := CNum (Fin 0)]> acc
                          | Some v => <[c := fillna0_cell v]> acc
                          end) r (columns df))
         (rows df)).

(** What [fillna(0)] leaves in a place of a row. *)
Definition filled (o : option cell) : cell :=
  match o with
  | None => CNum (Fin 0)
  | Some v => fillna0_cell v
  end.

(** The entry is neither missing nor NaN. *)
Definition has_value (o : option cell) : bool :=
  match o with
  | None | Some (CNum NaN) => false
  | Some _ => true
  end.

(** [df.dropna(subset=["ds", "y"])]: rows without a timestamp or without
    a target are dropped. *)
Definition dropna_ds_y (df : DataFrame) : DataFrame :=
  mkFrame (columns df)
    (filter (fun r : Row => is_Some (stamp "ds" r) /\ has_value (r !! "y") = true)
            (rows df)).

(** pandas dtype [object] of a column of a frame read from records or a
    CSV file: the column holds a string, or the frame has no row at all
    (nothing then tells pandas that the column is numeric). *)
Definition dtype_object (c : string) (df : DataFrame) : bool :=
  match rows df with
  | [] => true
  | _ =>
      existsb (fun r : Row => match r !! c with Some (CStr _) => true | _ => false end)
              (rows df)
  end.

End Frame.

(** ** Series statistics (pandas, [skipna=True]) *)

Module Series.

Definition dropna (xs : list float) : list float :=
  filter (fun x => Float.is_nan x = false) xs.

(** [s.mean()]. *)
Definition mean (xs : list float) : float :=
  Float.mean (dropna xs).

(** [s.std(ddof=0)]: two-pass population standard deviation; NaN when no
    value is left. *)
Definition std_pop (xs : list float) : float :=
  let v := dropna xs in
  let avg := Float.mean v in
  match v with
  | [] => NaN
  | _ => Float.sqrt
           (Float.sum (map (fun x => Float.sq (x - avg)%fl) v)
            / Float.of_nat (length v))%fl
  end.

(** [s.std()], the pandas default [ddof=1]: NaN unless at least two values
    are left. *)
Definition std_sample (xs : list float) : float :=
  let v := dropna xs in
  let avg := Float.mean v in
  match v with
  | [] | [_] => NaN
  | _ => Float.sqrt
           (Float.sum (map (fun x => Float.sq (avg - x)%fl) v)
            / Float.of_nat (length v - 1))%fl
  end.

End Series.

(** ** Shared helpers *)

(** Python [int(x)] on a finite float: truncation towards zero. *)
Definition py_int (q : Q) : Z := Z.quot (Qnum q) (Zpos (Qden q)).

(** A Python number handed as a fraction ([train_frac], [test_size]): an
    [int], or a [float] given by the value of the double.  A rational used
    where a number is expected is the float written that way (the literal
    [0.9] is the double nearest to 9/10); an integer is an [int]. *)
Inductive number : Type :=
| Int (z : Z)
| Flt (x : Q).

Definition float_of_Q (q : Q) : number := Flt (Float.double q).

(** The real number a Python number stands for. *)
Definition number_value (x : number) : Q :=
  match x with
  | Int k => inject_Z k
  | Flt f => f
  end.

Coercion Int : Z >-> number.
Coercion float_of_Q : Q >-> number.

(** [n * x] for a length [n]: exact when [x] is an [int]; with a [float]
    the length is converted to a double and the product is rounded. *)
Definition times_len (n : nat) (x : number) : Q :=
  match x with
  | Int k => inject_Z (Z.of_nat n * k)
  | Flt f => Float.double (Float.double (inject_Z (Z.of_nat n)) * f)
  end.

(** [1 - x] *)
Definition one_minus (x : number) : number :=
  match x with
  | Int k => Int (1 - k)
  | Flt f => Flt (Float.double (1 - f))
  end.

(** [round(x, 2)] and [round(x, 4)]: half to even at the given decimals. *)
Definition round_nd (digits : Z) (x : float) : float :=
  match x with
  | Fin q =>
      let s := inject_Z (10 ^ digits) in
      Fin (inject_Z (Float.rint (q * s)) / s)
  | _ => x
  end.

(** Names Prophet keeps for its own columns; the sources filter them out
    of the regressor list with [name not in ['ds', 'y', 'cap', 'floor']]. *)
Definition reserved_names : list string := ["ds"; "y"; "cap"; "floor"].

Definition not_reserved (name : string) : bool :=
  negb (bool_decide (name ∈ reserved_names)).

(** The first of [names] that is not a column of [df]. *)
Definition missing_column (names : list string) (df : DataFrame) : option string :=
  head (filter (fun c => Frame.has_column c df = false) names).

(** [df[names]]: the frame restricted to the listed columns; [KeyError]
    when one of them is not a column. *)
Definition select (names : list string) (df : DataFrame) : result DataFrame :=
  match missing_column names df with
  | Some c => Raise (KeyError c)
  | None =>
      Ok (mkFrame names
            (map (fun r : Row =>
                    fold_right (fun c (acc : Row) =>
                                  match r !! c with
                                  | Some v => <[c := v]> acc
                                  | None => acc
                                  end) ∅ names)
                 (rows df)))
  end.

(** [df[c].values]: the entries of one column, [None] where the row has
    none; [KeyError] when the frame has no such column. *)
Definition column_values (c : string) (df : DataFrame) : result (list (option cell)) :=
  if Frame.has_column c df then Ok (map (fun r : Row => r !! c) (rows df))
  else Raise (KeyError c).

(** [{name: df[name].values for name in names}], as the list of its items
    in the order they are evaluated. *)
Fixpoint columns_dict (names : list string) (df : DataFrame)
  : result (list (string * list (option cell))) :=
  match names with
  | [] => Ok []
  | name :: rest =>
      let* v := column_values name df in
      let* items := columns_dict rest df in
      Ok ((name, v) :: items)
  end.

(** The keys of a dictionary built from [names] in that order: a name
    that comes again keeps its first position. *)
Definition ordered_keys (names : list string) : list string :=
  fold_left (fun (acc : list string) name =>
               if bool_decide (name ∈ acc) then acc else (acc ++ [name])%list)
            names [].

(** Row [i] of the frame built from the items of a dictionary of arrays;
    a later item with the same key replaces the earlier one. *)
Definition dict_row (items : list (string * list (option cell))) (i : nat) : Row :=
  fold_left (fun (acc : Row) (item : string * list (option cell)) =>
               match snd item !! i with
               | Some (Some v) => <[fst item := v]> acc
               | _ => delete (fst item) acc
               end) items ∅.

(** [pd.DataFrame(dict)] for a dictionary of arrays: the columns are the
    keys in their order, and arrays of different lengths are refused. *)
Definition frame_of_dict (items : list (string * list (option cell)))
  : result DataFrame :=
  let n := length (snd (hd ("", []) items)) in
  if forallb (fun item => (length (snd item) =? n)%nat) items then
    Ok (mkFrame (ordered_keys (map fst items)) (map (dict_row items) (seq 0 n)))
  else Raise (ValueError "All arrays must be of the same length").

(** ** ml/data/preprocessing/featureExtraction.py *)

Module FeatureExtraction.

(** [s.rolling(window=w).mean()]: NaN until [w] values are available and
    whenever the window holds a NaN. *)
Definition rolling_mean (w : nat) (xs : list float) : list float :=
  map (fun i =>
         if (S i <? w)%nat then NaN
         else
           let win := take w (drop (S i - w) xs) in
           if existsb Float.is_nan win then NaN else Float.mean win)
      (seq 0 (length xs)).

(** The columns [extract_features] reads, in the order it reads them. *)
Definition required : list string :=
  ["Income_Total"; "Expenses_Total"; "Monthly_Income"; "Monthly_Expenses"].

(** The standardisation step of [extract_features] (its last three
    statements): mean, population standard deviation, and the target
    [y = (Income_Total - mu) / sigma].  There is no test on [sigma]. *)
Definition mu_sigma (df : DataFrame) : float * float :=
  let income := Frame.values "Income_Total" df in
  (Series.mean income, Series.std_pop income).

Definition standardize (df : DataFrame) : DataFrame :=
  let income := Frame.values "Income_Total" df in
  let '(mu, sigma) := mu_sigma df in
  Frame.assign "y" (map (fun x => ((x - mu) / sigma)%fl) income) df.

Definition extract_features (dataframe : DataFrame) : result DataFrame :=
  match filter (fun c => negb (Frame.has_column c dataframe)) required with
  | c :: _ => Raise (KeyError c)
  | [] =>
      let income := Frame.values "Income_Total" dataframe in
      let expenses := Frame.values "Expenses_Total" dataframe in
      let m_income := Frame.values "Monthly_Income" dataframe in
      let m_expenses := Frame.values "Monthly_Expenses" dataframe in
      let df := Frame.assign "income_rolling_avg_3m"
                  (map Float.round_m1 (rolling_mean 90 income)) dataframe in
      let df := Frame.assign "expense_to_income_ratio"
                  (map (round_nd 2) (zip_with Float.div expenses income)) df in
      let df := Frame.assign "net_Income"
                  (map Float.round_m1 (zip_with Float.sub income expenses)) df in
      let df := Frame.assign "savings"
                  (zip_with Float.sub m_income m_expenses) df in
      Ok (standardize (Frame.fillna0 df))
  end.

(** [burnout_risk]: hours per unit of income, times 1000, as a new
    column; the [print] of the first rows is left out. *)
Definition burnout_risk (df : DataFrame) : result DataFrame :=
  match filter (fun c => negb (Frame.has_column c df))
               ["Hours_Worked"; "Income_Total"] with
  | c :: _ => Raise (KeyError c)
  | [] =>
      let hours := Frame.values "Hours_Worked" df in
      let income := Frame.values "Income_Total" df in
      Ok (Frame.assign "burnout_risk_score"
            (map (fun r => (r * Fin 1000)%fl) (zip_with Float.div hours income)) df)
  end.

End FeatureExtraction.

(** ** External libraries

    Prophet and scikit-learn are not part of the repository.  The state
    the sources read and write on their objects is modelled by records;
    what the libraries compute is an interface the development is
    parametric in. *)

(** Fitted parameters of a Prophet model: the dictionary [m.params] of
    arrays with one row per posterior draw. *)
Abbreviation Params := (gmap string (list (list float))).

Record Prophet : Type := mkProphet {
  extra_regressors : list string;   (* keys of the ordered dictionary *)
  mcmc_samples : nat;
  params : Params;
  fitted : bool;
}.

(** [Prophet()] *)
Definition new_prophet : Prophet := mkProphet [] 0 ∅ false.

(** A value of the warm-start dictionary. *)
Inductive init_value : Type :=
| Scalar (x : float)
| Vector (xs : list float).

Class ProphetLib : Type := {
  (** the check [m.add_regressor(name)] makes on the name
      ([validate_column_name]): Prophet refuses the names it keeps for its
      own columns with a [ValueError] *)
  validate_column_name : string -> result unit;
  (** the optimiser behind [m.fit(df, init=...)]: the fitted parameters *)
  stan_fit : list string -> DataFrame -> option (gmap string init_value) -> result Params;
  (** the column [yhat] of [m.predict(df)] *)
  predict_yhat : Prophet -> DataFrame -> result (list float);
  (** [prophet.serialize]: both directions work on text *)
  model_to_json : Prophet -> string;
  model_from_json : string -> result Prophet;
}.

(** The scikit-learn [Pipeline] around a [ColumnTransformer]: the
    categorical columns get an ordinal code (unknown values -1), numeric
    ones pass through.  [categories] is what [fit] learns. *)
Record Pipeline : Type := mkPipeline {
  cat_cols : list string;
  num_cols : list string;
  categories : option (list (list string));
}.

Class Sklearn : Type := {
  (** [pipe.fit(X)] returns the pipeline with its fitted state;
      [pipe.transform(X)] the encoded two-dimensional array *)
  pipe_fit : Pipeline -> DataFrame -> result Pipeline;
  pipe_transform : Pipeline -> DataFrame -> result (list (list float));
  mean_absolute_error : list float -> list float -> result float;
  mean_squared_error : list float -> list float -> result float;
  r2_score : list float -> list float -> result float;
  accuracy_score : list float -> list float -> result float;
}.

(** [m.add_regressor(name)]: refused on a fitted model and on a name that
    Prophet does not accept; otherwise the name becomes a key of an
    ordered dictionary, so a name added twice keeps its first position. *)
Definition add_regressor `{ProphetLib} (m : Prophet) (name : string) : result Prophet :=
  if fitted m then
    Raise (LibraryError "Regressors must be added prior to model fitting.")
  else
    let* _ := validate_column_name name in
    Ok (if bool_decide (name ∈ extra_regressors m) then m
        else mkProphet (extra_regressors m ++ [name]) (mcmc_samples m) (params m)
               (fitted m)).

(** [for name in names: m.add_regressor(name)] *)
Fixpoint add_regressors `{ProphetLib} (m : Prophet) (names : list string)
  : result Prophet :=
  match names with
  | [] => Ok m
  | name :: rest =>
      let* m := add_regressor m name in
      add_regressors m rest
  end.

(** [m.fit(df, init=init)] *)
Definition prophet_fit `{ProphetLib} (m : Prophet) (df : DataFrame)
    (init : option (gmap string init_value)) : result Prophet :=
  let* p := stan_fit (extra_regressors m) df init in
  Ok (mkProphet (extra_regressors m) (mcmc_samples m) p true).


(** ** Files *)

Abbreviation FS := (gmap string string).

(** What is handed to [f.write]: text or bytes. *)
Inductive payload : Type :=
| Text (s : string)
| Bytes (s : string).

(** [with open(path, "r") as f: f.read()] *)
Definition read_text (path : string) (fs : FS) : result string :=
  match fs !! path with
  | Some s => Ok s
  | None => Raise (FileNotFoundError path)
  end.

(** [open(path, 'wb')] creates the file or truncates it; the directory
    is taken to exist. *)
Definition open_wb (path : string) (fs : FS) : FS := <[path := ""]> fs.

(** [f.write(data)] on a file opened in binary mode: text is refused. *)
Definition write_binary (path : string) (data : payload) (fs : FS)
  : result unit * FS :=
  match data with
  | Text _ => (Raise (TypeError "a bytes-like object is required, not 'str'"), fs)
  | Bytes b => (Ok tt, <[path := default "" (fs !! path) ++ b]> fs)
  end.

(** ** ml/models/inference.py *)

Module Inference.

(** Mean of all entries of a two-dimensional array, and of each column. *)
Definition mean_all (a : list (list float)) : float := Float.mean (concat a).

Definition mean_axis0 (a : list (list float)) : list float :=
  map (fun j => Float.mean (map (fun row => nth j row NaN) a))
      (seq 0 (length (hd [] a))).

Definition param (m : Prophet) (pname : string) : result (list (list float)) :=
  match params m !! pname with
  | Some a => Ok a
  | None => Raise (KeyError pname)
  end.

Definition first {A} (l : list A) : result A :=
  match l with
  | x :: _ => Ok x
  | [] => Raise IndexError
  end.

Definition warm_scalar (m : Prophet) (pname : string) : result init_value :=
  let* a := param m pname in
  if (mcmc_samples m =? 0)%nat then
    let* row := first a in
    let* x := first row in
    Ok (Scalar x)
  else Ok (Scalar (mean_all a)).

Definition warm_vector (m : Prophet) (pname : string) : result init_value :=
  let* a := param m pname in
  if (mcmc_samples m =? 0)%nat then
    let* row := first a in
    Ok (Vector row)
  else Ok (Vector (mean_axis0 a)).

Definition warm_start_params (m : Prophet) : result (gmap string init_value) :=
  let* k := warm_scalar m "k" in
  let* m0 := warm_scalar m "m" in
  let* s := warm_scalar m "sigma_obs" in
  let* d := warm_vector m "delta" in
  let* b := warm_vector m "beta" in
  Ok (<["beta" := b]> (<["delta" := d]> (<["sigma_obs" := s]>
        (<["m" := m0]> (<["k" := k]> ∅))))).

(** [load_dataset]: [csvs] holds the table [pd.read_csv] parses from each
    existing file, timestamps already read ([pd.to_datetime] with
    [errors="coerce"] turns everything else into NaT). *)
Definition load_dataset (csv_path : string) (csvs : gmap string DataFrame)
  : result DataFrame :=
  match csvs !! csv_path with
  | None => Raise (FileNotFoundError csv_path)
  | Some df =>
      if negb (Frame.has_column "ds" df) || negb (Frame.has_column "y" df) then
        Raise (ValueError "Input CSV must contain 'ds' and 'y' columns")
      else
        Ok (Frame.fillna0 (Frame.dropna_ds_y (Frame.sort_values "ds" df)))
  end.

(** [time_series_split]: the index is [int(n * (1 - test_size))]. *)
Definition time_series_split (df : DataFrame) (test_size : number)
  : DataFrame * DataFrame :=
  let n := Frame.len df in
  let split_idx := py_int (times_len n (one_minus test_size)) in
  (Frame.iloc_to split_idx df, Frame.iloc_from split_idx df).

(** The regressor names both [fit_prophet] and [infer_prophet] keep. *)
Definition safe_feature_names (feature_names : list string) : list string :=
  filter (fun name => not_reserved name = true) feature_names.

(** [pd.DataFrame({"ds": train_df["ds"].values, "y": train_df["y"].values,
    **{name: regressor_df[name].values for name in names}})] *)
Definition training_frame (train_df regressor_df : DataFrame) (names : list string)
  : result DataFrame :=
  let* ds := column_values "ds" train_df in
  let* y := column_values "y" train_df in
  let* regressors := columns_dict names regressor_df in
  frame_of_dict (("ds", ds) :: ("y", y) :: regressors).

Definition fit_prophet `{ProphetLib} (train_df regressor_df : DataFrame)
    (feature_names : list string) (prev_Model : option Prophet) : result Prophet :=
  let m := new_prophet in
  let safe := safe_feature_names feature_names in
  let* m := add_regressors m safe in
  let* train_for_prophet := training_frame train_df regressor_df safe in
  match prev_Model with
  | Some prev =>
      let* init := warm_start_params prev in
      prophet_fit m train_for_prophet (Some init)
  | None => prophet_fit m train_for_prophet None
  end.

Definition get_feature_pipeline (feats : DataFrame) : Pipeline * list string :=
  let feat_cols :=
    filter (fun c => bool_decide (c ∉ ["ds"; "y"])) (columns feats) in
  let cat := filter (fun c => Frame.dtype_object c feats = true) feat_cols in
  let num := filter (fun c => bool_decide (c ∉ cat)) feat_cols in
  (mkPipeline cat num None, (cat ++ num)%list).

(** [pd.DataFrame({"ds": df["ds"].values,
    **{name: regressor_df[name].values for name in names}})] *)
Definition future_frame (df regressor_df : DataFrame) (names : list string)
  : result DataFrame :=
  let* ds := column_values "ds" df in
  let* regressors := columns_dict names regressor_df in
  frame_of_dict (("ds", ds) :: regressors).

(** [infer_prophet]: the column [yhat] of the forecast it returns. *)
Definition infer_prophet `{ProphetLib} (model_path : string)
    (df regressor_df : DataFrame) (feature_names : list string) (fs : FS)
  : result (list float) :=
  let* text := read_text model_path fs in
  let* m := model_from_json text in
  let safe := safe_feature_names feature_names in
  let* future := future_frame df regressor_df safe in
  predict_yhat m future.

(** What a caller can hand as [pred_y]: a numpy array, which is the
    declared type and what [forecast['yhat'].values] is, or the pandas
    Series [forecast['yhat']] itself. *)
Inductive array_like : Type :=
| NdArray (xs : list float)
| PdSeries (xs : list float).

Definition elements (a : array_like) : list float :=
  match a with
  | NdArray xs | PdSeries xs => xs
  end.

(** [a * sigma + mu]: elementwise on both kinds, and of the same kind. *)
Definition affine (a : array_like) (mu sigma : float) : array_like :=
  match a with
  | NdArray xs => NdArray (map (fun y => (y * sigma + mu)%fl) xs)
  | PdSeries xs => PdSeries (map (fun y => (y * sigma + mu)%fl) xs)
  end.

(** The built-in [round(v, -1)] calls [type(v).__round__(-1)]: a pandas
    Series has that method and rounds elementwise, a numpy array has
    none. *)
Definition py_round_m1 (v : array_like) : result array_like :=
  match v with
  | NdArray _ => Raise (TypeError "type numpy.ndarray doesn't define __round__ method")
  | PdSeries xs => Ok (PdSeries (map Float.round_m1 xs))
  end.

(** [income_from_standardized]: [round(pred_y * sigma + mu, -1)]. *)
Definition income_from_standardized (pred_y : array_like) (mu sigma : float)
  : result array_like :=
  py_round_m1 (affine pred_y mu sigma).

(** [pd.DataFrame(array, columns=names)] *)
Definition frame_of_array (names : list string) (a : list (list float)) : DataFrame :=
  mkFrame names
    (map (fun vals => list_to_map (zip names (CNum <$> vals)) : Row) a).

(** The standardisation statistics of [train_prophet] and
    [retrain_prophet]: a zero standard deviation is replaced by 1.0. *)
Definition mu_sigma (feats : DataFrame) : float * float :=
  let income := Frame.values "Income_Total" feats in
  (Series.mean income, Float.or_else (Series.std_pop income) (Fin 1)).

(** [feats['y'] = (feats['Income_Total'] - mu) / sigma], only when the
    frame has no column [y] yet. *)
Definition ensure_y (feats : DataFrame) (mu sigma : float) : DataFrame :=
  if Frame.has_column "y" feats then feats
  else Frame.assign "y"
         (map (fun x => ((x - mu) / sigma)%fl) (Frame.values "Income_Total" feats))
         feats.

(** [max(1, int(len(feats) * train_frac))] *)
Definition split_index (n : nat) (train_frac : number) : Z :=
  Z.max 1 (py_int (times_len n train_frac)).

(** The train/validation split shared by [train_prophet],
    [retrain_prophet] and [main._train_prophet]; the validation frame is
    [None] when no row is left for it. *)
Definition train_val_split (feats : DataFrame) (train_frac : number)
  : DataFrame * option DataFrame :=
  let split_idx := split_index (Frame.len feats) train_frac in
  (Frame.iloc_to split_idx feats,
   if (split_idx <? Z.of_nat (Frame.len feats))%Z
   then Some (Frame.iloc_from split_idx feats) else None).

(** The rows of the validation partition: none when it is [None]. *)
Definition val_rows (val_df : option DataFrame) : list Row :=
  match val_df with
  | Some df => rows df
  | None => []
  end.

(** The statements that open [train_prophet], [retrain_prophet] and
    [main._train_prophet]: sort, check the income column, standardise,
    split. *)
Definition prepare (feats : DataFrame) (train_frac : number)
  : result (DataFrame * (float * float) * DataFrame * option DataFrame) :=
  if negb (Frame.has_column "ds" feats) then Raise (KeyError "ds") else
  let feats := Frame.sort_values "ds" feats in
  if negb (Frame.has_column "Income_Total" feats) then
    Raise (ValueError "'Income_Total' is required in features for standardization stats")
  else
    let '(mu, sigma) := mu_sigma feats in
    let feats := ensure_y feats mu sigma in
    let '(train_df, val_df) := train_val_split feats train_frac in
    Ok (feats, (mu, sigma), train_df, val_df).

(** Fitting the feature pipeline on the training rows and encoding them. *)
Definition encode_train `{Sklearn} (feats train_df : DataFrame)
  : result (Pipeline * list string * DataFrame) :=
  let '(feature_pipe, feat_names) := get_feature_pipeline feats in
  let* X := select feat_names train_df in
  let* feature_pipe := pipe_fit feature_pipe X in
  let* X := select feat_names train_df in
  let* a := pipe_transform feature_pipe X in
  Ok (feature_pipe, feat_names, frame_of_array feat_names a).

Definition retrain_path (userId : Z) : string :=
  "../models/artifacts/model_user_" +:+ pretty userId +:+ ".json".

Definition train_path (userId : Z) : string :=
  "../models/artifacts/modelUser_" +:+ pretty userId +:+ ".json".

(** [retrain_prophet]; the call to [plot_components] draws a figure and
    is left out. *)
Definition retrain_prophet `{ProphetLib} `{Sklearn} (userId : Z)
    (feats : DataFrame) (train_frac : number) (fs : FS) : result (gmap string float) :=
  let* text := read_text (retrain_path userId) fs in
  let* m := model_from_json text in
  let* '(feats, _mu_sigma, train_df, val_df) := prepare feats train_frac in
  let* '(feature_pipe, feat_names, reg_train_df) := encode_train feats train_df in
  let* prophet_model := fit_prophet train_df reg_train_df feat_names (Some m) in
  let* X := select ("ds" :: feat_names) train_df in
  let* yhat := predict_yhat prophet_model X in
  let* mae := mean_absolute_error (Frame.values "y" train_df) yhat in
  let* mse := mean_squared_error (Frame.values "y" train_df) yhat in
  Ok (<["rmse" := Float.sqrt mse]> (<["mae" := mae]> ∅)).

(** [train_prophet] writes the artifact, so it also returns the files. *)
Definition train_prophet `{ProphetLib} `{Sklearn} (userId : Z)
    (feats : DataFrame) (train_frac : number) (fs : FS)
  : result (Prophet * (float * float)) * FS :=
  match
    (let* '(feats, _mu_sigma, train_df, val_df) := prepare feats train_frac in
     let* '(feature_pipe, feat_names, reg_train_df) := encode_train feats train_df in
     let* _prophet_model := fit_prophet train_df reg_train_df feat_names None in
     Ok (_prophet_model, _mu_sigma))
  with
  | Raise e => (Raise e, fs)
  | Ok (_prophet_model, _mu_sigma) =>
      let fs := open_wb (train_path userId) fs in
      match write_binary (train_path userId) (Text (model_to_json _prophet_model)) fs with
      | (Raise e, fs) => (Raise e, fs)
      | (Ok _, fs) => (Ok (_prophet_model, _mu_sigma), fs)
      end
  end.

(** [l[i]] for an index that is not negative. *)
Definition index {A} (l : list A) (i : nat) : result A :=
  match l !! i with
  | Some x => Ok x
  | None => Raise IndexError
  end.

(** [np.concatenate([residuals.reshape(-1, 1), regressors], axis=1)]: the
    residual becomes the first entry of each row; the two arrays must have
    as many rows. *)
Definition combine_columns (residuals : list float) (regressors : list (list float))
  : result (list (list float)) :=
  if (length residuals =? length regressors)%nat then
    Ok (zip_with cons residuals regressors)
  else
    Raise (ValueError "all the input array dimensions except for the concatenation axis must match exactly").

(** The loop of [create_residual_sequences] over the indices [idx]. *)
Fixpoint residual_loop (combined : list (list float)) (residuals : list float)
    (seq_len : nat) (idx : list nat)
    (X : list (list (list float))) (y : list float)
  : result (list (list (list float)) * list float) :=
  match idx with
  | [] => Ok (X, y)
  | i :: rest =>
      let window := take (i - (i - seq_len)) (drop (i - seq_len) combined) in
      let* target := index residuals i in
      residual_loop combined residuals seq_len rest (X ++ [window]) (y ++ [target])
  end.

(** [create_residual_sequences], for a window length that is not negative
    (the default is 30). *)
Definition create_residual_sequences (residuals : list float)
    (regressors : list (list float)) (seq_len : nat)
  : result (list (list (list float)) * list float) :=
  let* combined := combine_columns residuals regressors in
  residual_loop combined residuals seq_len
    (seq seq_len (length residuals - seq_len)) [] [].

(** [load_income_stats]: mean and sample standard deviation of one column
    of a CSV file. *)
Definition load_income_stats (stats_csv income_col : string)
    (csvs : gmap string DataFrame) : result (float * float) :=
  match csvs !! stats_csv with
  | None => Raise (FileNotFoundError ("Stats CSV not found: " +:+ stats_csv))
  | Some df_stats =>
      if negb (Frame.has_column income_col df_stats) then
        Raise (ValueError ("Column '" +:+ income_col +:+ "' not found in " +:+ stats_csv))
      else
        let series := Series.dropna (Frame.values income_col df_stats) in
        Ok (Series.mean series, Series.std_sample series)
  end.

End Inference.

(** ** ml/main.py *)

Module Main.

Abbreviation Metrics := (gmap string float).

(** The three validation metrics, written with numpy on the arrays of
    actual and predicted standardized values. *)
Definition residuals (actual pred : list float) : list float :=
  zip_with Float.sub actual pred.

(** [float(np.mean(np.abs(val_y_actual - val_y_pred)))] *)
Definition val_mae (actual pred : list float) : float :=
  Float.mean (map Float.abs (residuals actual pred)).

(** [float(np.sqrt(np.mean((val_y_actual - val_y_pred) ** 2)))] *)
Definition val_rmse (actual pred : list float) : float :=
  Float.sqrt (Float.mean (map Float.sq (residuals actual pred))).

(** [np.sum((val_y_actual - val_y_pred) ** 2)] *)
Definition ss_res (actual pred : list float) : float :=
  Float.sum (map Float.sq (residuals actual pred)).

(** [np.sum((val_y_actual - np.mean(val_y_actual)) ** 2)] *)
Definition ss_tot (actual : list float) : float :=
  let avg := Float.mean actual in
  Float.sum (map (fun a => Float.sq (a - avg)%fl) actual).

(** [float(1 - np.sum((a - p) ** 2) / np.sum((a - np.mean(a)) ** 2))]:
    the quotient is taken whatever the denominator is. *)
Definition val_r2 (actual pred : list float) : float :=
  (Fin 1 - ss_res actual pred / ss_tot actual)%fl.

Definition train_metrics (accuracy mae rmse r2 : float) : Metrics :=
  <["train_r2" := r2]> (<["train_rmse" := rmse]>
    (<["train_mae" := mae]> (<["accuracy" := accuracy]> ∅))).

(** [metrics.update({'val_mae': ..., 'val_rmse': ..., 'val_r2': ...})] *)
Definition with_validation (metrics : Metrics) (actual pred : list float) : Metrics :=
  <["val_r2" := val_r2 actual pred]> (<["val_rmse" := val_rmse actual pred]>
    (<["val_mae" := val_mae actual pred]> metrics)).

(** [_train_prophet].  The local [safe_regressors] is an option: the
    statement [del safe_regressors, reg_train_df] leaves it unbound, and a
    later read of an unbound local raises.  The assignments to the globals
    [_prophet_model] and [_mu_sigma] are not part of the model. *)
Definition _train_prophet `{ProphetLib} `{Sklearn} (feats : DataFrame)
    (train_frac : number) : result Metrics :=
  let* '(feats, _mu_sigma, train_df, val_df) := Inference.prepare feats train_frac in
  let* '(feature_pipe, feat_names, reg_train_df) :=
    Inference.encode_train feats train_df in
  let safe_regressors := Some (filter (fun c => not_reserved c = true) feat_names) in
  let m := new_prophet in
  let* names := read_local "safe_regressors" safe_regressors in
  let* m := add_regressors m names in
  let* names := read_local "safe_regressors" safe_regressors in
  let* train_prophet_df := Inference.training_frame train_df reg_train_df names in
  (* del safe_regressors, reg_train_df *)
  let safe_regressors : option (list string) := None in
  let* m := prophet_fit m train_prophet_df None in
  let* train_y_pred := predict_yhat m train_prophet_df in
  let train_y_actual := Frame.values "y" train_df in
  let* train_mae := mean_absolute_error train_y_actual train_y_pred in
  let* mse := mean_squared_error train_y_actual train_y_pred in
  let train_rmse := round_nd 4 (Float.sqrt mse) in
  let* train_r2 := r2_score train_y_actual train_y_pred in
  let* train_accuracy :=
    accuracy_score (map Float.round0 train_y_actual) (map Float.round0 train_y_pred) in
  let metrics := train_metrics train_accuracy train_mae train_rmse train_r2 in
  match val_df with
  | None => Ok metrics
  | Some val_df =>
      if (0 <? Frame.len val_df)%nat then
        let* X := select feat_names val_df in
        let* a := pipe_transform feature_pipe X in
        let reg_val_df := Inference.frame_of_array feat_names a in
        let* ds := column_values "ds" val_df in
        let* names := read_local "safe_regressors" safe_regressors in
        let* regressors := columns_dict names reg_val_df in
        let* val_prophet_df := frame_of_dict (("ds", ds) :: regressors) in
        let* val_y_pred := predict_yhat m val_prophet_df in
        let val_y_actual := Frame.values "y" val_df in
        Ok (with_validation metrics val_y_actual val_y_pred)
      else Ok metrics
  end.

(** The three numbers of one block of the ["accuracy"] report. *)
Record Scores : Type := mkScores {
  mae : float;
  rmse : float;
  r2 : float;
}.

(** The JSON document of a successful [/train] call; a [None] field is
    the JSON [null]. *)
Record Trained : Type := mkTrained {
  status : string;
  n_rows : Z;
  train_rows : Z;
  message : string;
  csv_path : string;
  accuracy_train : Scores;
  accuracy_validation : option Scores;
}.

(** What a handler returns: the JSON body with its HTTP status. *)
Inductive response : Type :=
| Success (body : Trained)                 (* 200 *)
| BadRequest (error : string)              (* 400, {"error": ...} *)
| ServerError (error : string).            (* 500, {"Error": ...} *)

(** [round(metrics.get(key, 0), 4)] *)
Definition metric4 (metrics : Metrics) (key : string) : float :=
  round_nd 4 (default (Fin 0) (metrics !! key)).

(** The ["train"] and ["validation"] blocks of the response. *)
Definition train_report (metrics : Metrics) : Scores :=
  mkScores (metric4 metrics "train_mae") (metric4 metrics "train_rmse")
           (metric4 metrics "train_r2").

Definition validation_report (metrics : Metrics) : option Scores :=
  if bool_decide (is_Some (metrics !! "val_mae"))
  then Some (mkScores (metric4 metrics "val_mae") (metric4 metrics "val_rmse")
                      (metric4 metrics "val_r2"))
  else None.

Definition exn_text (e : exn) : string :=
  match e with
  | ValueError msg | TypeError msg => msg
  | KeyError k => k
  | FileNotFoundError p => p
  | UnboundLocalError v => v
  | IndexError => "list index out of range"
  | LibraryError o => o
  end.

(** [train_endpoint], from the parsed list of records on.  Building the
    feature frame ([_json_to_features]: remote fuel prices, files under
    [uploads/], then [extract_features]) is the parameter
    [json_to_features].  The model is trained with the integer
    [train_frac=1]; [train_rows] is [int(len(feats) * 0.9)], kept here as
    the integer part of the exact [9 n / 10], which is what the binary64
    product gives on every length it was compared on
    ([train_rows_product_agrees] below). *)
Definition train_endpoint `{ProphetLib} `{Sklearn}
    (json_to_features : list Row -> result DataFrame) (records : list Row)
  : response :=
  match records with
  | [] => BadRequest "Provide a non-empty JSON array or {'data': [...]}"
  | _ =>
      match (let* feats := json_to_features records in
             let* metrics := _train_prophet feats (Int 1) in
             Ok (feats, metrics)) with
      | Raise e => ServerError (exn_text e)
      | Ok (feats, metrics) =>
          Success
            (mkTrained "trained"
               (Z.of_nat (Frame.len feats))
               (py_int (inject_Z (Z.of_nat (Frame.len feats)) * (9 # 10)))
               "Prophet model trained and forecast prepared."
               "uploads/predictions.csv"
               (train_report metrics)
               (validation_report metrics))
      end
  end.

(** [s.split('-')] *)
Fixpoint split_dash (s : string) : list string :=
  match s with
  | EmptyString => [""]
  | String c s' =>
      if Ascii.eqb c (Ascii.ascii_of_nat 45) then "" :: split_dash s'
      else
        match split_dash s' with
        | piece :: pieces => String c piece :: pieces
        | [] => [String c ""]
        end
  end.

(** The table of [get_Monthly_Unemployment_Rate]. *)
Definition rates : gmap Z float :=
  list_to_map
    [(1, Fin 5); (2, Fin (51 # 10)); (3, Fin (52 # 10)); (4, Fin (53 # 10));
     (5, Fin (54 # 10)); (6, Fin (55 # 10)); (7, Fin (56 # 10)); (8, Fin (57 # 10));
     (9, Fin (58 # 10)); (10, Fin (59 # 10)); (11, Fin 6); (12, Fin (61 # 10))]%Z.

(** [get_Monthly_Unemployment_Rate]; [int_of_str] is Python's [int] on a
    string, which raises [ValueError] on what is not a number. *)
Definition get_Monthly_Unemployment_Rate (int_of_str : string -> result Z)
    (date : string) : result float :=
  let* piece := Inference.index (split_dash date) 1 in
  let* month := int_of_str piece in
  Ok (default (Fin 5) (rates !! month)).

End Main.

(** ** ml/pipelines/training.py *)

Module Training.

(** A value handed to the tracking server. *)
Inductive logged : Type :=
| LStr (s : string)
| LNum (x : float)
| LInt (n : Z).

(** What [train_model] acts on: the artifact files and the entries sent
    to the tracking server ([log_param], [log_metric], [log_model],
    [log_artifact]), latest first. *)
Record World : Type := mkWorld {
  files : FS;
  tracked : list (string * logged);
}.

(** Stateful code that may raise: the world is kept when it does. *)
Definition M (A : Type) : Type := World -> result A * World.

Definition ret {A} (a : A) : M A := fun w => (Ok a, w).

Definition mbind {A B} (m : M A) (k : A -> M B) : M B :=
  fun w =>
    match m w with
    | (Ok a, w') => k a w'
    | (Raise e, w') => (Raise e, w')
    end.

Notation "'let!' x := m 'in' k" := (mbind m (fun x => k))
  (at level 10, x name, m at level 200, k at level 200).
Notation "'let!' ' p := m 'in' k" := (mbind m (fun x => match x with p => k end))
  (at level 10, p strict pattern, m at level 200, k at level 200).

Definition lift {A} (r : result A) : M A := fun w => (r, w).

(** [mlflow.log_param], [mlflow.log_metric], ... *)
Definition log (key : string) (v : logged) : M unit :=
  fun w => (Ok tt, mkWorld (files w) ((key, v) :: tracked w)).

(** Code that works on the files only. *)
Definition on_files {A} (f : FS -> result A * FS) : M A :=
  fun w => let '(r, fs) := f (files w) in (r, mkWorld fs (tracked w)).

(** [try: body except Exception as e: handler(e)] *)
Definition try_except {A} (body : M A) (handler : exn -> M A) : M A :=
  fun w =>
    match body w with
    | (Ok a, w') => (Ok a, w')
    | (Raise e, w') => handler e w'
    end.

(** [raise] *)
Definition reraise {A} (e : exn) : M A := fun w => (Raise e, w).

(** The keyword arguments of [train_model], with their defaults. *)
Record Kwargs : Type := mkKwargs {
  test_size : Q;
  train_frac : Q;
  plot : bool;
  save_plot_path : option string;
}.

Definition default_kwargs : Kwargs := mkKwargs (2 # 10) (9 # 10) true None.

Record RunInfo : Type := mkRunInfo {
  user_id : Z;
  mae : float;
  rmse : float;
  income_mean : float;
  income_std : float;
  total_samples : nat;
  train_samples : nat;
  test_samples : nat;
}.

Definition lnat (n : nat) : logged := LInt (Z.of_nat n).

Section TrainingPipeline.
Context `{ProphetLib} `{Sklearn}.
(** The CSV files on disk, as [pd.read_csv] parses them. *)
Variable csvs : gmap string DataFrame.

(** The [try] block of [train_model]. *)
Definition train_model_body (userId : Z) (csv_path : string) (kw : Kwargs)
  : M RunInfo :=
  let! _ := log "user_id" (LInt userId) in
  let! _ := log "test_size" (LNum (Fin (test_size kw))) in
  let! _ := log "train_frac" (LNum (Fin (train_frac kw))) in
  let! _ := log "csv_path" (LStr csv_path) in
  let! feats := lift (Inference.load_dataset csv_path csvs) in
  let! _ := log "total_samples" (lnat (Frame.len feats)) in
  let '(train_df, test_df) := Inference.time_series_split feats (test_size kw) in
  let! _ := log "train_samples" (lnat (Frame.len train_df)) in
  let! _ := log "test_samples" (lnat (Frame.len test_df)) in
  let '(feature_pipe, feat_names) := Inference.get_feature_pipeline feats in
  let! _ := log "feature_count" (lnat (length feat_names)) in
  let! _ := log "features" (LStr (String.concat "," feat_names)) in
  let! '(prophet_model, (mu, sigma)) :=
    on_files (Inference.train_prophet userId feats (train_frac kw)) in
  let! _ := log "income_mean" (LNum mu) in
  let! _ := log "income_std" (LNum sigma) in
  let! X := lift (select feat_names test_df) in
  let! a := lift (pipe_transform feature_pipe X) in
  let reg_test_df := Inference.frame_of_array feat_names a in
  let! yhat :=
    on_files (fun fs =>
      (Inference.infer_prophet (Inference.train_path userId)
         test_df reg_test_df feat_names fs, fs)) in
  let! mae := lift (mean_absolute_error (Frame.values "y" test_df) yhat) in
  let! mse := lift (mean_squared_error (Frame.values "y" test_df) yhat) in
  let rmse := Float.sqrt mse in
  let! _ := log "test_mae" (LNum mae) in
  let! _ := log "test_rmse" (LNum rmse) in
  let! _ := log "model" (LStr (Inference.train_path userId)) in
  let! _ :=
    if plot kw then
      log "artifact"
          (LStr (default ("models/user_" +:+ pretty userId +:+ "_inference_plot.png")
                         (save_plot_path kw)))
    else ret tt in
  ret (mkRunInfo userId mae rmse mu sigma
         (Frame.len feats) (Frame.len train_df) (Frame.len test_df)).

(** [train_model]: the handler logs the error and raises it again. *)
Definition train_model (userId : Z) (csv_path : string) (kw : Kwargs) : M RunInfo :=
  try_except (train_model_body userId csv_path kw)
    (fun e => let! _ := log "error" (LStr (Main.exn_text e)) in reraise e).

(** The loop of [batch_train_models] over the items of [user_data], in
    the order of the dictionary. *)
Fixpoint batch_loop (items : list (Z * string)) (kw : Kwargs)
    (results : gmap Z RunInfo) : M (gmap Z RunInfo) :=
  match items with
  | [] => ret results
  | (user_id, csv_path) :: rest =>
      let! info := train_model user_id csv_path kw in
      batch_loop rest kw (<[user_id := info]> results)
  end.

Definition batch_train_models (user_data : list (Z * string)) (kw : Kwargs)
  : M (gmap Z RunInfo) :=
  batch_loop user_data kw ∅.

(** [metrics[key]] *)
Definition metric (metrics : gmap string float) (key : string) : result float :=
  match metrics !! key with
  | Some x => Ok x
  | None => Raise (KeyError key)
  end.

(** The [try] block of [retrain_model]. *)
Definition retrain_model_body (userId : Z) (csv_path : string) (train_frac : Q)
  : M (gmap string float) :=
  let! _ := log "user_id" (LInt userId) in
  let! _ := log "csv_path" (LStr csv_path) in
  let! _ := log "train_frac" (LNum (Fin train_frac)) in
  let! feats := lift (Inference.load_dataset csv_path csvs) in
  let! _ := log "total_samples" (lnat (Frame.len feats)) in
  let! metrics :=
    on_files (fun fs => (Inference.retrain_prophet userId feats train_frac fs, fs)) in
  let! mae := lift (metric metrics "mae") in
  let! _ := log "retrain_mae" (LNum mae) in
  let! rmse := lift (metric metrics "rmse") in
  let! _ := log "retrain_rmse" (LNum rmse) in
  ret metrics.

(** [retrain_model]: the same handler as [train_model]. *)
Definition retrain_model (userId : Z) (csv_path : string) (train_frac : Q)
  : M (gmap string float) :=
  try_except (retrain_model_body userId csv_path train_frac)
    (fun e => let! _ := log "error" (LStr (Main.exn_text e)) in reraise e).

End TrainingPipeline.

End Training.

(** ** ml/dataGenerator.py

    The generator draws from Python's [random]; a draw of
    [random.random()] is read from [rnd] at the current position, which
    the code below threads along. *)

Module DataGenerator.

(** [get_gas_price], from the month and day of the date and the value
    [np.random.normal(0, 0.5)] returned. *)
Definition gas_base (month day : Z) : Q :=
  let m := inject_Z month in
  let d := inject_Z day in
  if (month =? 1)%Z then 75%Q
  else if (month =? 2)%Z then
    (75 + ((761 # 10) - 75) * (m - 1 + d / 28) / 2)%Q
  else if (month =? 3)%Z then
    ((761 # 10) - ((761 # 10) - (735 # 10)) * (d / 31))%Q
  else
    let progress := ((m - 3 - 1 + d / 31) / 9)%Q in
    ((735 # 10) + ((7784 # 100) - (735 # 10)) * progress)%Q.

Definition get_gas_price (month day : Z) (noise : Q) : float :=
  round_nd 2 (Fin (Qminmax.Qmax 70 (gas_base month day + noise)%Q)).

(** [get_inflation_multipliers], from the number of days between
    [start_date] and the date. *)
Definition get_inflation_multipliers (days : Z) : Q * Q :=
  let days_since_start := Z.max days 0 in
  let expense_daily := (1 + (7 # 100) / 365)%Q in
  let income_daily := (1 + (3 # 100) / 365)%Q in
  (income_daily ^ days_since_start, expense_daily ^ days_since_start)%Q.

(** [random.uniform(a, b)]: [a + (b - a) * random.random()]. *)
Definition uniform (rnd : nat -> Q) (a b : Q) (pos : nat) : Q * nat :=
  (a + (b - a) * rnd pos, S pos)%Q.

(** [round(max(x, 0.0), 0)] *)
Definition round_nonneg (x : Q) : Q := inject_Z (Float.rint (Qminmax.Qmax x 0)).

(** [generate_expenses]: returns the expense and the position of the next
    draw.  [base] is the value of [float(base or 0.0)]. *)
Definition generate_expenses (rnd : nat -> Q) (base spike_prob : Q)
    (spike_multiplier spike_add_range : Q * Q) (pos : nat) : Q * nat :=
  let '(jitter, pos) := uniform rnd (8 # 10) (12 # 10) pos in
  let normal := (base * jitter)%Q in
  let '(p, pos) := (rnd pos, S pos) in
  if Qlt_le_dec p spike_prob then
    let '(multiplicative, pos) :=
      if Qlt_le_dec 0 base then
        (if Qlt_le_dec (rnd pos) (7 # 10) then true else false, S pos)
      else (false, pos) in
    if multiplicative then
      let '(u, pos) := uniform rnd (fst spike_multiplier) (snd spike_multiplier) pos in
      (round_nonneg (base * u), pos)
    else
      let '(u, pos) := uniform rnd (fst spike_add_range) (snd spike_add_range) pos in
      (round_nonneg (base + u), pos)
  else (round_nonneg normal, pos).

(** [_calc_target] of [compute_monthly_target], on the monthly income and
    expenses of a row. *)
Definition _calc_target (inc exp : Q) : Q :=
  let net := (inc - exp)%Q in
  let target :=
    if Qle_bool 0 net then (exp + net + (10 # 100) * exp)%Q
    else (exp + Qabs net + (15 # 100) * exp)%Q in
  (inject_Z (Float.rint (Qminmax.Qmax target 0 / 100)) * 100)%Q.

End DataGenerator.

(** ** The round trip of the standardisation

    The transform is the target column [y] that [extract_features]
    builds; the statistics are those the script around it reads back from
    the returned frame ([mu = new_df['Income_Total'].mean()],
    [sigma = new_df['Income_Total'].std(ddof=0)]); the inverse is
    [income_from_standardized], applied to the column [new_df['y']], a
    pandas Series. *)
Definition round_trip (df : DataFrame) : result (list float) :=
  let* new_df := FeatureExtraction.extract_features df in
  let '(mu, sigma) := FeatureExtraction.mu_sigma new_df in
  let* income :=
    Inference.income_from_standardized
      (Inference.PdSeries (Frame.values "y" new_df)) mu sigma in
  Ok (Inference.elements income).

(** The same with the statistics of the training functions, where a zero
    [sigma] has become 1.0. *)
Definition round_trip_trained (df : DataFrame) : result (list float) :=
  let* new_df := FeatureExtraction.extract_features df in
  let '(mu, sigma) := Inference.mu_sigma new_df in
  let* income :=
    Inference.income_from_standardized
      (Inference.PdSeries (Frame.values "y" new_df)) mu sigma in
  Ok (Inference.elements income).

(** ** Isolation of failures in a batch

    What the specification asks of batch training: the call returns a
    dictionary with a record for every user of the mapping, whether or
    not that user's training failed. *)
Definition batch_isolates_failures `{ProphetLib} `{Sklearn}
    (csvs : gmap string DataFrame) (user_data : list (Z * string))
    (kw : Training.Kwargs) (w : Training.World) : Prop :=
  exists results w',
    Training.batch_train_models csvs user_data kw w = (Ok results, w')
    /\ forall user_id csv_path,
         (user_id, csv_path) ∈ user_data -> is_Some (results !! user_id).

(** ** Agreement of warm-start values

    Two values of the warm-start dictionary agree when they are scalars,
    or vectors entry by entry, that are the same floats. *)
Definition init_same (a b : init_value) : Prop :=
  match a, b with
  | Scalar x, Scalar y => Float.same x y
  | Vector xs, Vector ys => Forall2 Float.same xs ys
  | _, _ => False
  end.

(** The parameters of a model fitted with one draw. *)
Definition one_draw (k m0 s : float) (delta beta : list float) : Params :=
  <["beta" := [beta]]> (<["delta" := [delta]]> (<["sigma_obs" := [[s]]]>
    (<["m" := [[m0]]]> (<["k" := [[k]]]> ∅)))).

(** ** Sample data and library doubles

    Concrete inputs on which the definitions above are evaluated, and a
    double of each library interface in which every call succeeds. *)

Module Sample.

(** A day of the feature frame that [extract_features] reads. *)
Definition raw_day (t : Z) (income : Q) : Row :=
  {[ "Date" := CDate t;
     "Income_Total" := CNum (Fin income);
     "Expenses_Total" := CNum (Fin 40);
     "Monthly_Income" := CNum (Fin 3000);
     "Monthly_Expenses" := CNum (Fin 1200) ]}.

Definition raw_columns : list string :=
  ["Date"; "Income_Total"; "Expenses_Total"; "Monthly_Income"; "Monthly_Expenses"].

(** Two days with the same income. *)
Definition constant_income : DataFrame :=
  mkFrame raw_columns [raw_day 1 100; raw_day 2 100].

(** The scenario of the specification: incomes 1000, 1200, 800. *)
Definition three_days : DataFrame :=
  mkFrame raw_columns [raw_day 1 1000; raw_day 2 1200; raw_day 3 800].

(** A day of the frame handed to the training functions. *)
Definition day (t : Z) (income : Q) : Row :=
  {[ "ds" := CDate t;
     "Income_Total" := CNum (Fin income);
     "Job_Categories" := CStr "delivery" ]}.

Definition feature_columns : list string :=
  ["ds"; "Income_Total"; "Job_Categories"].

Definition feats3 : DataFrame :=
  mkFrame feature_columns [day 1 1000; day 2 1200; day 3 800].

Definition feats10 : DataFrame :=
  mkFrame feature_columns
    [day 1 1000; day 2 1200; day 3 800; day 4 900; day 5 1100;
     day 6 1000; day 7 950; day 8 1050; day 9 1300; day 10 700].

(** Constant income for the training functions. *)
Definition flat2 : DataFrame :=
  mkFrame feature_columns [day 1 100; day 2 100].


(** Two incomes one part in a billion apart. *)
Definition nearly_flat : DataFrame :=
  mkFrame feature_columns [day 1 100; day 2 (100 + (2 # 1000000000))].

(** A day of a feature file on disk, with its target. *)
Definition csv_day (t : Z) (income y : Q) : Row :=
  {[ "ds" := CDate t;
     "y" := CNum (Fin y);
     "Income_Total" := CNum (Fin income) ]}.

(** Two feature files: [a.csv] is well formed, [b.csv] has no column
    [y]. *)
Definition csv_files : gmap string DataFrame :=
  {[ "a.csv" := mkFrame ["ds"; "y"; "Income_Total"]
                  [csv_day 1 1000 0; csv_day 2 1200 1; csv_day 3 800 (-1);
                   csv_day 4 1000 0; csv_day 5 1100 (1 # 2)];
     "b.csv" := mkFrame ["ds"; "Income_Total"] [day 1 1000; day 2 1200] ]}.

(** Days of a frame that has columns named [cap] and [floor]. *)
Definition capped_day (t : Z) (income y : Q) : Row :=
  {[ "ds" := CDate t;
     "y" := CNum (Fin y);
     "Income_Total" := CNum (Fin income);
     "cap" := CNum (Fin 5000);
     "Hours_Worked" := CNum (Fin 8);
     "floor" := CNum (Fin 0) ]}.

Definition capped : DataFrame :=
  mkFrame ["ds"; "y"; "Income_Total"; "cap"; "Hours_Worked"; "floor"]
    [capped_day 1 1000 0; capped_day 2 1200 1; capped_day 3 800 (-1)].

Definition fresh_world : Training.World := Training.mkWorld ∅ [].

(** Days of a worker who is paid on some days only. *)
Definition gig_day (t : Z) (hours income : Q) : Row :=
  {[ "ds" := CDate t;
     "Hours_Worked" := CNum (Fin hours);
     "Income_Total" := CNum (Fin income) ]}.

Definition unpaid_days : DataFrame :=
  mkFrame ["ds"; "Hours_Worked"; "Income_Total"]
    [gig_day 1 6 0; gig_day 2 0 0; gig_day 3 5 20000].

(** Names Prophet keeps for the columns of its forecast. *)
Definition prophet_columns : list string :=
  ["trend"; "additive_terms"; "daily"; "weekly"; "yearly"; "holidays"; "zeros";
   "extra_regressors_additive"; "yhat"; "extra_regressors_multiplicative";
   "multiplicative_terms"].

Definition prophet_reserved : list string :=
  (prophet_columns ++ map (fun n => n +:+ "_lower") prophet_columns
   ++ map (fun n => n +:+ "_upper") prophet_columns
   ++ ["ds"; "y"; "cap"; "floor"; "y_scaled"; "cap_scaled"])%list.

Definition prophet_ok : ProphetLib := {|
  validate_column_name name :=
    if bool_decide (name ∈ prophet_reserved)
    then Raise (ValueError ("Name '" +:+ name +:+ "' is reserved."))
    else Ok tt;
  stan_fit _ _ _ := Ok ∅;
  predict_yhat _ df := Ok (map (fun _ => Fin 0) (rows df));
  model_to_json _ := "{}";
  model_from_json _ := Ok new_prophet;
|}.

Definition sklearn_ok : Sklearn := {|
  pipe_fit p _ := Ok p;
  pipe_transform _ df :=
    Ok (map (fun r : Row => map (fun c => Frame.num (r !! c)) (columns df)) (rows df));
  mean_absolute_error _ _ := Ok (Fin 0);
  mean_squared_error _ _ := Ok (Fin 0);
  r2_score _ _ := Ok (Fin 0);
  accuracy_score _ _ := Ok (Fin 0);
|}.

End Sample.

(** * Properties *)

(** ** Rounding *)

Section Rounding.
Local Open Scope Q_scope.

Lemma rint_close (q : Q) : Qabs (inject_Z (Float.rint q) - q) <= 1 # 2.
Proof.
  unfold Float.rint.
  pose proof (Qfloor_le q) as Hlo.
  pose proof (Qlt_floor q) as Hhi.
  rewrite inject_Z_plus in Hhi. change (inject_Z 1) with 1 in Hhi.
  apply Qabs_Qle_condition.
  destruct (q - inject_Z (Qfloor q) ?= 1 # 2) eqn:E.
  - apply Qeq_alt in E. destruct (Z.even (Qfloor q));
      [| rewrite inject_Z_plus; change (inject_Z 1) with 1]; split; lra.
  - apply Qlt_alt in E. split; lra.
  - apply Qgt_alt in E. rewrite inject_Z_plus. change (inject_Z 1) with 1.
    split; lra.
Qed.

Lemma rint_comp (q q' : Q) : q == q' -> Float.rint q = Float.rint q'.
Proof.
  intros E. unfold Float.rint. rewrite (Qfloor_comp _ _ E).
  assert (Hc : (q - inject_Z (Qfloor q') ?= 1 # 2)
               = (q' - inject_Z (Qfloor q') ?= 1 # 2)).
  { apply Qcompare_comp; [rewrite E |]; reflexivity. }
  rewrite Hc. reflexivity.
Qed.

Lemma rint_mono (q q' : Q) : q <= q' -> (Float.rint q <= Float.rint q')%Z.
Proof.
  intros Hle.
  destruct (Z_le_gt_dec (Float.rint q) (Float.rint q')) as [H | H]; [exact H |].
  exfalso.
  pose proof (rint_close q) as H1. pose proof (rint_close q') as H2.
  apply Qabs_Qle_condition in H1, H2.
  assert (Hz : (Float.rint q' + 1 <= Float.rint q)%Z) by lia.
  rewrite Zle_Qle, inject_Z_plus in Hz. change (inject_Z 1) with 1 in Hz.
  assert (E : q == q') by lra.
  apply rint_comp in E. lia.
Qed.

Lemma Qfloor_unique (q : Q) (k : Z) :
  inject_Z k <= q -> q < inject_Z k + 1 -> Qfloor q = k.
Proof.
  intros Hlo Hhi.
  pose proof (Qfloor_le q) as Glo. pose proof (Qlt_floor q) as Ghi.
  rewrite inject_Z_plus in Ghi. change (inject_Z 1) with 1 in Ghi.
  assert (H1 : inject_Z (Qfloor q) < inject_Z k + 1) by lra.
  assert (H2 : inject_Z k < inject_Z (Qfloor q) + 1) by lra.
  change 1 with (inject_Z 1) in H1, H2. rewrite <- inject_Z_plus in H1, H2.
  rewrite <- Zlt_Qlt in H1, H2. lia.
Qed.

Lemma rint_Z (k : Z) : Float.rint (inject_Z k) = k.
Proof.
  unfold Float.rint. rewrite Qfloor_Z.
  assert (H : (inject_Z k - inject_Z k ?= 1 # 2) = Lt)
    by (apply (proj1 (Qlt_alt _ _)); lra).
  rewrite H. reflexivity.
Qed.

Lemma rint_half (k : Z) :
  Float.rint (inject_Z k + (1 # 2)) = (if Z.even k then k else k + 1)%Z.
Proof.
  unfold Float.rint.
  rewrite (Qfloor_unique (inject_Z k + (1 # 2)) k) by lra.
  assert (H : (inject_Z k + (1 # 2) - inject_Z k ?= 1 # 2) = Eq)
    by (apply (proj1 (Qeq_alt _ _)); ring).
  rewrite H. reflexivity.
Qed.

Lemma rint_nonneg (q : Q) : 0 <= q -> (0 <= Float.rint q)%Z.
Proof.
  intros H. rewrite <- (rint_Z 0). apply rint_mono. exact H.
Qed.

End Rounding.

Section RoundingMinusOne.
Local Open Scope Q_scope.

Lemma round_m1_close (q : Q) :
  Qabs (inject_Z (Float.rint (q / 10)) * 10 - q) <= 5.
Proof.
  pose proof (rint_close (q / 10)) as H.
  apply Qabs_Qle_condition in H. apply Qabs_Qle_condition.
  assert (E : q == q / 10 * 10) by (field; discriminate).
  split; lra.
Qed.

(** Any other multiple of 10 is at least as far away. *)
Lemma round_m1_nearest (q : Q) (j : Z) :
  Qabs (inject_Z (Float.rint (q / 10)) * 10 - q) <= Qabs (inject_Z j * 10 - q).
Proof.
  pose proof (round_m1_close q) as H.
  set (k := Float.rint (q / 10)) in *.
  destruct (Z.eq_dec j k) as [-> | Hne]; [apply Qle_refl |].
  eapply Qle_trans; [exact H |].
  apply Qabs_Qle_condition in H.
  assert (Hz : (j + 1 <= k \/ k + 1 <= j)%Z) by lia.
  destruct Hz as [Hz | Hz].
  - assert (Hq : inject_Z j + 1 <= inject_Z k).
    { rewrite Zle_Qle in Hz. rewrite inject_Z_plus in Hz. exact Hz. }
    rewrite Qabs_neg by lra. lra.
  - assert (Hq : inject_Z k + 1 <= inject_Z j).
    { rewrite Zle_Qle in Hz. rewrite inject_Z_plus in Hz. exact Hz. }
    rewrite Qabs_pos by lra. lra.
Qed.
End RoundingMinusOne.

(** ** binary64 *)

Section Binary64.
Local Open Scope Q_scope.

Lemma two_pow_pos (e : Z) : 0 < 2 ^ e.
Proof. apply Qpower_0_lt. reflexivity. Qed.

Lemma two_pow_succ (e : Z) : 2 ^ (e + 1) == 2 * 2 ^ e.
Proof. rewrite Qpower_plus by discriminate. change (2 ^ 1) with 2. ring. Qed.

Lemma two_pow_Z (n : Z) : (0 <= n)%Z -> inject_Z (2 ^ n) == 2 ^ n.
Proof. intros Hn. apply (Zpower_Qpower 2 n Hn). Qed.

Lemma two_pow_le (a b : Z) : (a <= b)%Z -> 2 ^ a <= 2 ^ b.
Proof. intros H. apply Qpower_le_compat_l; [exact H | discriminate]. Qed.

Lemma two_pow_lt_inv (a b : Z) : 2 ^ a < 2 ^ b -> (a < b)%Z.
Proof. intros H. eapply Qpower_lt_compat_l_inv; [exact H | reflexivity]. Qed.

(** [ilog2] finds the binade of a positive rational. *)
Lemma ilog2_spec (q : Q) :
  0 < q -> 2 ^ Float.ilog2 q <= q /\ q < 2 ^ (Float.ilog2 q + 1).
Proof.
  intros Hq. destruct q as [a b]. unfold Float.ilog2. cbn [Qnum Qden].
  assert (Ha : (0 < a)%Z) by (unfold Qlt in Hq; cbn in Hq; lia).
  set (la := Z.log2 a). set (lb := Z.log2 (Z.pos b)).
  assert (Hla : (0 <= la)%Z) by apply Z.log2_nonneg.
  assert (Hlb : (0 <= lb)%Z) by apply Z.log2_nonneg.
  destruct (Z.log2_spec a Ha) as [A1 A2]. fold la in A1, A2.
  destruct (Z.log2_spec (Z.pos b) (Pos2Z.is_pos b)) as [B1 B2]. fold lb in B1, B2.
  rewrite Zle_Qle, two_pow_Z in A1, B1 by assumption.
  rewrite Zlt_Qlt, two_pow_Z in A2, B2 by lia.
  unfold Z.succ in A2, B2. rewrite two_pow_succ in A2, B2.
  pose proof (two_pow_pos la) as PA. pose proof (two_pow_pos lb) as PB.
  set (A := inject_Z a) in *. set (B := inject_Z (Z.pos b)) in *.
  set (X := 2 ^ la) in *. set (Y := 2 ^ lb) in *.
  assert (Eq : a # b == A / B) by apply Qmake_Qdiv.
  assert (HB : 0 < B) by lra.
  assert (E0 : 2 ^ (la - lb) == X / Y) by (apply Qpower_minus; discriminate).
  assert (Hup : a # b < 2 * (X / Y)).
  { rewrite Eq. apply Qlt_shift_div_r; [exact HB |].
    assert (E : 2 * (X / Y) * B == (2 * X * B) / Y) by (field; lra).
    rewrite E. apply Qlt_shift_div_l; [exact PB |]. nra. }
  assert (Hlo : X / Y < 2 * (a # b)).
  { rewrite Eq. apply Qlt_shift_div_r; [exact PB |].
    assert (E : 2 * (A / B) * Y == (2 * A * Y) / B) by (field; lra).
    rewrite E. apply Qlt_shift_div_l; [exact HB |]. nra. }
  destruct (Qle_bool (2 ^ (la - lb)) (a # b)) eqn:Eb.
  - apply Qle_bool_iff in Eb. split; [exact Eb |].
    rewrite two_pow_succ, E0. exact Hup.
  - assert (Hlt : a # b < 2 ^ (la - lb)).
    { apply Qnot_le_lt. intros H. apply Qle_bool_iff in H. congruence. }
    replace (la - lb - 1 + 1)%Z with (la - lb)%Z by lia.
    split; [| exact Hlt].
    assert (E1 : 2 ^ (la - lb) == 2 * 2 ^ (la - lb - 1)).
    { rewrite <- two_pow_succ. replace (la - lb - 1 + 1)%Z with (la - lb)%Z by lia.
      reflexivity. }
    rewrite E0 in E1. lra.
Qed.

Lemma ilog2_unique (q : Q) (e : Z) :
  2 ^ e <= q -> q < 2 ^ (e + 1) -> Float.ilog2 q = e.
Proof.
  intros Hlo Hhi.
  assert (Hq : 0 < q) by (pose proof (two_pow_pos e); lra).
  destruct (ilog2_spec q Hq) as [Glo Ghi].
  assert (H1 : (e < Float.ilog2 q + 1)%Z) by (apply two_pow_lt_inv; lra).
  assert (H2 : (Float.ilog2 q < e + 1)%Z) by (apply two_pow_lt_inv; lra).
  lia.
Qed.

Lemma ilog2_mono (q q' : Q) :
  0 < q -> q <= q' -> (Float.ilog2 q <= Float.ilog2 q')%Z.
Proof.
  intros Hq Hle.
  destruct (ilog2_spec q Hq) as [Glo _].
  destruct (ilog2_spec q') as [_ Ghi]; [lra |].
  assert (H : (Float.ilog2 q < Float.ilog2 q' + 1)%Z) by (apply two_pow_lt_inv; lra).
  lia.
Qed.

Lemma ilog2_abs (q : Q) : 0 < q -> Float.ilog2 (Qabs q) = Float.ilog2 q.
Proof.
  intros Hq. assert (E : Qabs q == q) by (apply Qabs_pos; lra).
  destruct (ilog2_spec q Hq). apply ilog2_unique; lra.
Qed.

Lemma expo_mono (q q' : Q) : 0 < q -> q <= q' -> (Float.expo q <= Float.expo q')%Z.
Proof.
  intros Hq Hle. unfold Float.expo. rewrite !ilog2_abs by lra.
  pose proof (ilog2_mono q q' Hq Hle). lia.
Qed.

Lemma double_nonneg (q : Q) : 0 <= q -> 0 <= Float.double q.
Proof.
  intros Hq. unfold Float.double. destruct (Qeq_bool q 0); [apply Qle_refl |].
  assert (Hu : 0 < Float.ulp q) by apply two_pow_pos.
  assert (H : 0 <= q / Float.ulp q) by (apply Qle_shift_div_l; lra).
  apply rint_nonneg in H. rewrite Zle_Qle in H. change (inject_Z 0) with 0 in H.
  nra.
Qed.

Lemma double_pos_eq (q : Q) :
  0 < q ->
  Float.double q
  = inject_Z (Float.rint (q / 2 ^ (Float.expo q - 52))) * 2 ^ (Float.expo q - 52).
Proof.
  intros Hq. unfold Float.double, Float.ulp.
  destruct (Qeq_bool q 0) eqn:E; [apply Qeq_bool_iff in E; lra | reflexivity].
Qed.

(** A positive value and its double lie in the same closed binade. *)
Lemma double_binade (q : Q) :
  0 < q ->
  Float.double q <= 2 ^ (Float.expo q + 1)
  /\ (Float.ilog2 q = Float.expo q -> 2 ^ Float.expo q <= Float.double q).
Proof.
  intros Hq. rewrite double_pos_eq by exact Hq.
  set (e := Float.expo q). set (u := 2 ^ (e - 52)).
  assert (Hu : 0 < u) by apply two_pow_pos.
  destruct (ilog2_spec q Hq) as [Glo Ghi].
  assert (He : (Float.ilog2 q <= e)%Z).
  { unfold e, Float.expo. rewrite ilog2_abs by exact Hq. lia. }
  assert (E53 : 2 ^ (e + 1) == inject_Z (2 ^ 53) * u).
  { unfold u. rewrite two_pow_Z by lia. rewrite <- Qpower_plus by discriminate.
    replace (53 + (e - 52))%Z with (e + 1)%Z by lia. reflexivity. }
  assert (E52 : 2 ^ e == inject_Z (2 ^ 52) * u).
  { unfold u. rewrite two_pow_Z by lia. rewrite <- Qpower_plus by discriminate.
    replace (52 + (e - 52))%Z with e by lia. reflexivity. }
  split.
  - assert (Hle : q <= 2 ^ (e + 1)).
    { apply Qle_trans with (2 ^ (Float.ilog2 q + 1)); [lra | apply two_pow_le; lia]. }
    assert (Hd : q / u <= inject_Z (2 ^ 53)).
    { apply Qle_shift_div_r; [exact Hu | lra]. }
    apply rint_mono in Hd. rewrite rint_Z, Zle_Qle in Hd.
    rewrite E53. apply Qmult_le_compat_r; [exact Hd | lra].
  - intros Heq. rewrite Heq in Glo. fold e in Glo.
    assert (Hd : inject_Z (2 ^ 52) <= q / u).
    { apply Qle_shift_div_l; [exact Hu | lra]. }
    apply rint_mono in Hd. rewrite rint_Z, Zle_Qle in Hd.
    rewrite E52. apply Qmult_le_compat_r; [exact Hd | lra].
Qed.

(** Rounding to the nearest double keeps the order. *)
Lemma double_mono (q q' : Q) :
  0 <= q -> q <= q' -> Float.double q <= Float.double q'.
Proof.
  intros H0 Hle.
  destruct (Qlt_le_dec 0 q) as [Hq | Hq].
  - assert (Hq' : 0 < q') by lra.
    pose proof (expo_mono q q' Hq Hle) as He.
    destruct (Z.eq_dec (Float.expo q) (Float.expo q')) as [Eq | Hne].
    + rewrite !double_pos_eq by assumption. rewrite Eq.
      set (u := 2 ^ (Float.expo q' - 52)).
      assert (Hu : 0 < u) by apply two_pow_pos.
      assert (Hd : q / u <= q' / u).
      { unfold Qdiv. apply Qmult_le_compat_r; [exact Hle |].
        apply Qlt_le_weak, Qinv_lt_0_compat, Hu. }
      apply rint_mono in Hd. rewrite Zle_Qle in Hd.
      apply Qmult_le_compat_r; [exact Hd | lra].
    + destruct (double_binade q Hq) as [Hhi _].
      destruct (double_binade q' Hq') as [_ Hlo].
      assert (Hlog : Float.ilog2 q' = Float.expo q').
      { pose proof (ilog2_abs q' Hq') as El. unfold Float.expo in *. lia. }
      specialize (Hlo Hlog).
      assert (Hp : 2 ^ (Float.expo q + 1) <= 2 ^ Float.expo q')
        by (apply two_pow_le; lia).
      lra.
  - assert (E : q == 0) by lra.
    assert (Ed : Float.double q = 0).
    { unfold Float.double. apply Qeq_bool_iff in E. now rewrite E. }
    rewrite Ed. apply double_nonneg. lra.
Qed.

(** The integers from 0 to 2^53 are doubles. *)
Lemma double_Z (k : Z) :
  (0 <= k <= 2 ^ 53)%Z -> Float.double (inject_Z k) == inject_Z k.
Proof.
  intros [Hk0 Hk].
  destruct (Z.eq_dec k 0%Z) as [-> | Hne]; [reflexivity |].
  assert (Hq : 0 < inject_Z k).
  { change 0 with (inject_Z 0). rewrite <- Zlt_Qlt. lia. }
  rewrite double_pos_eq by exact Hq.
  set (e := Float.expo (inject_Z k)). set (u := 2 ^ (e - 52)).
  assert (Hu : 0 < u) by apply two_pow_pos.
  destruct (ilog2_spec _ Hq) as [Glo Ghi].
  assert (Hl0 : (0 <= Float.ilog2 (inject_Z k))%Z).
  { assert (H1 : 2 ^ 0 <= inject_Z k).
    { change (2 ^ 0) with (inject_Z 1). rewrite <- Zle_Qle. lia. }
    assert (H : (0 < Float.ilog2 (inject_Z k) + 1)%Z) by (apply two_pow_lt_inv; lra).
    lia. }
  assert (Hl53 : (Float.ilog2 (inject_Z k) <= 53)%Z).
  { assert (H1 : inject_Z k <= 2 ^ 53).
    { rewrite <- two_pow_Z by lia. rewrite <- Zle_Qle. exact Hk. }
    assert (H2 : 2 ^ 53 < 2 ^ (53 + 1)) by reflexivity.
    assert (H : (Float.ilog2 (inject_Z k) < 53 + 1)%Z) by (apply two_pow_lt_inv; lra).
    lia. }
  assert (Ee : e = Float.ilog2 (inject_Z k)).
  { unfold e, Float.expo. rewrite ilog2_abs by exact Hq. lia. }
  assert (Hint : exists m : Z, inject_Z k / u == inject_Z m).
  { destruct (Z.eq_dec e 53%Z) as [E53 | N53].
    - assert (Ek : k = (2 ^ 53)%Z).
      { rewrite <- Ee, E53 in Glo. rewrite <- two_pow_Z in Glo by lia.
        rewrite <- Zle_Qle in Glo. lia. }
      exists (2 ^ 52)%Z. unfold u. rewrite E53, Ek. reflexivity.
    - exists (k * 2 ^ (52 - e))%Z.
      rewrite inject_Z_mult, two_pow_Z by lia.
      unfold u. replace (e - 52)%Z with (- (52 - e))%Z by lia.
      rewrite Qpower_opp. field.
      pose proof (two_pow_pos (52 - e)). lra. }
  destruct Hint as [m Hm].
  rewrite (rint_comp _ _ Hm), rint_Z, <- Hm. field. lra.
Qed.

(** The integer part of a rounded value lies between the floor and the
    ceiling of the value. *)
Lemma floor_double_bounds (x : Q) :
  0 <= x -> x <= inject_Z (2 ^ 53) ->
  (Qfloor x <= Qfloor (Float.double x) <= Qceiling x)%Z.
Proof.
  intros H0 H53.
  assert (Hf0 : (0 <= Qfloor x)%Z).
  { rewrite <- (Qfloor_Z 0). apply Qfloor_resp_le. exact H0. }
  assert (Hf53 : (Qfloor x <= 2 ^ 53)%Z).
  { rewrite <- (Qfloor_Z (2 ^ 53)). apply Qfloor_resp_le. exact H53. }
  assert (Hc0 : (0 <= Qceiling x)%Z).
  { rewrite <- (Qceiling_Z 0). apply Qceiling_resp_le. exact H0. }
  assert (Hc53 : (Qceiling x <= 2 ^ 53)%Z).
  { rewrite <- (Qceiling_Z (2 ^ 53)). apply Qceiling_resp_le. exact H53. }
  split.
  - rewrite <- (Qfloor_Z (Qfloor x)) at 1. apply Qfloor_resp_le.
    rewrite <- (double_Z (Qfloor x)) by lia.
    apply double_mono; [| apply Qfloor_le].
    change 0 with (inject_Z 0). rewrite <- Zle_Qle. exact Hf0.
  - rewrite <- (Qfloor_Z (Qceiling x)). apply Qfloor_resp_le.
    rewrite <- (double_Z (Qceiling x)) by lia.
    apply double_mono; [exact H0 | apply Qle_ceiling].
Qed.


End Binary64.

(** ** Sums and statistics of finite values *)

Section Sums.
Local Open Scope Q_scope.

Lemma sum_finite_from (l : list Q) (a : Q) :
  fold_left Float.add (map Fin l) (Fin a) = Fin (fold_left Qplus l a).
Proof.
  revert a. induction l as [| x l IH]; intros a; [reflexivity |].
  cbn [map fold_left]. apply IH.
Qed.

Lemma sum_finite (l : list Q) :
  Float.sum (map Fin l) = Fin (fold_left Qplus l 0).
Proof. apply sum_finite_from. Qed.

(** A sum of squares is zero exactly when every term is. *)
Lemma Qsum_squares (f : Q -> Q) (l : list Q) (a : Q) :
  0 <= a ->
  0 <= fold_left Qplus (map (fun p => f p * f p) l) a
  /\ (fold_left Qplus (map (fun p => f p * f p) l) a == 0
      <-> a == 0 /\ Forall (fun p => f p == 0) l).
Proof.
  revert a. induction l as [| p l IH]; intros a Ha.
  - cbn. split; [exact Ha |]. split; [intros E; split; [exact E | constructor] |].
    intros [E _]; exact E.
  - cbn [map fold_left].
    assert (Hsq : 0 <= f p * f p) by nra.
    destruct (IH (a + f p * f p)) as [Hpos Hiff]; [lra |].
    split; [exact Hpos |]. rewrite Hiff. split.
    + intros [E Hl]. assert (Ep : f p * f p == 0) by lra.
      split; [lra |]. constructor; [| exact Hl]. nra.
    + intros [E Hl]. inversion Hl as [| ? ? Hp Hl']; subst.
      split; [rewrite Hp, E; ring | exact Hl'].
Qed.



(** A list of finite floats is the image of a list of rationals. *)
Lemma finite_values (xs : list float) :
  Forall (fun x => Float.is_finite x = true) xs -> exists qs : list Q, xs = map Fin qs.
Proof.
  induction 1 as [| x xs Hx _ [qs ->]]; [exists []; reflexivity |].
  destruct x as [q | | |]; try discriminate. exists (q :: qs). reflexivity.
Qed.

Lemma dropna_finite (qs : list Q) : Series.dropna (map Fin qs) = map Fin qs.
Proof.
  unfold Series.dropna. induction qs as [| q qs IH]; [reflexivity |].
  cbn [map]. rewrite filter_cons_True by reflexivity. now rewrite IH.
Qed.

Lemma length_nonzero (n : nat) : n <> 0%nat -> Qeq_bool (inject_Z (Z.of_nat n)) 0 = false.
Proof.
  intros Hn. destruct (Qeq_bool _ 0) eqn:E; [| reflexivity].
  apply Qeq_bool_iff in E. unfold Qeq in E. cbn in E. lia.
Qed.

Lemma mean_finite (qs : list Q) :
  qs <> [] ->
  Float.mean (map Fin qs)
  = Fin (fold_left Qplus qs 0 / inject_Z (Z.of_nat (length qs))).
Proof.
  intros Hne. unfold Float.mean. rewrite sum_finite, length_map.
  unfold Float.of_nat, Float.of_Z. cbn [Float.div].
  rewrite length_nonzero; [reflexivity |].
  destruct qs; [contradiction | discriminate].
Qed.

(** The population standard deviation of finite values is finite. *)
Lemma std_pop_finite (qs : list Q) :
  qs <> [] -> exists s : Q, Series.std_pop (map Fin qs) = Fin s.
Proof.
  intros Hne. unfold Series.std_pop. rewrite dropna_finite.
  rewrite mean_finite by exact Hne.
  set (a := fold_left Qplus qs 0 / inject_Z (Z.of_nat (length qs))).
  destruct qs as [| q0 qs0]; [contradiction |].
  set (qs := q0 :: qs0) in *.
  change (map Fin qs) with (Fin q0 :: map Fin qs0) at 1.
  cbv iota.
  assert (Hmap : map (fun x => Float.sq (x - Fin a)%fl) (map Fin qs)
                 = map Fin (map (fun q => (q + - a) * (q + - a)) qs)).
  { rewrite !map_map. apply map_ext. intros q. reflexivity. }
  rewrite Hmap, sum_finite, length_map.
  unfold Float.of_nat, Float.of_Z. cbn [Float.div].
  rewrite length_nonzero by discriminate. cbn [Float.sqrt].
  destruct (Qsum_squares (fun q => q + - a) qs 0 (Qle_refl 0)) as [Hpos _].
  assert (Hq : 0 <= fold_left Qplus (map (fun q => (q + - a) * (q + - a)) qs) 0
                    / inject_Z (Z.of_nat (length qs))).
  { apply Qle_shift_div_l; [| lra].
    change 0 with (inject_Z 0). rewrite <- Zlt_Qlt. cbn. lia. }
  apply Qle_bool_iff in Hq. rewrite Hq. eexists. reflexivity.
Qed.

(** The mean of a single value is that value. *)
Lemma mean_of_one (x : float) : Float.same x (Float.mean [x]).
Proof.
  unfold Float.mean, Float.sum. cbn [fold_left length].
  destruct x as [q | | |]; try exact I.
  cbn [Float.add Float.div Float.of_nat Float.of_Z].
  change (Qeq_bool (inject_Z (Z.of_nat 1)) 0) with false.
  cbn [Float.same]. change (inject_Z (Z.of_nat 1)) with 1%Q. field.
Qed.

End Sums.

(** ** Frames: columns written and read back, order of the rows *)

Section FrameFacts.

Lemma values_length (c : string) (df : DataFrame) :
  length (Frame.values c df) = Frame.len df.
Proof. unfold Frame.values, Frame.len. apply length_map. Qed.

Lemma assign_len (c : string) (vs : list float) (df : DataFrame) :
  length vs = Frame.len df -> Frame.len (Frame.assign c vs df) = Frame.len df.
Proof.
  unfold Frame.len, Frame.assign. cbn [rows]. intros H.
  rewrite length_zip_with. lia.
Qed.

Lemma assign_columns (c c' : string) (vs : list float) (df : DataFrame) :
  c' ∈ columns (Frame.assign c vs df) <-> c' ∈ columns df \/ c' = c.
Proof.
  unfold Frame.assign, Frame.has_column. cbn [columns].
  case_bool_decide as Hin.
  - split; [auto |]. intros [H | ->]; assumption.
  - rewrite elem_of_app, list_elem_of_singleton. reflexivity.
Qed.

Lemma assign_values (c : string) (vs : list float) (df : DataFrame) :
  length vs = Frame.len df -> Frame.values c (Frame.assign c vs df) = vs.
Proof.
  unfold Frame.len, Frame.values, Frame.assign. cbn [rows].
  generalize (rows df). intros l. revert vs.
  induction l as [| r l IH]; intros [| v vs] H; try discriminate; [reflexivity |].
  cbn [zip_with map]. rewrite lookup_insert_eq. cbn [Frame.num].
  f_equal. apply IH. cbn in H. lia.
Qed.

Lemma assign_other_values (c c' : string) (vs : list float) (df : DataFrame) :
  c <> c' -> length vs = Frame.len df ->
  Frame.values c' (Frame.assign c vs df) = Frame.values c' df.
Proof.
  unfold Frame.len, Frame.values, Frame.assign. cbn [rows]. intros Hne.
  generalize (rows df). intros l. revert vs.
  induction l as [| r l IH]; intros [| v vs] H; try discriminate; [reflexivity |].
  cbn [zip_with map]. rewrite lookup_insert_ne by exact Hne.
  f_equal. apply IH. cbn in H. lia.
Qed.

Lemma fill_row_lookup (cols : list string) (r : Row) (k : string) :
  fold_right (fun c (acc : Row) =>
                match acc !! c with
                | None => <[c := CNum (Fin 0)]> acc
                | Some v => <[c := Frame.fillna0_cell v]> acc
                end) r cols !! k
  = if bool_decide (k ∈ cols) then Some (Frame.filled (r !! k)) else r !! k.
Proof.
  induction cols as [| c cols IH]; cbn [fold_right]; [reflexivity |].
  set (acc := fold_right _ r cols) in *.
  assert (Hstep : forall o : option cell,
             match o with
             | None => <[c := CNum (Fin 0)]> acc
             | Some v => <[c := Frame.fillna0_cell v]> acc
             end = <[c := Frame.filled o]> acc)
    by (intros [v |]; reflexivity).
  rewrite Hstep. destruct (decide (k = c)) as [-> | Hne].
  - rewrite lookup_insert_eq, IH.
    rewrite (bool_decide_eq_true_2 (c ∈ c :: cols)) by apply list_elem_of_here.
    case_bool_decide; [| reflexivity].
    destruct (r !! c) as [[[q | | |] | s | t] |]; reflexivity.
  - rewrite lookup_insert_ne by congruence. rewrite IH.
    destruct (bool_decide (k ∈ cols)) eqn:E.
    + apply bool_decide_eq_true_1 in E.
      rewrite (bool_decide_eq_true_2 (k ∈ c :: cols))
        by (apply list_elem_of_further; exact E).
      reflexivity.
    + apply bool_decide_eq_false_1 in E.
      rewrite (bool_decide_eq_false_2 (k ∈ c :: cols)); [reflexivity |].
      rewrite elem_of_cons. tauto.
Qed.

Lemma filled_has_value (o : option cell) :
  Frame.has_value (Some (Frame.filled o)) = true.
Proof. destruct o as [[[q | | |] | s | t] |]; reflexivity. Qed.

Lemma fillna0_len (df : DataFrame) : Frame.len (Frame.fillna0 df) = Frame.len df.
Proof. unfold Frame.len, Frame.fillna0. cbn [rows]. apply length_map. Qed.

(** After [fillna(0)] every column has a value in every row. *)
Lemma fillna0_complete (df : DataFrame) :
  Forall (fun r : Row => forall c, c ∈ columns df -> Frame.has_value (r !! c) = true)
         (rows (Frame.fillna0 df)).
Proof.
  unfold Frame.fillna0. cbn [rows]. apply Forall_forall. intros r' Hr' c Hc.
  apply list_elem_of_fmap in Hr' as (r & -> & _).
  rewrite fill_row_lookup, (bool_decide_eq_true_2 _ Hc). apply filled_has_value.
Qed.

End FrameFacts.

Section Prepare.

Lemma insert_sorted_perm c (r : Row) (l : list Row) :
  Frame.insert_sorted c r l ≡ₚ r :: l.
Proof.
  induction l as [| r' l IH]; cbn; [reflexivity |].
  destruct (Frame.stamp_leb _ _); [reflexivity |].
  rewrite IH. apply Permutation_swap.
Qed.

(** [sort_values] only reorders the rows. *)
Lemma sort_values_perm c (df : DataFrame) :
  rows (Frame.sort_values c df) ≡ₚ rows df.
Proof.
  unfold Frame.sort_values. cbn [rows].
  induction (rows df) as [| r l IH]; cbn [fold_right]; [reflexivity |].
  now rewrite insert_sorted_perm, IH.
Qed.

End Prepare.

(** ** C9: precision of the inverse transform *)

(** On a pandas Series of finite predictions, with finite [mu] and
    [sigma], [income_from_standardized] returns a Series in which each
    value is a multiple of 10, within 5 of [y * sigma + mu], and no
    farther from it than any other multiple of 10. *)
Lemma income_from_standardized_on_series (pred_y : list Q) (mu sigma : Q) :
  exists out : list float,
    Inference.income_from_standardized
      (Inference.PdSeries (map Fin pred_y)) (Fin mu) (Fin sigma)
    = Ok (Inference.PdSeries out)
    /\ Forall2
         (fun y o =>
            exists k : Z,
              o = Fin (inject_Z k * 10) /\
              (Qabs (inject_Z k * 10 - (y * sigma + mu)) <= 5)%Q /\
              forall j : Z,
                (Qabs (inject_Z k * 10 - (y * sigma + mu))
                 <= Qabs (inject_Z j * 10 - (y * sigma + mu)))%Q)
         pred_y out.
Proof.
  unfold Inference.income_from_standardized, Inference.affine, Inference.py_round_m1.
  eexists. split; [reflexivity |].
  induction pred_y as [| y ys IH]; simpl; constructor; [| exact IH].
  exists (Float.rint ((y * sigma + mu) / 10)). split; [reflexivity |].
  split; [apply round_m1_close | intros j; apply round_m1_nearest].
Qed.

(** C9, as it fails.  On a numpy array, the declared type of [pred_y],
    [income_from_standardized] returns nothing: whatever the predictions,
    [mu] and [sigma] are (finite or not), the product and the sum are
    taken and the built-in [round] then raises [TypeError], because
    [numpy.ndarray] has no [__round__].  So the predictions 0 and 1.2247
    with [mu = 1000], [sigma = 163.3] give no income at all as an array,
    where the same values in a pandas Series come back as 1000 and
    1200. *)
Theorem income_from_standardized_raises_on_ndarray :
  (forall (pred_y : list float) (mu sigma : float),
      Inference.income_from_standardized (Inference.NdArray pred_y) mu sigma
      = Raise (TypeError "type numpy.ndarray doesn't define __round__ method"))
  /\ Inference.income_from_standardized
       (Inference.NdArray [Fin 0; Fin (12247 # 10000)]) (Fin 1000) (Fin (1633 # 10))
     = Raise (TypeError "type numpy.ndarray doesn't define __round__ method")
  /\ Inference.income_from_standardized
       (Inference.PdSeries [Fin 0; Fin (12247 # 10000)]) (Fin 1000) (Fin (1633 # 10))
     = Ok (Inference.PdSeries [Fin 1000; Fin 1200]).
Proof.
  split; [| split].
  - intros pred_y mu sigma. reflexivity.
  - reflexivity.
  - vm_compute. reflexivity.
Qed.

(** ** C1: round trip of the standardisation *)

(** With a non-zero [sigma] the inverse of the standardized value of [x],
    held in a Series, is within 5 of [x]. *)
Lemma standardize_round_trip (x mu sigma : Q) :
  ~ (sigma == 0)%Q ->
  exists r : Q,
    Inference.income_from_standardized
      (Inference.PdSeries [((Fin x - Fin mu) / Fin sigma)%fl]) (Fin mu) (Fin sigma)
    = Ok (Inference.PdSeries [Fin r])
    /\ (Qabs (r - x) <= 5)%Q.
Proof.
  intros Hs.
  unfold Inference.income_from_standardized, Inference.affine, Inference.py_round_m1.
  cbn [map Float.sub Float.neg Float.add Float.div].
  destruct (Qeq_bool sigma 0) eqn:E; [apply Qeq_bool_iff in E; contradiction |].
  cbn [Float.mul Float.add Float.round_m1].
  eexists. split; [reflexivity |].
  set (v := ((x + - mu) / sigma * sigma + mu)%Q).
  assert (Hv : (v == x)%Q) by (unfold v; field; exact Hs).
  pose proof (round_m1_close v) as H.
  apply Qabs_Qle_condition in H. apply Qabs_Qle_condition. split; lra.
Qed.

Lemma standardize_round_trip_witness :
  exists r : Q,
    Inference.income_from_standardized
      (Inference.PdSeries [((Fin 1204 - Fin 1000) / Fin (490 # 3))%fl])
      (Fin 1000) (Fin (490 # 3))
    = Ok (Inference.PdSeries [Fin r])
    /\ (Qabs (r - 1204) <= 5)%Q.
Proof. apply standardize_round_trip. intros H; discriminate H. Defined.

(** The scenario of the specification: incomes 1000, 1200, 800 come back
    unchanged. *)
Example round_trip_three_days :
  round_trip Sample.three_days = Ok [Fin 1000; Fin 1200; Fin 800].
Proof. vm_compute. reflexivity. Qed.

(** C1, at a constant income column.  [extract_features] finds
    [sigma = 0], every target [y] is 0/0 = NaN, and the inverse transform
    gives NaN for both days instead of the incomes 100, 100; the 1.0 that
    the training functions substitute for [sigma] does not repair the
    column, which is already NaN. *)
Theorem round_trip_constant_income_is_nan :
  Frame.values "Income_Total" Sample.constant_income = [Fin 100; Fin 100]
  /\ Float.is_zero (snd (FeatureExtraction.mu_sigma Sample.constant_income)) = true
  /\ round_trip Sample.constant_income = Ok [NaN; NaN]
  /\ round_trip_trained Sample.constant_income = Ok [NaN; NaN].
Proof. vm_compute. repeat split; reflexivity. Qed.

(** ** C5: the guard on a zero standard deviation *)

(** C5, as it fails.  In [extract_features] a constant income column gives
    the divisor 0 and the target 0/0 = NaN for every day; in the training
    functions a standard deviation of 1e-9 is the divisor as it stands,
    not 1.0. *)
Lemma sigma_zero_or_tiny_is_the_divisor :
  Float.is_zero (snd (FeatureExtraction.mu_sigma Sample.constant_income)) = true
  /\ match FeatureExtraction.extract_features Sample.constant_income with
     | Ok new_df => Frame.values "y" new_df = [NaN; NaN]
     | Raise _ => False
     end
  /\ match snd (Inference.mu_sigma Sample.nearly_flat) with
     | Fin s => (0 < s)%Q /\ (s < 1 # 100000000)%Q
     | _ => False
     end.
Proof. vm_compute. repeat split; reflexivity. Qed.

Section Divisor.

(** [float(std) or 1.0] is the standard deviation unless that is zero,
    and is never zero. *)
Lemma guarded_sigma (feats : DataFrame) :
  snd (Inference.mu_sigma feats)
  = (if Float.is_zero (Series.std_pop (Frame.values "Income_Total" feats))
     then Fin 1
     else Series.std_pop (Frame.values "Income_Total" feats))
  /\ Float.is_zero (snd (Inference.mu_sigma feats)) = false.
Proof.
  unfold Inference.mu_sigma. cbn [snd].
  set (s := Series.std_pop _). unfold Float.or_else, Float.truthy, Float.is_zero.
  destruct s as [q | | |]; try (split; reflexivity).
  destruct (Qeq_bool q 0) eqn:E; cbn [negb]; split; try reflexivity.
  exact E.
Qed.

(** Finite values minus a finite mean, divided by a finite divisor that
    is not zero, are finite. *)
Lemma standardized_finite (qs : list Q) (a s : Q) :
  Qeq_bool s 0 = false ->
  Forall (fun y => Float.is_finite y = true)
         (map (fun x => ((x - Fin a) / Fin s)%fl) (map Fin qs)).
Proof.
  intros Hs. apply Forall_map, Forall_map, Forall_forall. intros q _.
  cbn [Float.sub Float.neg Float.add Float.div]. rewrite Hs. reflexivity.
Qed.

End Divisor.

(** C5, amended.  In the training functions the target is built, when the
    frame has no column [y], by dividing [Income_Total - mu] by
    [sigma = float(std) or 1.0]: the population standard deviation with
    1.0 in place of an exact zero and unchanged otherwise.  That divisor
    is never zero, so on finite incomes, constant or not, every target is
    a finite number (overflow, which the floats here leave out, apart):
    no division by zero takes place. *)
Theorem training_sigma_is_never_zero :
  forall (feats : DataFrame) (train_frac : number),
    Frame.has_column "ds" feats = true ->
    Frame.has_column "Income_Total" feats = true ->
    Frame.has_column "y" feats = false ->
    Forall (fun x => Float.is_finite x = true) (Frame.values "Income_Total" feats) ->
    exists (feats' train_df : DataFrame) (val_df : option DataFrame)
           (mu sigma : float),
      let income := Frame.values "Income_Total" (Frame.sort_values "ds" feats) in
      Inference.prepare feats train_frac = Ok (feats', (mu, sigma), train_df, val_df)
      /\ sigma = (if Float.is_zero (Series.std_pop income) then Fin 1
                  else Series.std_pop income)
      /\ Float.is_zero sigma = false
      /\ Frame.values "y" feats' = map (fun x => ((x - mu) / sigma)%fl) income
      /\ Forall (fun y => Float.is_finite y = true) (Frame.values "y" feats').
Proof.
  intros feats train_frac Hds Hinc Hy Hfin. unfold Inference.prepare.
  rewrite Hds. cbn [negb].
  change (Frame.has_column "Income_Total" (Frame.sort_values "ds" feats))
    with (Frame.has_column "Income_Total" feats).
  rewrite Hinc. cbn [negb].
  set (sorted := Frame.sort_values "ds" feats).
  destruct (guarded_sigma sorted) as [Hsig Hnz].
  destruct (Inference.mu_sigma sorted) as [mu sigma] eqn:Ems. cbn [snd] in Hsig, Hnz.
  unfold Inference.ensure_y.
  change (Frame.has_column "y" sorted) with (Frame.has_column "y" feats).
  rewrite Hy.
  set (ys := map _ (Frame.values "Income_Total" sorted)).
  destruct (Inference.train_val_split (Frame.assign "y" ys sorted) train_frac)
    as [train_df val_df].
  exists (Frame.assign "y" ys sorted), train_df, val_df, mu, sigma. cbn zeta.
  assert (Hlen : length ys = Frame.len sorted)
    by (unfold ys; now rewrite length_map, values_length).
  assert (Hval : Frame.values "y" (Frame.assign "y" ys sorted) = ys)
    by (apply assign_values; exact Hlen).
  split; [reflexivity |]. split; [exact Hsig |]. split; [exact Hnz |].
  split; [exact Hval |]. rewrite Hval.
  assert (Hsorted : Forall (fun x => Float.is_finite x = true)
                      (Frame.values "Income_Total" sorted)).
  { unfold Frame.values in *. rewrite Forall_map in *.
    eapply Permutation_Forall; [| exact Hfin].
    symmetry. apply sort_values_perm. }
  apply finite_values in Hsorted as [qs Hqs].
  unfold ys. rewrite Hqs.
  destruct qs as [| q0 qs0]; [constructor |].
  assert (Hne : q0 :: qs0 <> []) by discriminate.
  assert (Hmu : mu = Series.mean (map Fin (q0 :: qs0))).
  { unfold Inference.mu_sigma in Ems. rewrite Hqs in Ems. congruence. }
  unfold Series.mean in Hmu. rewrite dropna_finite, mean_finite in Hmu by exact Hne.
  destruct (std_pop_finite (q0 :: qs0) Hne) as [s Hs].
  rewrite Hqs, Hs in Hsig. cbn [Float.is_zero] in Hsig.
  rewrite Hmu. destruct (Qeq_bool s 0) eqn:E; rewrite Hsig.
  - apply standardized_finite. reflexivity.
  - apply standardized_finite. exact E.
Qed.

Lemma training_sigma_is_never_zero_witness :
  exists (feats' train_df : DataFrame) (val_df : option DataFrame) (mu sigma : float),
    let income :=
      Frame.values "Income_Total" (Frame.sort_values "ds" Sample.flat2) in
    Inference.prepare Sample.flat2 (9 # 10) = Ok (feats', (mu, sigma), train_df, val_df)
    /\ sigma = (if Float.is_zero (Series.std_pop income) then Fin 1
                else Series.std_pop income)
    /\ Float.is_zero sigma = false
    /\ Frame.values "y" feats' = map (fun x => ((x - mu) / sigma)%fl) income
    /\ Forall (fun y => Float.is_finite y = true) (Frame.values "y" feats').
Proof.
  apply (training_sigma_is_never_zero Sample.flat2 (9 # 10)).
  - vm_compute. reflexivity.
  - vm_compute. reflexivity.
  - vm_compute. reflexivity.
  - vm_compute. repeat constructor.
Defined.

(** A constant income column in the training functions: [sigma] is 1.0
    and the targets are 0. *)
Example training_constant_income :
  match Inference.prepare Sample.flat2 (9 # 10) with
  | Ok (feats, (mu, sigma), _, _) =>
      sigma = Fin 1 /\ Forall (Float.same (Fin 0)) (Frame.values "y" feats)
  | Raise _ => False
  end.
Proof. vm_compute. split; [reflexivity | repeat constructor]. Qed.

(** ** C4 and C10: the chronological split *)

Section Slicing.

Lemma py_int_floor (q : Q) : (0 <= q)%Q -> py_int q = Qfloor q.
Proof.
  destruct q as [n d]. unfold Qle, py_int, Qfloor. cbn. intros H.
  apply Z.quot_div_nonneg; lia.
Qed.

Lemma length_nonneg (n : nat) : (0 <= inject_Z (Z.of_nat n))%Q.
Proof. change 0%Q with (inject_Z 0). rewrite <- Zle_Qle. lia. Qed.

(** The product [n * x] of the sources against the exact one: for a
    fraction in [0, 1] and a length up to 2^53 its integer part lies
    between the floor and the ceiling of the exact product, and it is not
    above [n]. *)
Lemma times_len_bounds (n : nat) (x : number) :
  (Z.of_nat n <= 2 ^ 53)%Z ->
  (0 <= number_value x)%Q -> (number_value x <= 1)%Q ->
  let exact := (inject_Z (Z.of_nat n) * number_value x)%Q in
  (0 <= times_len n x)%Q
  /\ (Qfloor exact <= Qfloor (times_len n x) <= Qceiling exact)%Z
  /\ (Qfloor (times_len n x) <= Z.of_nat n)%Z.
Proof.
  intros Hn H0 H1 exact.
  pose proof (length_nonneg n) as Hlen.
  assert (Hex0 : (0 <= exact)%Q) by (apply Qmult_le_0_compat; assumption).
  assert (Hexn : (exact <= inject_Z (Z.of_nat n))%Q).
  { unfold exact. assert (H : (0 <= inject_Z (Z.of_nat n) * (1 - number_value x))%Q)
      by (apply Qmult_le_0_compat; [exact Hlen | lra]).
    lra. }
  destruct x as [k | f]; cbn [times_len number_value] in *.
  - assert (E : (inject_Z (Z.of_nat n * k) == exact)%Q)
      by (unfold exact; rewrite inject_Z_mult; reflexivity).
    split; [rewrite E; exact Hex0 |].
    rewrite (Qfloor_comp _ _ E).
    pose proof (Qle_floor_ceiling exact) as Hfc. rewrite <- Zle_Qle in Hfc.
    split; [lia |].
    rewrite <- (Qfloor_Z (Z.of_nat n)). apply Qfloor_resp_le. exact Hexn.
  - assert (Edn : (Float.double (inject_Z (Z.of_nat n)) == inject_Z (Z.of_nat n))%Q)
      by (apply double_Z; lia).
    assert (Earg : (Float.double (inject_Z (Z.of_nat n)) * f == exact)%Q)
      by (unfold exact; rewrite Edn; reflexivity).
    assert (Hd : (Float.double (Float.double (inject_Z (Z.of_nat n)) * f)
                  == Float.double exact)%Q).
    { apply Qle_antisym; apply double_mono; lra. }
    assert (H53 : (inject_Z (Z.of_nat n) <= inject_Z (2 ^ 53))%Q)
      by (rewrite <- Zle_Qle; exact Hn).
    split; [rewrite Hd; apply double_nonneg; exact Hex0 |].
    rewrite (Qfloor_comp _ _ Hd).
    split; [apply floor_double_bounds; lra |].
    rewrite <- (Qfloor_Z (Z.of_nat n)). apply Qfloor_resp_le.
    rewrite <- Edn. apply double_mono; assumption.
Qed.

(** The split index of the training functions. *)
Lemma split_index_bounds (n : nat) (x : number) :
  (Z.of_nat n <= 2 ^ 53)%Z ->
  (0 <= number_value x)%Q -> (number_value x <= 1)%Q ->
  let exact := (inject_Z (Z.of_nat n) * number_value x)%Q in
  Inference.split_index n x = Z.max 1 (Qfloor (times_len n x))
  /\ (Z.max 1 (Qfloor exact) <= Inference.split_index n x
      <= Z.max 1 (Qceiling exact))%Z
  /\ (Inference.split_index n x <= Z.max 1 (Z.of_nat n))%Z.
Proof.
  intros Hn H0 H1 exact.
  destruct (times_len_bounds n x Hn H0 H1) as (Hpos & Hb & Hle).
  fold exact in Hb. unfold Inference.split_index.
  rewrite py_int_floor by exact Hpos. split; [reflexivity |]. lia.
Qed.

Lemma slice_pos_nonneg (n : nat) (k : Z) :
  (0 <= k)%Z -> Frame.slice_pos n k = Nat.min (Z.to_nat k) n.
Proof.
  intros Hk. unfold Frame.slice_pos.
  destruct (k <? 0)%Z eqn:E; [apply Z.ltb_lt in E; lia | reflexivity].
Qed.

(** The two slices of a frame at the same bound partition its rows. *)
Lemma iloc_partition (k : Z) (df : DataFrame) :
  (rows (Frame.iloc_to k df) ++ rows (Frame.iloc_from k df))%list = rows df.
Proof. apply take_drop. Qed.

(** The two frames of the split of the training functions, in terms of
    the split index. *)
Lemma train_val_frames (feats : DataFrame) (x : number) :
  let n := Frame.len feats in
  let k := Z.to_nat (Inference.split_index n x) in
  fst (Inference.train_val_split feats x) = mkFrame (columns feats) (take k (rows feats))
  /\ snd (Inference.train_val_split feats x)
     = (if (k <? n)%nat then Some (mkFrame (columns feats) (drop k (rows feats)))
        else None).
Proof.
  intros n k. unfold Inference.train_val_split. cbn [fst snd]. fold n.
  set (i := Inference.split_index n x).
  assert (Hi : (1 <= i)%Z) by (unfold i, Inference.split_index; lia).
  unfold Frame.iloc_to, Frame.iloc_from. fold n. rewrite slice_pos_nonneg by lia.
  change (Z.to_nat i) with k. split.
  - f_equal. destruct (Nat.min_spec k n) as [[_ ->] | [Hle ->]]; [reflexivity |].
    unfold n, Frame.len in *. now rewrite !take_ge by lia.
  - destruct (i <? Z.of_nat n)%Z eqn:E.
    + apply Z.ltb_lt in E. assert (Hk : (k < n)%nat) by (unfold k; lia).
      rewrite (proj2 (Nat.ltb_lt _ _) Hk), Nat.min_l by lia. reflexivity.
    + apply Z.ltb_ge in E. assert (Hk : (n <= k)%nat) by (unfold k; lia).
      now rewrite (proj2 (Nat.ltb_ge _ _) Hk).
Qed.

Lemma train_val_rows (feats : DataFrame) (x : number) :
  let k := Z.to_nat (Inference.split_index (Frame.len feats) x) in
  rows (fst (Inference.train_val_split feats x)) = take k (rows feats)
  /\ Inference.val_rows (snd (Inference.train_val_split feats x)) = drop k (rows feats).
Proof.
  intros k. destruct (train_val_frames feats x) as [-> ->]. fold k.
  split; [reflexivity |].
  destruct (k <? Frame.len feats)%nat eqn:E; [reflexivity |].
  apply Nat.ltb_ge in E. unfold Frame.len in E. cbn [Inference.val_rows].
  now rewrite drop_ge.
Qed.


End Slicing.

Section Chronology.

#[local] Instance precedes_transitive c : Transitive (Frame.precedes c).
Proof.
  intros x y z. unfold Frame.precedes, Frame.stamp_leb.
  destruct (Frame.stamp c x), (Frame.stamp c y), (Frame.stamp c z);
    try discriminate; try reflexivity.
  rewrite !Z.leb_le. lia.
Qed.

Lemma precedes_total c (a b : Row) :
  Frame.precedes c a b \/ Frame.precedes c b a.
Proof.
  unfold Frame.precedes, Frame.stamp_leb.
  destruct (Frame.stamp c a), (Frame.stamp c b); auto.
  rewrite !Z.leb_le. lia.
Qed.

Lemma insert_sorted_sorted c (r : Row) (l : list Row) :
  Sorted (Frame.precedes c) l ->
  Sorted (Frame.precedes c) (Frame.insert_sorted c r l).
Proof.
  induction l as [| r' l IH]; intros Hl; cbn.
  - repeat constructor.
  - destruct (Frame.stamp_leb (Frame.stamp c r) (Frame.stamp c r')) eqn:E.
    + constructor; [exact Hl | constructor; exact E].
    + inversion Hl as [| ? ? Hs Hhd]; subst.
      constructor; [apply IH; exact Hs |].
      assert (Hr : Frame.precedes c r' r).
      { destruct (precedes_total c r r') as [H | H]; [| exact H].
        unfold Frame.precedes in H. congruence. }
      destruct l as [| r'' l]; cbn; [constructor; exact Hr |].
      destruct (Frame.stamp_leb (Frame.stamp c r) (Frame.stamp c r''));
        constructor; [exact Hr |].
      inversion Hhd; subst; assumption.
Qed.

(** [sort_values] leaves the rows in ascending order of the column. *)
Lemma sort_values_sorted c (df : DataFrame) :
  Sorted (Frame.precedes c) (rows (Frame.sort_values c df)).
Proof.
  unfold Frame.sort_values. cbn [rows].
  induction (rows df) as [| r l IH]; cbn; [constructor |].
  apply insert_sorted_sorted, IH.
Qed.

(** In a sorted sequence every row of a prefix precedes every row of the
    rest. *)
Lemma prefix_precedes_rest c (k : nat) (l : list Row) (r r' : Row) :
  Sorted (Frame.precedes c) l ->
  r ∈ take k l -> r' ∈ drop k l -> Frame.precedes c r r'.
Proof.
  intros Hl Hr Hr'. apply Sorted_StronglySorted in Hl; [| apply _].
  rewrite <- (take_drop k l) in Hl.
  eapply StronglySorted_app_1_elem_of; eassumption.
Qed.

(** Writing a column other than [c] does not disturb the order in [c]. *)
Lemma assign_keeps_order c y (vs : list float) (df : DataFrame) :
  c <> y ->
  Sorted (Frame.precedes c) (rows df) ->
  Sorted (Frame.precedes c) (rows (Frame.assign y vs df)).
Proof.
  intros Hne Hs. apply Sorted_StronglySorted in Hs; [| apply _].
  apply StronglySorted_Sorted. unfold Frame.assign. cbn [rows].
  assert (Hst : forall (r : Row) v,
             Frame.stamp c (<[y := CNum v]> r) = Frame.stamp c r).
  { intros r v. unfold Frame.stamp. rewrite lookup_insert_ne by congruence.
    reflexivity. }
  revert vs. induction Hs as [| r l Hl IH Hr]; intros vs; [constructor |].
  destruct vs as [| v vs]; [constructor |]. cbn [zip_with].
  constructor; [apply IH |].
  apply Forall_forall. intros x Hx.
  apply elem_of_zip_with in Hx as (r' & v' & -> & Hr' & _).
  rewrite Forall_forall in Hr. specialize (Hr r' Hr').
  unfold Frame.precedes in *. rewrite !Hst. exact Hr.
Qed.

End Chronology.




(** C10, as it fails.  The index is not [max(1, floor(n * train_frac))]
    of the exact product.  Ten rows at 0.7: the double 0.7 is below 7/10,
    the exact product is below 7 and its floor is 6, but the rounded
    product is 7.0 and seven rows are trained on.  A hundred rows at
    0.29: the rounded product is below 29 and the index is 28, where
    [floor(100 * 29/100)] is 29. *)
Lemma split_index_is_not_the_exact_floor :
  Inference.split_index 10 (7 # 10) = 7
  /\ Frame.len (fst (Inference.train_val_split Sample.feats10 (7 # 10))) = 7%nat
  /\ Z.max 1 (Qfloor (inject_Z 10 * Float.double (7 # 10))) = 6
  /\ Inference.split_index 100 (29 # 100) = 28
  /\ Z.max 1 (Qfloor (inject_Z 100 * (29 # 100))) = 29.
Proof. vm_compute. repeat split; reflexivity. Qed.

(** C10, amended.  For a frame that is not empty, of at most 2^53 rows,
    and a fraction whose value [f] lies in (0, 1], the split index is
    [max(1, floor(p))] where [p] is the product [n * train_frac] as the
    code takes it (rounded to binary64 when [train_frac] is a float); it
    lies between [max(1, floor(n * f))] and [max(1, ceil(n * f))] and
    between 1 and [n]; the training partition has exactly that many rows,
    hence at least one, and the validation partition the remaining
    ones. *)
Theorem training_partition_is_never_empty :
  forall (feats : DataFrame) (train_frac : number),
    (0 < Frame.len feats)%nat ->
    (Z.of_nat (Frame.len feats) <= 2 ^ 53)%Z ->
    (0 < number_value train_frac)%Q -> (number_value train_frac <= 1)%Q ->
    let n := Frame.len feats in
    let exact := (inject_Z (Z.of_nat n) * number_value train_frac)%Q in
    let split_idx := Inference.split_index n train_frac in
    let train := fst (Inference.train_val_split feats train_frac) in
    let val := Inference.val_rows (snd (Inference.train_val_split feats train_frac)) in
    split_idx = Z.max 1 (Qfloor (times_len n train_frac))
    /\ (Z.max 1 (Qfloor exact) <= split_idx <= Z.max 1 (Qceiling exact))%Z
    /\ (1 <= split_idx <= Z.of_nat n)%Z
    /\ Z.of_nat (Frame.len train) = split_idx
    /\ (1 <= Frame.len train)%nat
    /\ Z.of_nat (length val) = (Z.of_nat n - split_idx)%Z.
Proof.
  intros feats train_frac Hpos Hn Hf Hf1 n exact split_idx train val.
  destruct (split_index_bounds n train_frac Hn (Qlt_le_weak _ _ Hf) Hf1)
    as (Hidx & Hb & Hle).
  destruct (train_val_rows feats train_frac) as [Ht Hv].
  fold n exact split_idx in Hidx, Hb, Hle. fold n split_idx in Ht, Hv.
  fold val in Hv.
  assert (Hlo : (1 <= split_idx)%Z) by (rewrite Hidx; lia).
  assert (Hhi : (split_idx <= Z.of_nat n)%Z) by (unfold n in *; lia).
  split; [exact Hidx |]. split; [exact Hb |]. split; [lia |].
  assert (Hlen : Frame.len train = Z.to_nat split_idx).
  { unfold Frame.len, train. rewrite Ht, length_take.
    fold (Frame.len feats). fold n. lia. }
  split; [lia |]. split; [lia |].
  rewrite Hv, length_drop. fold (Frame.len feats). fold n. lia.
Qed.

Lemma training_partition_is_never_empty_witness :
  let feats := Sample.feats10 in
  let train_frac : number := 1 # 100 in
  let exact := (inject_Z 10 * number_value train_frac)%Q in
  let split_idx := Inference.split_index 10 train_frac in
  let train := fst (Inference.train_val_split feats train_frac) in
  let val := Inference.val_rows (snd (Inference.train_val_split feats train_frac)) in
  split_idx = Z.max 1 (Qfloor (times_len 10 train_frac))
  /\ (Z.max 1 (Qfloor exact) <= split_idx <= Z.max 1 (Qceiling exact))%Z
  /\ (1 <= split_idx <= 10)%Z
  /\ Z.of_nat (Frame.len train) = split_idx
  /\ (1 <= Frame.len train)%nat
  /\ Z.of_nat (length val) = (10 - split_idx)%Z.
Proof.
  apply (training_partition_is_never_empty Sample.feats10 (1 # 100)).
  - vm_compute. lia.
  - vm_compute. discriminate.
  - vm_compute. reflexivity.
  - vm_compute. discriminate.
Defined.

(** [time_series_split] is exhaustive as well. *)
Lemma time_series_split_exhaustive (df : DataFrame) (test_size : number) :
  (rows (fst (Inference.time_series_split df test_size))
   ++ rows (snd (Inference.time_series_split df test_size)))%list = rows df.
Proof. apply iloc_partition. Qed.

(** The training functions sort before they split, so the order of C4
    holds for what they actually train and validate on. *)
Lemma prepared_split_is_chronological (feats : DataFrame) (f : number)
    (feats' train_df : DataFrame) (ms : float * float) (val_df : option DataFrame) :
  Inference.prepare feats f = Ok (feats', ms, train_df, val_df) ->
  (rows train_df ++ Inference.val_rows val_df)%list = rows feats'
  /\ forall r r' : Row,
       r ∈ rows train_df -> r' ∈ Inference.val_rows val_df ->
       Frame.precedes "ds" r r'.
Proof.
  unfold Inference.prepare.
  destruct (Frame.has_column "ds" feats); cbn [negb]; [| discriminate].
  destruct (Frame.has_column "Income_Total" (Frame.sort_values "ds" feats));
    cbn [negb]; [| discriminate].
  destruct (Inference.mu_sigma (Frame.sort_values "ds" feats)) as [mu sigma].
  set (sorted := Inference.ensure_y (Frame.sort_values "ds" feats) mu sigma).
  assert (Hs : Sorted (Frame.precedes "ds") (rows sorted)).
  { unfold sorted, Inference.ensure_y.
    destruct (Frame.has_column "y" (Frame.sort_values "ds" feats)).
    - apply sort_values_sorted.
    - apply assign_keeps_order; [discriminate | apply sort_values_sorted]. }
  pose proof (train_val_rows sorted f) as [Ht Hv].
  destruct (Inference.train_val_split sorted f) as [tr va].
  cbn [fst snd] in Ht, Hv. intros [= <- <- <- <-].
  rewrite Ht, Hv. split; [apply take_drop |].
  intros r r'. apply prefix_precedes_rest, Hs.
Qed.

(** ** C7: validation metrics *)

(** One step of a computation in [result]: case on the call that is run
    next; the case in which it raises ends the computation. *)
Ltac run_step :=
  match goal with
  | |- context [read_local _ (Some _)] => cbn [read_local bind]
  | |- context [read_local _ None] => cbn [read_local bind]
  | |- context [bind ?r _] =>
      match r with
      | Ok _ => cbn [bind]
      | Raise _ => cbn [bind]
      | _ => let E := fresh "E" in destruct r eqn:E; cbn [bind]
      end
  | |- context [match ?p with (_, _) => _ end] =>
      match p with
      | (_, _) => cbn iota
      | _ => destruct p
      end
  end.

Section ValidationMetrics.
Context (P : ProphetLib) (S : Sklearn).

(** With [train_frac = 1] nothing is left for validation. *)
Lemma no_validation_partition_at_one (feats : DataFrame) :
  snd (Inference.train_val_split feats 1) = None.
Proof.
  unfold Inference.train_val_split, Inference.split_index. cbn [snd].
  destruct (_ <? _)%Z eqn:E; [| reflexivity].
  apply Z.ltb_lt in E.
  unfold times_len, py_int, inject_Z in E. cbn [Qnum Qden] in E.
  rewrite Z.mul_1_r, Z.quot_1_r in E. lia.
Qed.

(** Once the validation partition has a row, [_train_prophet] raises:
    a library call fails, or the read of the deleted local does. *)
Lemma validation_branch_raises (feats : DataFrame) (f : number)
    (feats' train_df val_df : DataFrame) (ms : float * float) :
  Inference.prepare feats f = Ok (feats', ms, train_df, Some val_df) ->
  (0 < Frame.len val_df)%nat ->
  raises (Main._train_prophet feats f).
Proof.
  intros Hp Hlen. unfold Main._train_prophet. rewrite Hp. cbn [bind].
  unfold Inference.encode_train, prophet_fit.
  destruct (Inference.get_feature_pipeline feats') as [feature_pipe feat_names].
  apply Nat.ltb_lt in Hlen. rewrite Hlen.
  repeat (first [ solve [eexists; reflexivity] | run_step ]).
Qed.

(** Whatever [_train_prophet] returns holds no validation metric. *)
Lemma returned_metrics_have_no_validation (feats : DataFrame) (f : number)
    (metrics : Main.Metrics) :
  Main._train_prophet feats f = Ok metrics ->
  metrics !! "val_mae" = None /\ metrics !! "val_rmse" = None
  /\ metrics !! "val_r2" = None.
Proof.
  unfold Main._train_prophet.
  destruct (Inference.prepare feats f) as [[[[feats' ms] train_df] val_df] | e];
    cbn [bind]; [| discriminate].
  unfold Inference.encode_train, prophet_fit.
  destruct (Inference.get_feature_pipeline feats') as [feature_pipe feat_names].
  repeat (first [ discriminate | run_step ]).
  assert (Hm : forall a b c d,
             Main.train_metrics a b c d !! "val_mae" = None
             /\ Main.train_metrics a b c d !! "val_rmse" = None
             /\ Main.train_metrics a b c d !! "val_r2" = None).
  { intros. unfold Main.train_metrics. repeat split;
      repeat (rewrite lookup_insert_ne by discriminate); apply lookup_empty. }
  destruct val_df as [val_df |].
  - destruct (0 <? Frame.len val_df)%nat.
    + repeat (first [ discriminate | run_step ]).
    + intros [= <-]. apply Hm.
  - intros [= <-]. apply Hm.
Qed.

End ValidationMetrics.

(** With [train_frac = 1], as [train_endpoint] calls it, the result has
    no validation metric and the report carries [null] for them. *)
Lemma train_endpoint_reports_no_validation (P : ProphetLib) (S : Sklearn)
    (json_to_features : list Row -> result DataFrame) (records : list Row)
    (body : Main.Trained) :
  Main.train_endpoint json_to_features records = Main.Success body ->
  Main.accuracy_validation body = None.
Proof.
  unfold Main.train_endpoint. destruct records as [| r records]; [discriminate |].
  destruct (json_to_features (r :: records)) as [feats | e]; cbn [bind];
    [| discriminate].
  destruct (Main._train_prophet feats 1) as [metrics | e] eqn:E; cbn [bind];
    [| discriminate].
  intros [= <-]. cbn [Main.accuracy_validation].
  apply returned_metrics_have_no_validation in E as [E _].
  unfold Main.validation_report. rewrite E. reflexivity.
Qed.

Lemma train_endpoint_reports_no_validation_witness :
  Main.accuracy_validation
    {| Main.status := "trained";
       Main.n_rows := 3;
       Main.train_rows := 2;
       Main.message := "Prophet model trained and forecast prepared.";
       Main.csv_path := "uploads/predictions.csv";
       Main.accuracy_train :=
         Main.mkScores (round_nd 4 (Fin 0)) (round_nd 4 (Fin 0)) (round_nd 4 (Fin 0));
       Main.accuracy_validation := None |} = None.
Proof.
  apply (train_endpoint_reports_no_validation Sample.prophet_ok Sample.sklearn_ok
           (fun _ => Ok Sample.feats3) [Sample.day 1 1000]).
  vm_compute. reflexivity.
Defined.

(** C7, at ten rows and [train_frac = 9/10].  One row is left for
    validation, and [_train_prophet] returns no metrics at all: whatever
    Prophet and scikit-learn do, it raises, and when all their calls
    succeed the exception is the [UnboundLocalError] of reading
    [safe_regressors] after [del safe_regressors].  With [train_frac = 1]
    the same frame gives the four training metrics only. *)
Theorem validation_metrics_are_never_computed :
  (forall (P : ProphetLib) (S : Sklearn),
      raises (Main._train_prophet Sample.feats10 (9 # 10)))
  /\ @Main._train_prophet Sample.prophet_ok Sample.sklearn_ok Sample.feats10 (9 # 10)
     = Raise (UnboundLocalError "safe_regressors")
  /\ match @Main._train_prophet Sample.prophet_ok Sample.sklearn_ok
             Sample.feats10 1 with
     | Ok metrics =>
         dom metrics
         = ({[ "accuracy"; "train_mae"; "train_rmse"; "train_r2" ]} : gset string)
     | Raise _ => False
     end.
Proof.
  split; [| split].
  - intros P S. eapply validation_branch_raises.
    + vm_compute. reflexivity.
    + vm_compute. lia.
  - vm_compute. reflexivity.
  - vm_compute. reflexivity.
Qed.

(** ** C6: R-squared on a constant target *)

Section ConstantTarget.
Local Open Scope Q_scope.



End ConstantTarget.




(** ** C2: persisting and loading a model *)

Section Persistence.
Context (P : ProphetLib) (S : Sklearn).

(** [train_prophet] never returns: when the fit succeeds, writing the text
    of [model_to_json] to the file opened with ['wb'] raises. *)
Lemma train_prophet_never_returns (userId : Z) (feats : DataFrame) (f : number)
    (fs : FS) :
  is_ok (fst (Inference.train_prophet userId feats f fs)) = false.
Proof.
  unfold Inference.train_prophet.
  match goal with |- context [match ?c with Ok _ => _ | Raise _ => _ end] =>
    destruct c as [[m ms] | e] end; reflexivity.
Qed.

(** All it can leave behind is the empty file that [open] created. *)
Lemma train_prophet_leaves_no_model (userId : Z) (feats : DataFrame) (f : number)
    (fs : FS) :
  snd (Inference.train_prophet userId feats f fs) = fs
  \/ snd (Inference.train_prophet userId feats f fs)
     = <[Inference.train_path userId := ""]> fs.
Proof.
  unfold Inference.train_prophet.
  match goal with |- context [match ?c with Ok _ => _ | Raise _ => _ end] =>
    destruct c as [[m ms] | e] end; [right | left]; reflexivity.
Qed.

(** Loading for retraining when nothing was ever stored. *)
Lemma retrain_without_artifact (userId : Z) (feats : DataFrame) (f : number) :
  Inference.retrain_prophet userId feats f ∅
  = Raise (FileNotFoundError (Inference.retrain_path userId)).
Proof. unfold Inference.retrain_prophet, read_text. now rewrite lookup_empty. Qed.

End Persistence.

(** The file [train_prophet] writes is not the file [retrain_prophet]
    reads. *)
Lemma artifact_paths_differ (userId : Z) :
  String.eqb (Inference.train_path userId) (Inference.retrain_path userId) = false.
Proof. apply String.eqb_neq. unfold Inference.train_path, Inference.retrain_path.
  cbn. discriminate.
Qed.

(** C2, for user 42 on an empty artifact directory.  Loading raises the
    built-in [FileNotFoundError].  Training does not save: it raises
    [TypeError] at the write and leaves an empty [modelUser_42.json].
    Loading after that still raises [FileNotFoundError], because it looks
    for [model_user_42.json]. *)
Theorem save_then_load_does_not_round_trip :
  (forall (P : ProphetLib) (S : Sklearn) (feats : DataFrame) (f : Q),
      Inference.retrain_prophet 42 feats f ∅
      = Raise (FileNotFoundError "../models/artifacts/model_user_42.json"))
  /\ (forall (P : ProphetLib) (S : Sklearn) (feats : DataFrame) (f : Q) (fs : FS),
         is_ok (fst (Inference.train_prophet 42 feats f fs)) = false)
  /\ @Inference.train_prophet Sample.prophet_ok Sample.sklearn_ok 42
        Sample.feats10 (9 # 10) ∅
     = (Raise (TypeError "a bytes-like object is required, not 'str'"),
        {[ "../models/artifacts/modelUser_42.json" := "" ]})
  /\ (forall (P : ProphetLib) (S : Sklearn) (feats : DataFrame) (f : Q),
         Inference.retrain_prophet 42 feats f
           {[ "../models/artifacts/modelUser_42.json" := "" ]}
         = Raise (FileNotFoundError "../models/artifacts/model_user_42.json")).
Proof.
  split; [| split; [| split]].
  - intros. apply retrain_without_artifact.
  - intros. apply train_prophet_never_returns.
  - vm_compute. reflexivity.
  - intros. unfold Inference.retrain_prophet, read_text.
    rewrite lookup_singleton_ne by (vm_compute; discriminate). reflexivity.
Qed.

(** ** C8: reserved columns are not regressors *)

Section Regressors.






Context (P : ProphetLib).












Context (S : Sklearn).



End Regressors.


(** A frame with columns named [cap] and [floor], against a library that
    refuses Prophet's reserved names: the model is fitted, and neither
    column is among its regressors. *)
Example regressors_of_a_frame_with_cap_and_floor :
  extra_regressors
  <$> (match @Inference.fit_prophet Sample.prophet_ok Sample.capped Sample.capped
               ["ds"; "y"; "Income_Total"; "cap"; "Hours_Worked"; "floor"] None with
       | Ok m => Some m
       | Raise _ => None
       end)
  = Some ["Income_Total"; "Hours_Worked"]
  /\ is_ok (@Main._train_prophet Sample.prophet_ok Sample.sklearn_ok Sample.capped
              (Int 1)) = true.
Proof. vm_compute. split; reflexivity. Qed.

(** ** C3: a failure inside a batch *)

Section Batch.
Context (P : ProphetLib) (S : Sklearn) (csvs : gmap string DataFrame).

(** [train_model] hands on whatever its body raises. *)
Lemma train_model_reraises (userId : Z) (csv_path : string) (kw : Training.Kwargs)
    (w w' : Training.World) (e : exn) :
  Training.train_model_body csvs userId csv_path kw w = (Raise e, w') ->
  Training.train_model csvs userId csv_path kw w
  = (Raise e, Training.mkWorld (Training.files w')
                (("error", Training.LStr (Main.exn_text e)) :: Training.tracked w')).
Proof.
  intros H. unfold Training.train_model, Training.try_except. rewrite H.
  reflexivity.
Qed.

Lemma batch_loop_stops (before after : list (Z * string)) (uid : Z) (path : string)
    (kw : Training.Kwargs) (acc results : gmap Z Training.RunInfo)
    (w w1 w2 : Training.World) (e : exn) :
  Training.batch_loop csvs before kw acc w = (Ok results, w1) ->
  Training.train_model csvs uid path kw w1 = (Raise e, w2) ->
  Training.batch_loop csvs (before ++ (uid, path) :: after) kw acc w = (Raise e, w2).
Proof.
  revert acc w. induction before as [| [u p] before IH]; intros acc w Hb Ht.
  - cbn in Hb. injection Hb as <- <-.
    cbn [app Training.batch_loop]. unfold Training.mbind. rewrite Ht. reflexivity.
  - cbn [app Training.batch_loop] in *. unfold Training.mbind in *.
    destruct (Training.train_model csvs u p kw w) as [[info | e'] w'];
      [| discriminate].
    apply IH; assumption.
Qed.

(** A dictionary comes back only with a record for every user. *)
Lemma batch_loop_all_users (items : list (Z * string)) (kw : Training.Kwargs)
    (acc results : gmap Z Training.RunInfo) (w w' : Training.World) :
  Training.batch_loop csvs items kw acc w = (Ok results, w') ->
  forall uid path, (uid, path) ∈ items -> is_Some (results !! uid).
Proof.
  assert (Hkeep : forall items acc results w w',
             Training.batch_loop csvs items kw acc w = (Ok results, w') ->
             forall uid, is_Some (acc !! uid) -> is_Some (results !! uid)).
  { clear. intros items. induction items as [| [u p] items IH];
      intros acc results w w' Hb uid Hacc.
    - cbn in Hb. injection Hb as <- <-. exact Hacc.
    - cbn [Training.batch_loop] in Hb. unfold Training.mbind in Hb.
      destruct (Training.train_model csvs u p kw w) as [[info | e'] w1];
        [| discriminate].
      eapply IH; [exact Hb |]. rewrite lookup_insert_is_Some'. tauto. }
  revert acc w. induction items as [| [u p] items IH]; intros acc w Hb uid path Hin.
  - apply elem_of_nil in Hin as [].
  - cbn [Training.batch_loop] in Hb. unfold Training.mbind in Hb.
    destruct (Training.train_model csvs u p kw w) as [[info | e'] w1] eqn:Et;
      [| discriminate].
    apply elem_of_cons in Hin as [[= -> ->] | Hin].
    + eapply Hkeep; [exact Hb |]. rewrite lookup_insert_is_Some'. tauto.
    + eapply IH; eassumption.
Qed.

(** [train_model] itself never returns: [train_prophet] does not. *)
Lemma train_model_never_returns (userId : Z) (csv_path : string)
    (kw : Training.Kwargs) (w : Training.World) :
  is_ok (fst (Training.train_model csvs userId csv_path kw w)) = false.
Proof.
  unfold Training.train_model, Training.try_except.
  destruct (Training.train_model_body csvs userId csv_path kw w)
    as [[info | e] w'] eqn:E; [| reflexivity].
  exfalso. revert E. unfold Training.train_model_body.
  unfold Training.mbind, Training.log, Training.lift, Training.on_files.
  destruct (Inference.load_dataset csv_path csvs) as [feats | e]; [| discriminate].
  destruct (Inference.time_series_split feats (Training.test_size kw)) as [tr te].
  destruct (Inference.get_feature_pipeline feats) as [pipe names].
  cbn [Training.files Training.tracked].
  pose proof (train_prophet_never_returns P S userId feats (Training.train_frac kw)
                (Training.files w)) as Hn.
  destruct (Inference.train_prophet userId feats (Training.train_frac kw)
              (Training.files w)) as [[r | e] fs]; [discriminate Hn | discriminate].
Qed.

End Batch.

(** C3, as it fails.  The mapping [{2: "b.csv", 1: "a.csv"}], where
    [b.csv] has no column [y]: the [ValueError] of user 2 leaves
    [batch_train_models], no dictionary is returned, and user 1 is never
    trained (nothing of user 1 reaches the tracking server).  In the order
    [{1: "a.csv", 2: "b.csv"}] no dictionary is returned either. *)
Lemma batch_does_not_isolate_failures :
  ~ @batch_isolates_failures Sample.prophet_ok Sample.sklearn_ok Sample.csv_files
      [(2, "b.csv"); (1, "a.csv")] Training.default_kwargs Sample.fresh_world
  /\ @Training.batch_train_models Sample.prophet_ok Sample.sklearn_ok Sample.csv_files
       [(2, "b.csv"); (1, "a.csv")] Training.default_kwargs Sample.fresh_world
     = (Raise (ValueError "Input CSV must contain 'ds' and 'y' columns"),
        Training.mkWorld ∅
          [("error", Training.LStr "Input CSV must contain 'ds' and 'y' columns");
           ("csv_path", Training.LStr "b.csv");
           ("train_frac", Training.LNum (Fin (9 # 10)));
           ("test_size", Training.LNum (Fin (2 # 10)));
           ("user_id", Training.LInt 2)])
  /\ ~ @batch_isolates_failures Sample.prophet_ok Sample.sklearn_ok Sample.csv_files
         [(1, "a.csv"); (2, "b.csv")] Training.default_kwargs Sample.fresh_world.
Proof.
  split; [| split].
  - intros (results & w' & H & _). vm_compute in H. discriminate H.
  - vm_compute. reflexivity.
  - intros (results & w' & H & _). vm_compute in H. discriminate H.
Qed.

(** C3, amended.  [batch_train_models] trains the users in the order of
    the mapping and has no handler of its own: when the users before
    [uid] have been trained and [train_model] raises for [uid], that
    exception leaves [batch_train_models] in the world [train_model] left,
    so no dictionary is returned and the users after [uid] are not
    trained. *)
Theorem batch_train_stops_at_first_failure :
  forall (P : ProphetLib) (S : Sklearn) (csvs : gmap string DataFrame)
         (before after : list (Z * string)) (uid : Z) (path : string)
         (kw : Training.Kwargs) (results : gmap Z Training.RunInfo)
         (w w1 w2 : Training.World) (e : exn),
    Training.batch_train_models csvs before kw w = (Ok results, w1) ->
    Training.train_model csvs uid path kw w1 = (Raise e, w2) ->
    Training.batch_train_models csvs (before ++ (uid, path) :: after)%list kw w
    = (Raise e, w2).
Proof.
  intros P S csvs before after uid path kw results w w1 w2 e Hb Ht.
  unfold Training.batch_train_models in *.
  eapply batch_loop_stops; eassumption.
Qed.

Lemma batch_train_stops_at_first_failure_witness :
  @Training.batch_train_models Sample.prophet_ok Sample.sklearn_ok Sample.csv_files
    ([] ++ (2, "b.csv") :: [(1, "a.csv")])%list Training.default_kwargs
    Sample.fresh_world
  = (Raise (ValueError "Input CSV must contain 'ds' and 'y' columns"),
     Training.mkWorld ∅
       [("error", Training.LStr "Input CSV must contain 'ds' and 'y' columns");
        ("csv_path", Training.LStr "b.csv");
        ("train_frac", Training.LNum (Fin (9 # 10)));
        ("test_size", Training.LNum (Fin (2 # 10)));
        ("user_id", Training.LInt 2)]).
Proof.
  apply (batch_train_stops_at_first_failure Sample.prophet_ok Sample.sklearn_ok
           Sample.csv_files [] [(1, "a.csv")] 2 "b.csv" Training.default_kwargs
           ∅ Sample.fresh_world Sample.fresh_world).
  - reflexivity.
  - vm_compute. reflexivity.
Defined.

(** * Further properties of the sources *)

(** ** [income_from_standardized] *)

(** X1.  On a pandas Series, with a standard deviation that is not
    negative, the inverse transform keeps the order of the predictions: a
    larger standardized value never comes back as a smaller income. *)
Theorem income_from_standardized_keeps_order :
  forall y1 y2 mu sigma : Q,
    (0 <= sigma)%Q -> (y1 <= y2)%Q ->
    exists r1 r2 : Q,
      Inference.income_from_standardized
        (Inference.PdSeries [Fin y1; Fin y2]) (Fin mu) (Fin sigma)
      = Ok (Inference.PdSeries [Fin r1; Fin r2])
      /\ (r1 <= r2)%Q.
Proof.
  intros y1 y2 mu sigma Hs Hy.
  unfold Inference.income_from_standardized, Inference.affine, Inference.py_round_m1.
  cbn [map Float.mul Float.add Float.round_m1].
  eexists _, _. split; [reflexivity |].
  assert (Hv : (y1 * sigma + mu <= y2 * sigma + mu)%Q) by nra.
  assert (Hd : ((y1 * sigma + mu) / 10 <= (y2 * sigma + mu) / 10)%Q).
  { unfold Qdiv. apply Qmult_le_compat_r; [exact Hv | discriminate]. }
  apply rint_mono in Hd. rewrite Zle_Qle in Hd.
  apply Qmult_le_compat_r; [exact Hd | discriminate].
Qed.

Lemma income_from_standardized_keeps_order_witness :
  exists r1 r2 : Q,
    Inference.income_from_standardized
      (Inference.PdSeries [Fin (-1); Fin (1 # 2)]) (Fin 1000) (Fin 163)
    = Ok (Inference.PdSeries [Fin r1; Fin r2])
    /\ (r1 <= r2)%Q.
Proof.
  apply (income_from_standardized_keeps_order (-1) (1 # 2) 1000 163);
    discriminate.
Defined.

(** ** [extract_features] and [burnout_risk] *)

Section FeatureExtractionFacts.

Lemma rolling_mean_length (w : nat) (xs : list float) :
  length (FeatureExtraction.rolling_mean w xs) = length xs.
Proof. unfold FeatureExtraction.rolling_mean. now rewrite length_map, length_seq. Qed.

(** The outcome of the test on the four columns. *)
Lemma required_columns_cases (df : DataFrame) :
  (filter (fun c => negb (Frame.has_column c df)) FeatureExtraction.required = []
   /\ forall c, c ∈ FeatureExtraction.required -> Frame.has_column c df = true)
  \/ exists c rest,
       filter (fun c => negb (Frame.has_column c df)) FeatureExtraction.required
       = c :: rest
       /\ c ∈ FeatureExtraction.required /\ Frame.has_column c df = false.
Proof.
  unfold FeatureExtraction.required. rewrite !filter_cons, filter_nil.
  destruct (Frame.has_column "Income_Total" df) eqn:E1;
    [| right; eexists _, _; cbn; split;
       [reflexivity | split; [| exact E1]; repeat constructor]].
  destruct (Frame.has_column "Expenses_Total" df) eqn:E2;
    [| right; eexists _, _; cbn; split;
       [reflexivity | split; [| exact E2]; repeat constructor]].
  destruct (Frame.has_column "Monthly_Income" df) eqn:E3;
    [| right; eexists _, _; cbn; split;
       [reflexivity | split; [| exact E3]; repeat constructor]].
  destruct (Frame.has_column "Monthly_Expenses" df) eqn:E4;
    [| right; eexists _, _; cbn; split;
       [reflexivity | split; [| exact E4]; repeat constructor]].
  left. cbn. split; [reflexivity |]. intros c Hc.
  rewrite !elem_of_cons, elem_of_nil in Hc.
  destruct Hc as [-> | [-> | [-> | [-> | []]]]]; assumption.
Qed.

End FeatureExtractionFacts.

(** X3.  When one of the four columns [extract_features] reads
    ([Income_Total], [Expenses_Total], [Monthly_Income],
    [Monthly_Expenses]) is absent, it raises [KeyError] for an absent one
    of the four and returns no frame. *)
Theorem extract_features_missing_column :
  forall (df : DataFrame) (c : string),
    c ∈ FeatureExtraction.required ->
    Frame.has_column c df = false ->
    exists c' : string,
      FeatureExtraction.extract_features df = Raise (KeyError c')
      /\ c' ∈ FeatureExtraction.required
      /\ Frame.has_column c' df = false.
Proof.
  intros df c Hc Hmiss. unfold FeatureExtraction.extract_features.
  destruct (required_columns_cases df) as [[_ Hall] | (c' & rest & -> & Hc' & Hm)].
  - rewrite (Hall c Hc) in Hmiss. discriminate.
  - exists c'. split; [reflexivity | split; assumption].
Qed.

Lemma extract_features_missing_column_witness :
  exists c' : string,
    FeatureExtraction.extract_features Sample.feats3 = Raise (KeyError c')
    /\ c' ∈ FeatureExtraction.required
    /\ Frame.has_column c' Sample.feats3 = false.
Proof.
  apply (extract_features_missing_column Sample.feats3 "Monthly_Income").
  - unfold FeatureExtraction.required. repeat constructor.
  - vm_compute. reflexivity.
Defined.

(** X4.  When the four columns are present, [extract_features] returns a
    frame with as many rows, whose columns are those of the input and the
    five it computes, and in which no column other than [y] has a missing
    or NaN entry. *)
Theorem extract_features_shape :
  forall df : DataFrame,
    (forall c, c ∈ FeatureExtraction.required -> Frame.has_column c df = true) ->
    exists out : DataFrame,
      FeatureExtraction.extract_features df = Ok out
      /\ Frame.len out = Frame.len df
      /\ (forall c : string,
             c ∈ columns out
             <-> c ∈ columns df
                 \/ c ∈ ["income_rolling_avg_3m"; "expense_to_income_ratio";
                         "net_Income"; "savings"; "y"])
      /\ Forall (fun r : Row =>
                   forall c : string,
                     c ∈ columns out -> c <> "y" -> Frame.has_value (r !! c) = true)
                (rows out).
Proof.
  intros df Hall. unfold FeatureExtraction.extract_features.
  destruct (required_columns_cases df) as [[-> _] | (c' & rest & _ & Hc' & Hm)];
    [| rewrite (Hall c' Hc') in Hm; discriminate].
  set (d1 := Frame.assign "income_rolling_avg_3m" _ df).
  set (d2 := Frame.assign "expense_to_income_ratio" _ d1).
  set (d3 := Frame.assign "net_Income" _ d2).
  set (d4 := Frame.assign "savings" _ d3).
  assert (L1 : Frame.len d1 = Frame.len df).
  { apply assign_len. now rewrite length_map, rolling_mean_length, values_length. }
  assert (L2 : Frame.len d2 = Frame.len df).
  { unfold d2. rewrite assign_len; [exact L1 |].
    rewrite length_map, length_zip_with, !values_length. lia. }
  assert (L3 : Frame.len d3 = Frame.len df).
  { unfold d3. rewrite assign_len; [exact L2 |].
    rewrite length_map, length_zip_with, !values_length. lia. }
  assert (L4 : Frame.len d4 = Frame.len df).
  { unfold d4. rewrite assign_len; [exact L3 |].
    rewrite length_zip_with, !values_length. lia. }
  eexists. split; [reflexivity |].
  unfold FeatureExtraction.standardize.
  destruct (FeatureExtraction.mu_sigma (Frame.fillna0 d4)) as [mu sigma].
  set (ys := map _ (Frame.values "Income_Total" (Frame.fillna0 d4))).
  assert (Ly : length ys = Frame.len (Frame.fillna0 d4))
    by (unfold ys; now rewrite length_map, values_length).
  assert (Hcols : forall c : string,
             c ∈ columns d4
             <-> c ∈ columns df
                 \/ c ∈ ["income_rolling_avg_3m"; "expense_to_income_ratio";
                         "net_Income"; "savings"]).
  { intros c. unfold d4, d3, d2, d1. rewrite !assign_columns.
    rewrite !elem_of_cons, elem_of_nil. tauto. }
  split; [| split].
  - rewrite assign_len by exact Ly. now rewrite fillna0_len.
  - intros c. rewrite assign_columns. cbn [Frame.fillna0 columns].
    rewrite Hcols, !elem_of_cons, elem_of_nil. tauto.
  - apply Forall_forall. intros r' Hr' c Hc Hne.
    unfold Frame.assign in Hr', Hc. cbn [rows columns] in Hr', Hc.
    apply elem_of_zip_with in Hr' as (r & v & -> & Hr & _).
    rewrite lookup_insert_ne by congruence.
    pose proof (fillna0_complete d4) as Hf. rewrite Forall_forall in Hf.
    apply (Hf r Hr).
    destruct (Frame.has_column "y" (Frame.fillna0 d4)); [exact Hc |].
    apply elem_of_app in Hc as [Hc | Hc]; [exact Hc |].
    apply list_elem_of_singleton in Hc. contradiction.
Qed.

Lemma extract_features_shape_witness :
  exists out : DataFrame,
    FeatureExtraction.extract_features Sample.three_days = Ok out
    /\ Frame.len out = Frame.len Sample.three_days
    /\ (forall c : string,
           c ∈ columns out
           <-> c ∈ columns Sample.three_days
               \/ c ∈ ["income_rolling_avg_3m"; "expense_to_income_ratio";
                       "net_Income"; "savings"; "y"])
    /\ Forall (fun r : Row =>
                 forall c : string,
                   c ∈ columns out -> c <> "y" -> Frame.has_value (r !! c) = true)
              (rows out).
Proof.
  apply (extract_features_shape Sample.three_days).
  intros c Hc. unfold FeatureExtraction.required in Hc.
  rewrite !elem_of_cons, elem_of_nil in Hc.
  destruct Hc as [-> | [-> | [-> | [-> | []]]]]; vm_compute; reflexivity.
Defined.

(** X7.  [burnout_risk] has no test on the income: on a day whose income
    is zero the score is an infinity or NaN, never a finite number, and
    nothing is raised. *)
Theorem burnout_risk_on_zero_income :
  forall df out : DataFrame,
    FeatureExtraction.burnout_risk df = Ok out ->
    Forall2 (fun income score =>
               Float.is_zero income = true -> Float.is_finite score = false)
            (Frame.values "Income_Total" df)
            (Frame.values "burnout_risk_score" out).
Proof.
  intros df out. unfold FeatureExtraction.burnout_risk.
  rewrite !filter_cons, filter_nil.
  destruct (Frame.has_column "Hours_Worked" df); cbn; [| discriminate].
  destruct (Frame.has_column "Income_Total" df); cbn; [| discriminate].
  intros [= <-].
  rewrite assign_values
    by (rewrite length_map, length_zip_with, !values_length; lia).
  unfold Frame.values. generalize (rows df). intros l.
  induction l as [| r l IH]; cbn [map zip_with]; constructor; [| exact IH].
  set (h := Frame.num (r !! "Hours_Worked")).
  destruct (Frame.num (r !! "Income_Total")) as [z | | |]; cbn; try discriminate.
  intros Hz.
  destruct h as [a | | |]; cbn [Float.div]; rewrite ?Hz; try reflexivity.
  destruct (Float.Qsgn a); reflexivity.
Qed.

Lemma burnout_risk_on_zero_income_witness :
  Forall2 (fun income score =>
             Float.is_zero income = true -> Float.is_finite score = false)
          (Frame.values "Income_Total" Sample.unpaid_days)
          [PInf; NaN; Fin ((5 / 20000) * 1000)].
Proof.
  apply (burnout_risk_on_zero_income Sample.unpaid_days
           (Frame.assign "burnout_risk_score" [PInf; NaN; Fin ((5 / 20000) * 1000)]
              Sample.unpaid_days)).
  vm_compute. reflexivity.
Defined.

(** ** [load_dataset] *)

Section LoadDataset.

Lemma filter_keeps_order c (P : Row -> Prop) `{forall r, Decision (P r)}
    (l : list Row) :
  Sorted (Frame.precedes c) l -> Sorted (Frame.precedes c) (filter P l).
Proof.
  intros Hs. apply Sorted_StronglySorted in Hs; [| apply precedes_transitive].
  apply StronglySorted_Sorted.
  induction Hs as [| r l Hl IH Hr]; [constructor |].
  rewrite filter_cons. destruct (decide (P r)); [| exact IH].
  constructor; [exact IH |].
  apply Forall_forall. intros x Hx. apply list_elem_of_filter in Hx as [_ Hx].
  rewrite Forall_forall in Hr. apply Hr, Hx.
Qed.

(** [fillna(0)] does not touch the timestamps. *)
Lemma fill_row_stamp c (cols : list string) (r : Row) :
  Frame.stamp c
    (fold_right (fun c (acc : Row) =>
                   match acc !! c with
                   | None => <[c := CNum (Fin 0)]> acc
                   | Some v => <[c := Frame.fillna0_cell v]> acc
                   end) r cols)
  = Frame.stamp c r.
Proof.
  unfold Frame.stamp. rewrite fill_row_lookup.
  destruct (bool_decide (c ∈ cols)); [| reflexivity].
  destruct (r !! c) as [[[q | | |] | s | t] |]; reflexivity.
Qed.

Lemma fillna0_keeps_order c (df : DataFrame) :
  Sorted (Frame.precedes c) (rows df) ->
  Sorted (Frame.precedes c) (rows (Frame.fillna0 df)).
Proof.
  intros Hs. unfold Frame.fillna0. cbn [rows].
  eapply (Sorted_fmap _ (Frame.precedes c) (Frame.precedes c)); [| exact Hs].
  intros x y Hxy. unfold Frame.precedes in *. now rewrite !fill_row_stamp.
Qed.

End LoadDataset.

(** X8.  A frame that [load_dataset] returns comes from an existing file
    and keeps its columns; its rows are in ascending order of [ds], there
    are no more of them than in the file, each has a timestamp, and no
    column has a missing or NaN entry in any row. *)
Theorem load_dataset_output :
  forall (csv_path : string) (csvs : gmap string DataFrame) (out : DataFrame),
    Inference.load_dataset csv_path csvs = Ok out ->
    exists df : DataFrame,
      csvs !! csv_path = Some df
      /\ columns out = columns df
      /\ (Frame.len out <= Frame.len df)%nat
      /\ Sorted (Frame.precedes "ds") (rows out)
      /\ Forall (fun r : Row =>
                   is_Some (Frame.stamp "ds" r)
                   /\ forall c : string,
                        c ∈ columns out -> Frame.has_value (r !! c) = true)
                (rows out).
Proof.
  intros csv_path csvs out. unfold Inference.load_dataset.
  destruct (csvs !! csv_path) as [df |]; [| discriminate].
  destruct (negb (Frame.has_column "ds" df) || negb (Frame.has_column "y" df));
    [discriminate |].
  intros [= <-]. exists df. split; [reflexivity |]. split; [reflexivity |].
  set (kept := Frame.dropna_ds_y (Frame.sort_values "ds" df)).
  split; [| split].
  - rewrite fillna0_len. unfold kept, Frame.len, Frame.dropna_ds_y. cbn [rows].
    etransitivity; [apply length_filter |].
    unfold Frame.sort_values. cbn [rows].
    clear. induction (rows df) as [| r l IH]; [reflexivity |]. cbn [fold_right].
    assert (Hins : forall r l, length (Frame.insert_sorted "ds" r l) = S (length l)).
    { clear. intros r l. induction l as [| r' l IH]; [reflexivity |]. cbn.
      destruct (Frame.stamp_leb _ _); cbn; [reflexivity | now rewrite IH]. }
    rewrite Hins. cbn. lia.
  - apply fillna0_keeps_order. unfold kept, Frame.dropna_ds_y. cbn [rows].
    apply filter_keeps_order, sort_values_sorted.
  - pose proof (fillna0_complete kept) as Hc.
    rewrite Forall_forall in Hc. apply Forall_forall. intros r' Hr'.
    split; [| apply (Hc r' Hr')].
    unfold Frame.fillna0 in Hr'. cbn [rows] in Hr'.
    apply list_elem_of_fmap in Hr' as (r & -> & Hr).
    rewrite fill_row_stamp.
    unfold kept, Frame.dropna_ds_y in Hr. cbn [rows] in Hr.
    apply list_elem_of_filter in Hr as [[Hst _] _]. exact Hst.
Qed.

Lemma load_dataset_output_witness :
  let out :=
    Frame.fillna0
      (Frame.dropna_ds_y
         (Frame.sort_values "ds"
            (default (mkFrame [] []) (Sample.csv_files !! "a.csv")))) in
  exists df : DataFrame,
    Sample.csv_files !! "a.csv" = Some df
    /\ columns out = columns df
    /\ (Frame.len out <= Frame.len df)%nat
    /\ Sorted (Frame.precedes "ds") (rows out)
    /\ Forall (fun r : Row =>
                 is_Some (Frame.stamp "ds" r)
                 /\ forall c : string,
                      c ∈ columns out -> Frame.has_value (r !! c) = true)
              (rows out).
Proof.
  apply (load_dataset_output "a.csv" Sample.csv_files).
  vm_compute. reflexivity.
Defined.

(** ** [time_series_split] *)





(** Ten rows with [test_size = 0.9] leave no training row, because
    [1 - 0.9] is a double below 0.1; five rows with [test_size = 0.2] give
    four training rows, because [5 * (1 - 0.2)] rounds to 4.0. *)
Example time_series_split_in_doubles :
  Frame.len (fst (Inference.time_series_split Sample.feats10 (9 # 10))) = 0%nat
  /\ Frame.len
       (fst (Inference.time_series_split
               (mkFrame Sample.feature_columns (take 5 (rows Sample.feats10)))
               (2 # 10))) = 4%nat.
Proof. vm_compute. split; reflexivity. Qed.

(** ** [get_feature_pipeline] *)

Section FeaturePipeline.

Lemma filter_agree {A} (P1 P2 : A -> Prop) `{forall x, Decision (P1 x)}
    `{forall x, Decision (P2 x)} (l : list A) :
  (forall x, x ∈ l -> (P1 x <-> P2 x)) -> filter P1 l = filter P2 l.
Proof.
  induction l as [| a l IH]; intros Hl; [reflexivity |].
  rewrite !filter_cons.
  assert (Ha : P1 a <-> P2 a) by (apply Hl, list_elem_of_here).
  rewrite IH by (intros x Hx; apply Hl, list_elem_of_further, Hx).
  destruct (decide (P1 a)), (decide (P2 a)); tauto.
Qed.

Lemma filter_all {A} (P : A -> Prop) `{forall x, Decision (P x)} (l : list A) :
  (forall x, P x) -> filter P l = l.
Proof.
  intros HP. induction l as [| a l IH]; [reflexivity |].
  rewrite filter_cons_True by apply HP. now rewrite IH.
Qed.

Lemma filter_none {A} (P : A -> Prop) `{forall x, Decision (P x)} (l : list A) :
  (forall x, ~ P x) -> filter P l = [].
Proof.
  intros HP. induction l as [| a l IH]; [reflexivity |].
  rewrite filter_cons_False by apply HP. exact IH.
Qed.

(** The numeric columns are the feature columns that are not of dtype
    [object]. *)
Lemma num_cols_filter (feats : DataFrame) :
  let feat_cols := filter (fun c => bool_decide (c ∉ ["ds"; "y"])) (columns feats) in
  num_cols (fst (Inference.get_feature_pipeline feats))
  = filter (fun c => ~ Frame.dtype_object c feats = true) feat_cols.
Proof.
  intros feat_cols. unfold Inference.get_feature_pipeline. cbn [fst num_cols].
  fold feat_cols. apply filter_agree. intros c Hc.
  rewrite bool_decide_spec, list_elem_of_filter. tauto.
Qed.

End FeaturePipeline.

(** X11.  On a frame whose column names are distinct,
    [get_feature_pipeline] returns an unfitted pipeline and the feature
    names, which are the categorical columns followed by the numeric
    ones: a rearrangement, without repetition, of the columns of the
    frame other than [ds] and [y], each of them in one of the two groups
    and none in both. *)
Theorem get_feature_pipeline_names :
  forall feats : DataFrame,
    NoDup (columns feats) ->
    let pipe := fst (Inference.get_feature_pipeline feats) in
    let feat_names := snd (Inference.get_feature_pipeline feats) in
    let feat_cols := filter (fun c => c ∉ ["ds"; "y"]) (columns feats) in
    feat_names = (cat_cols pipe ++ num_cols pipe)%list
    /\ feat_names ≡ₚ feat_cols
    /\ NoDup feat_names
    /\ (forall c : string, c ∈ cat_cols pipe -> c ∉ num_cols pipe)
    /\ categories pipe = None.
Proof.
  intros feats Hnd pipe feat_names feat_cols.
  assert (Efc : filter (fun c => bool_decide (c ∉ ["ds"; "y"])) (columns feats)
                = feat_cols).
  { apply list_filter_iff. intros c. apply bool_decide_spec. }
  pose proof (num_cols_filter feats) as Hnum. cbv zeta in Hnum.
  fold pipe in Hnum. rewrite Efc in Hnum.
  assert (Hcat : cat_cols pipe
                 = filter (fun c => Frame.dtype_object c feats = true) feat_cols).
  { unfold pipe, Inference.get_feature_pipeline. cbn [fst cat_cols].
    now rewrite Efc. }
  assert (Hperm : feat_names ≡ₚ feat_cols).
  { change feat_names with (cat_cols pipe ++ num_cols pipe)%list.
    rewrite Hcat, Hnum. apply filter_app_complement. }
  split; [reflexivity |]. split; [exact Hperm |]. split; [| split].
  - rewrite Hperm. apply NoDup_filter. exact Hnd.
  - intros c. rewrite Hcat, Hnum, !list_elem_of_filter. tauto.
  - reflexivity.
Qed.

Lemma get_feature_pipeline_names_witness :
  let pipe := fst (Inference.get_feature_pipeline Sample.capped) in
  let feat_names := snd (Inference.get_feature_pipeline Sample.capped) in
  let feat_cols := filter (fun c => c ∉ ["ds"; "y"]) (columns Sample.capped) in
  feat_names = (cat_cols pipe ++ num_cols pipe)%list
  /\ feat_names ≡ₚ feat_cols
  /\ NoDup feat_names
  /\ (forall c : string, c ∈ cat_cols pipe -> c ∉ num_cols pipe)
  /\ categories pipe = None.
Proof.
  apply (get_feature_pipeline_names Sample.capped).
  apply (bool_decide_unpack _). vm_compute. exact I.
Defined.

(** ** [create_residual_sequences] *)

Section ResidualSequences.

Lemma residual_loop_spec (combined : list (list float)) (residuals : list float)
    (seq_len : nat) (idx : list nat)
    (X : list (list (list float))) (y : list float) :
  Forall (fun i => (seq_len <= i < length residuals)%nat) idx ->
  Inference.residual_loop combined residuals seq_len idx X y
  = Ok ((X ++ map (fun i => take seq_len (drop (i - seq_len) combined)) idx)%list,
        (y ++ map (fun i => nth i residuals NaN) idx)%list).
Proof.
  revert X y. induction idx as [| i idx IH]; intros X y Hidx.
  - cbn. now rewrite !app_nil_r.
  - inversion Hidx as [| ? ? [Hlo Hhi] Hrest]; subst.
    cbn [Inference.residual_loop]. unfold Inference.index.
    destruct (residuals !! i) as [x |] eqn:E;
      [| apply lookup_ge_None in E; lia].
    cbn [bind]. rewrite IH by exact Hrest.
    rewrite <- !app_assoc. cbn [app map].
    replace (i - (i - seq_len))%nat with seq_len by lia.
    rewrite (nth_lookup_Some _ _ NaN _ E). reflexivity.
Qed.

Lemma nth_from (l : list float) (a k : nat) :
  (a + k = length l)%nat ->
  map (fun i => nth i l NaN) (seq a k) = drop a l.
Proof.
  revert a. induction k as [| k IH]; intros a H.
  - cbn. rewrite drop_ge by lia. reflexivity.
  - cbn [seq map]. rewrite IH by lia.
    destruct (l !! a) as [x |] eqn:E; [| apply lookup_ge_None in E; lia].
    rewrite (nth_lookup_Some _ _ NaN _ E).
    symmetry. apply drop_S. exact E.
Qed.

End ResidualSequences.

(** X12.  When the residuals and the regressors have as many rows,
    [create_residual_sequences] returns one window per residual from
    position [seq_len] on (none when there are not more than [seq_len]):
    the targets are the residuals without the first [seq_len], and the
    window of the [j]-th target is rows [j] to [j + seq_len - 1] of the
    array of residuals and regressors, so a window ends just before its
    target. *)
Theorem create_residual_sequences_windows :
  forall (residuals : list float) (regressors : list (list float)) (seq_len : nat),
    length residuals = length regressors ->
    exists (X : list (list (list float))) (y : list float),
      Inference.create_residual_sequences residuals regressors seq_len = Ok (X, y)
      /\ y = drop seq_len residuals
      /\ length X = (length residuals - seq_len)%nat
      /\ length X = length y
      /\ forall (j : nat) (w : list (list float)),
           X !! j = Some w ->
           w = take seq_len (drop j (zip_with cons residuals regressors))
           /\ length w = seq_len.
Proof.
  intros residuals regressors seq_len Hlen.
  unfold Inference.create_residual_sequences, Inference.combine_columns.
  rewrite (proj2 (Nat.eqb_eq _ _) Hlen). cbn [bind].
  set (combined := zip_with cons residuals regressors).
  set (n := length residuals).
  assert (Hc : length combined = n)
    by (unfold combined; rewrite length_zip_with; lia).
  rewrite residual_loop_spec
    by (apply Forall_forall; intros i Hi; apply list_elem_of_In, in_seq in Hi; lia).
  cbn [app]. eexists _, _. split; [reflexivity |].
  destruct (le_lt_dec n seq_len) as [Hshort | Hlong].
  - replace (n - seq_len)%nat with 0%nat by lia. cbn [seq map length].
    split; [now rewrite drop_ge by (fold n; lia) |].
    split; [reflexivity |]. split; [reflexivity |].
    intros j w Hj. rewrite lookup_nil in Hj. discriminate.
  - split; [apply nth_from; lia |].
    split; [now rewrite length_map, length_seq |].
    split.
    + rewrite !length_map. reflexivity.
    + intros j w Hj. rewrite list_lookup_fmap in Hj.
      destruct (seq seq_len (n - seq_len) !! j) as [i |] eqn:Ei; [| discriminate].
      apply lookup_seq in Ei as [-> Hj']. cbn in Hj. injection Hj as <-.
      replace (seq_len + j - seq_len)%nat with j by lia.
      split; [reflexivity |].
      rewrite length_take, length_drop, Hc. lia.
Qed.

Lemma create_residual_sequences_windows_witness :
  exists (X : list (list (list float))) (y : list float),
    Inference.create_residual_sequences
      [Fin 1; Fin 2; Fin 3; Fin 4] [[Fin 10]; [Fin 20]; [Fin 30]; [Fin 40]] 2
    = Ok (X, y)
    /\ y = drop 2 [Fin 1; Fin 2; Fin 3; Fin 4]
    /\ length X = (length [Fin 1; Fin 2; Fin 3; Fin 4] - 2)%nat
    /\ length X = length y
    /\ forall (j : nat) (w : list (list float)),
         X !! j = Some w ->
         w = take 2 (drop j (zip_with cons [Fin 1; Fin 2; Fin 3; Fin 4]
                               [[Fin 10]; [Fin 20]; [Fin 30]; [Fin 40]]))
         /\ length w = 2%nat.
Proof.
  apply (create_residual_sequences_windows
           [Fin 1; Fin 2; Fin 3; Fin 4] [[Fin 10]; [Fin 20]; [Fin 30]; [Fin 40]] 2).
  reflexivity.
Defined.

(** ** [load_income_stats] *)

(** X13.  [load_income_stats] returns the sample standard deviation as it
    is, with no guard: for a column that holds a single value besides
    missing ones, the mean is that value and [sigma] is NaN, which the
    function returns. *)
Theorem load_income_stats_single_value :
  forall (stats_csv income_col : string) (csvs : gmap string DataFrame)
         (df : DataFrame) (c : float),
    csvs !! stats_csv = Some df ->
    Frame.has_column income_col df = true ->
    Series.dropna (Frame.values income_col df) = [c] ->
    exists mu : float,
      Inference.load_income_stats stats_csv income_col csvs = Ok (mu, NaN)
      /\ Float.same c mu.
Proof.
  intros stats_csv income_col csvs df c Hdf Hcol Hv.
  unfold Inference.load_income_stats. rewrite Hdf, Hcol. cbn [negb].
  rewrite Hv.
  assert (Hc : Series.dropna [c] = [c]).
  { assert (Hin : c ∈ Series.dropna (Frame.values income_col df))
      by (rewrite Hv; apply list_elem_of_here).
    unfold Series.dropna in *. apply list_elem_of_filter in Hin as [Hnan _].
    now rewrite filter_cons_True by exact Hnan. }
  unfold Series.mean, Series.std_sample. rewrite Hc.
  eexists. split; [reflexivity | apply mean_of_one].
Qed.

Lemma load_income_stats_single_value_witness :
  exists mu : float,
    Inference.load_income_stats "one.csv" "Income_Total"
      {[ "one.csv" := mkFrame Sample.feature_columns [Sample.day 1 1000] ]}
    = Ok (mu, NaN)
    /\ Float.same (Fin 1000) mu.
Proof.
  apply (load_income_stats_single_value "one.csv" "Income_Total"
           {[ "one.csv" := mkFrame Sample.feature_columns [Sample.day 1 1000] ]}
           (mkFrame Sample.feature_columns [Sample.day 1 1000]) (Fin 1000)).
  - apply lookup_singleton_eq.
  - vm_compute. reflexivity.
  - vm_compute. reflexivity.
Defined.

(** ** [warm_start_params] and [fit_prophet] *)

Section WarmStart.

Lemma mean_axis0_of_one (row : list float) :
  Forall2 Float.same row (Inference.mean_axis0 [row]).
Proof.
  unfold Inference.mean_axis0. cbn [hd map].
  assert (H : forall (pre : list float),
             Forall2 Float.same row
               (map (fun j => Float.mean [nth j (pre ++ row) NaN])
                    (seq (length pre) (length row)))).
  { induction row as [| x row IH]; intros pre; cbn [length seq map]; constructor.
    - rewrite app_nth2 by lia. rewrite Nat.sub_diag. cbn [nth]. apply mean_of_one.
    - specialize (IH (pre ++ [x])%list).
      rewrite length_app, <- app_assoc in IH. cbn [length app] in IH.
      rewrite Nat.add_1_r in IH. exact IH. }
  apply (H []).
Qed.

Lemma init_lookup_same (a b c d e a' b' c' d' e' : init_value) (key : string) :
  init_same a a' -> init_same b b' -> init_same c c' ->
  init_same d d' -> init_same e e' ->
  option_Forall2 init_same
    ((<["beta" := e]> (<["delta" := d]> (<["sigma_obs" := c]>
        (<["m" := b]> (<["k" := a]> (∅ : gmap string init_value)))))) !! key)
    ((<["beta" := e']> (<["delta" := d']> (<["sigma_obs" := c']>
        (<["m" := b']> (<["k" := a']> (∅ : gmap string init_value)))))) !! key).
Proof.
  intros Ha Hb Hc Hd He. rewrite !lookup_insert.
  repeat case_decide; constructor; assumption.
Qed.

End WarmStart.

Section FitProphet.
Context (P : ProphetLib).

(** The [add_regressor] loop goes through when Prophet accepts the names. *)
Lemma add_regressors_accepted (names : list string) (m : Prophet) :
  fitted m = false ->
  Forall (fun name => validate_column_name name = Ok tt) names ->
  exists m' : Prophet, add_regressors m names = Ok m'.
Proof.
  revert m. induction names as [| n names IH]; intros m Hm Hn; cbn [add_regressors].
  - eexists. reflexivity.
  - inversion Hn as [| ? ? Hn1 Hn2]; subst.
    unfold add_regressor. rewrite Hm, Hn1. cbn [bind].
    apply IH; [| exact Hn2]. case_bool_decide; [exact Hm | reflexivity].
Qed.

(** A dictionary of columns of one frame holds arrays of the length of
    the frame. *)
Lemma columns_dict_present (names : list string) (df : DataFrame) :
  Forall (fun name => Frame.has_column name df = true) names ->
  exists items : list (string * list (option cell)),
    columns_dict names df = Ok items
    /\ Forall (fun item => length (snd item) = Frame.len df) items.
Proof.
  induction 1 as [| n names Hn _ (items & IH & Hlen)]; cbn [columns_dict].
  - eexists. split; [reflexivity | constructor].
  - unfold column_values. rewrite Hn, IH. cbn [bind].
    eexists. split; [reflexivity |]. constructor; [| exact Hlen].
    cbn [snd]. unfold Frame.len. apply length_map.
Qed.

(** When the columns that are read exist and the two frames have as many
    rows, the frame for [fit] is built. *)
Lemma training_frame_built (train_df regressor_df : DataFrame) (names : list string) :
  Frame.has_column "ds" train_df = true ->
  Frame.has_column "y" train_df = true ->
  Forall (fun name => Frame.has_column name regressor_df = true) names ->
  Frame.len regressor_df = Frame.len train_df ->
  exists frame : DataFrame,
    Inference.training_frame train_df regressor_df names = Ok frame.
Proof.
  intros Hds Hy Hnames Hlen. unfold Inference.training_frame, column_values.
  rewrite Hds, Hy. cbn [bind].
  destruct (columns_dict_present names regressor_df Hnames) as (items & -> & Hitems).
  cbn [bind]. unfold frame_of_dict. cbn [hd snd forallb].
  rewrite !length_map, Nat.eqb_refl. cbn [andb].
  assert (Hall : forallb (fun item : string * list (option cell) =>
                            (length (snd item) =? length (rows train_df))%nat) items
                 = true).
  { apply forallb_forall. intros item Hin. apply Nat.eqb_eq.
    rewrite Forall_forall in Hitems. rewrite (Hitems item); [exact Hlen |].
    apply list_elem_of_In. exact Hin. }
  rewrite Hall. eexists. reflexivity.
Qed.

End FitProphet.

(** X14.  When Prophet accepts the regressor names and the columns that
    are read exist (the training frame has [ds] and [y], the regressor
    frame the regressors, with as many rows), retraining from a previous
    model that has no parameter [k] (one that was never fitted) fails
    with [KeyError] in [warm_start_params], before the optimiser is
    called. *)
Theorem fit_prophet_from_unfitted_model :
  forall (P : ProphetLib) (train_df regressor_df : DataFrame)
         (feature_names : list string) (prev_Model : Prophet),
    Forall (fun name => validate_column_name name = Ok tt)
           (Inference.safe_feature_names feature_names) ->
    Frame.has_column "ds" train_df = true ->
    Frame.has_column "y" train_df = true ->
    Forall (fun name => Frame.has_column name regressor_df = true)
           (Inference.safe_feature_names feature_names) ->
    Frame.len regressor_df = Frame.len train_df ->
    params prev_Model !! "k" = None ->
    Inference.fit_prophet train_df regressor_df feature_names (Some prev_Model)
    = Raise (KeyError "k").
Proof.
  intros P train_df regressor_df feature_names prev Hval Hds Hy Hreg Hlen Hk.
  unfold Inference.fit_prophet.
  destruct (add_regressors_accepted P _ new_prophet eq_refl Hval) as [m ->].
  destruct (training_frame_built train_df regressor_df _ Hds Hy Hreg Hlen)
    as [frame ->].
  cbn [bind].
  unfold Inference.warm_start_params, Inference.warm_scalar, Inference.param.
  rewrite Hk. reflexivity.
Qed.

Lemma fit_prophet_from_unfitted_model_witness :
  @Inference.fit_prophet Sample.prophet_ok Sample.capped Sample.capped
    ["Income_Total"; "cap"; "Hours_Worked"] (Some new_prophet)
  = Raise (KeyError "k").
Proof.
  apply (fit_prophet_from_unfitted_model Sample.prophet_ok).
  - vm_compute. repeat constructor.
  - vm_compute. reflexivity.
  - vm_compute. reflexivity.
  - vm_compute. repeat constructor.
  - reflexivity.
  - apply lookup_empty.
Defined.

(** The frame is built before the previous model is looked at: without a
    column [y] it is the [KeyError] of [train_df["y"]] that is raised, and
    a name that Prophet refuses stops [fit_prophet] before that. *)
Example fit_prophet_reads_the_columns_first :
  @Inference.fit_prophet Sample.prophet_ok Sample.feats3 Sample.feats3
    ["Job_Categories"] (Some new_prophet)
  = Raise (KeyError "y")
  /\ @Inference.fit_prophet Sample.prophet_ok Sample.feats3 Sample.feats3
       ["Job_Categories"; "yhat"] (Some new_prophet)
     = Raise (ValueError "Name 'yhat' is reserved.").
Proof. vm_compute. split; reflexivity. Qed.

(** X15.  For a model whose parameters hold one draw, the two branches of
    [warm_start_params] agree: the means taken when [mcmc_samples] is not
    zero are the values read directly when it is zero, for the three
    scalars and, entry by entry, for [delta] and [beta]. *)
Theorem warm_start_params_single_draw :
  forall (regressors : list string) (n : nat) (k m0 s : float)
         (delta beta : list float),
    exists point averaged : gmap string init_value,
      Inference.warm_start_params
        (mkProphet regressors 0 (one_draw k m0 s delta beta) true) = Ok point
      /\ Inference.warm_start_params
           (mkProphet regressors (S n) (one_draw k m0 s delta beta) true)
         = Ok averaged
      /\ point !! "k" = Some (Scalar k)
      /\ point !! "delta" = Some (Vector delta)
      /\ forall key : string,
           option_Forall2 init_same (point !! key) (averaged !! key).
Proof.
  intros regressors n k m0 s delta beta.
  unfold Inference.warm_start_params, Inference.warm_scalar, Inference.warm_vector,
    Inference.param, one_draw.
  cbn [params mcmc_samples Nat.eqb].
  assert (Hk : one_draw k m0 s delta beta !! "k" = Some [[k]]) by reflexivity.
  assert (Hm : one_draw k m0 s delta beta !! "m" = Some [[m0]]) by reflexivity.
  assert (Hs : one_draw k m0 s delta beta !! "sigma_obs" = Some [[s]])
    by reflexivity.
  assert (Hd : one_draw k m0 s delta beta !! "delta" = Some [delta])
    by reflexivity.
  assert (Hb : one_draw k m0 s delta beta !! "beta" = Some [beta]) by reflexivity.
  unfold one_draw in Hk, Hm, Hs, Hd, Hb. rewrite Hk, Hm, Hs, Hd, Hb.
  cbn [bind Inference.first].
  eexists _, _. split; [reflexivity |]. split; [reflexivity |].
  split; [| split].
  - reflexivity.
  - reflexivity.
  - intros key. apply init_lookup_same; cbn [init_same];
      first [apply mean_axis0_of_one | apply mean_of_one].
Qed.

(** ** The opening of the training functions *)


(** X16.  Without a column [Income_Total] the training functions stop at
    their own check: [_train_prophet] and [train_prophet] raise the
    [ValueError] of the source before any library call, and
    [train_prophet] leaves the files as they were. *)
Theorem training_requires_income_total :
  forall (P : ProphetLib) (S : Sklearn) (userId : Z) (feats : DataFrame)
         (train_frac : Q) (fs : FS),
    Frame.has_column "ds" feats = true ->
    Frame.has_column "Income_Total" feats = false ->
    Main._train_prophet feats train_frac
    = Raise (ValueError "'Income_Total' is required in features for standardization stats")
    /\ Inference.train_prophet userId feats train_frac fs
       = (Raise (ValueError "'Income_Total' is required in features for standardization stats"),
          fs).
Proof.
  intros P S userId feats train_frac fs Hds Hinc.
  assert (Hp : Inference.prepare feats train_frac
               = Raise (ValueError "'Income_Total' is required in features for standardization stats")).
  { unfold Inference.prepare. rewrite Hds. cbn [negb].
    change (Frame.has_column "Income_Total" (Frame.sort_values "ds" feats))
      with (Frame.has_column "Income_Total" feats).
    rewrite Hinc. reflexivity. }
  unfold Main._train_prophet, Inference.train_prophet. rewrite Hp.
  split; reflexivity.
Qed.

Lemma training_requires_income_total_witness :
  @Main._train_prophet Sample.prophet_ok Sample.sklearn_ok
    (mkFrame ["ds"] [{[ "ds" := CDate 1 ]}]) (9 # 10)
  = Raise (ValueError "'Income_Total' is required in features for standardization stats")
  /\ @Inference.train_prophet Sample.prophet_ok Sample.sklearn_ok 7
       (mkFrame ["ds"] [{[ "ds" := CDate 1 ]}]) (9 # 10) ∅
     = (Raise (ValueError "'Income_Total' is required in features for standardization stats"),
        ∅).
Proof.
  apply (training_requires_income_total Sample.prophet_ok Sample.sklearn_ok 7
           (mkFrame ["ds"] [{[ "ds" := CDate 1 ]}]) (9 # 10) ∅);
    vm_compute; reflexivity.
Defined.

(** X17.  A frame that already has a column [y] keeps it: the training
    functions go on with the frame's own rows, reordered by [ds], and the
    same columns; the target is not recomputed from the mean and standard
    deviation they have just taken. *)
Theorem existing_target_is_kept :
  forall (feats : DataFrame) (train_frac : Q),
    Frame.has_column "ds" feats = true ->
    Frame.has_column "Income_Total" feats = true ->
    Frame.has_column "y" feats = true ->
    exists (feats' train_df : DataFrame) (val_df : option DataFrame),
      Inference.prepare feats train_frac
      = Ok (feats', Inference.mu_sigma (Frame.sort_values "ds" feats), train_df, val_df)
      /\ rows feats' ≡ₚ rows feats
      /\ columns feats' = columns feats
      /\ Sorted (Frame.precedes "ds") (rows feats').
Proof.
  intros feats train_frac Hds Hinc Hy. unfold Inference.prepare.
  rewrite Hds. cbn [negb].
  change (Frame.has_column "Income_Total" (Frame.sort_values "ds" feats))
    with (Frame.has_column "Income_Total" feats).
  rewrite Hinc. cbn [negb].
  destruct (Inference.mu_sigma (Frame.sort_values "ds" feats)) as [mu sigma].
  unfold Inference.ensure_y.
  change (Frame.has_column "y" (Frame.sort_values "ds" feats))
    with (Frame.has_column "y" feats).
  rewrite Hy.
  destruct (Inference.train_val_split (Frame.sort_values "ds" feats) train_frac)
    as [train_df val_df].
  eexists _, _, _. split; [reflexivity |].
  split; [apply sort_values_perm |]. split; [reflexivity |].
  apply sort_values_sorted.
Qed.

Lemma existing_target_is_kept_witness :
  exists (feats' train_df : DataFrame) (val_df : option DataFrame),
    Inference.prepare (default (mkFrame [] []) (Sample.csv_files !! "a.csv")) (9 # 10)
    = Ok (feats',
          Inference.mu_sigma
            (Frame.sort_values "ds"
               (default (mkFrame [] []) (Sample.csv_files !! "a.csv"))),
          train_df, val_df)
    /\ rows feats' ≡ₚ rows (default (mkFrame [] []) (Sample.csv_files !! "a.csv"))
    /\ columns feats' = columns (default (mkFrame [] []) (Sample.csv_files !! "a.csv"))
    /\ Sorted (Frame.precedes "ds") (rows feats').
Proof.
  apply (existing_target_is_kept
           (default (mkFrame [] []) (Sample.csv_files !! "a.csv")) (9 # 10));
    vm_compute; reflexivity.
Defined.

(** X18.  With [train_frac = 1] the split keeps nothing back: there is no
    validation frame and the training frame holds every row. *)
Theorem train_frac_one_trains_on_every_row :
  forall (feats feats' train_df : DataFrame) (ms : float * float)
         (val_df : option DataFrame),
    Inference.prepare feats 1 = Ok (feats', ms, train_df, val_df) ->
    val_df = None /\ rows train_df = rows feats'.
Proof.
  intros feats feats' train_df ms val_df. unfold Inference.prepare.
  destruct (Frame.has_column "ds" feats); cbn [negb]; [| discriminate].
  destruct (Frame.has_column "Income_Total" (Frame.sort_values "ds" feats));
    cbn [negb]; [| discriminate].
  destruct (Inference.mu_sigma (Frame.sort_values "ds" feats)) as [mu sigma].
  set (sorted := Inference.ensure_y (Frame.sort_values "ds" feats) mu sigma).
  pose proof (no_validation_partition_at_one sorted) as Hval.
  pose proof (train_val_rows sorted 1) as [Ht _].
  destruct (Inference.train_val_split sorted 1) as [tr va].
  cbn [fst snd] in Hval, Ht. intros [= <- <- <- <-].
  split; [exact Hval |]. rewrite Ht. apply take_ge.
  unfold Inference.split_index, times_len, py_int, inject_Z.
  cbn [Qnum Qden]. rewrite Z.mul_1_r, Z.quot_1_r.
  fold (Frame.len sorted). lia.
Qed.

Lemma train_frac_one_trains_on_every_row_witness :
  match Inference.prepare Sample.feats3 1 with
  | Ok (feats', _, train_df, val_df) =>
      val_df = None /\ rows train_df = rows feats'
  | Raise _ => False
  end.
Proof.
  destruct (Inference.prepare Sample.feats3 1)
    as [[[[feats' ms] train_df] val_df] | e] eqn:E.
  - apply (train_frac_one_trains_on_every_row Sample.feats3 feats' train_df ms
             val_df E).
  - vm_compute in E. discriminate E.
Defined.

(** ** [train_endpoint] *)

(** The integer part of the binary64 product [n * 0.9] is that of the
    exact [9 n / 10], for every length up to 2000. *)
Example train_rows_product_agrees :
  forallb (fun n => (py_int (times_len n (9 # 10))
                     =? py_int (inject_Z (Z.of_nat n) * (9 # 10)))%Z)
          (seq 0 2001) = true.
Proof. vm_compute. reflexivity. Qed.



(** ** [train_model], [retrain_model] and [batch_train_models] *)

Section Orchestration.
Context (P : ProphetLib) (S : Sklearn) (csvs : gmap string DataFrame).

(** The handler shared by [train_model] and [retrain_model]. *)
Lemma try_except_logs {A} (body : Training.M A) (w : Training.World) :
  (exists a w', Training.try_except body
                  (fun e => Training.mbind
                              (Training.log "error" (Training.LStr (Main.exn_text e)))
                              (fun _ => Training.reraise e)) w = (Ok a, w')
                /\ body w = (Ok a, w'))
  \/ (exists e w', body w = (Raise e, w')
                   /\ Training.try_except body
                        (fun e => Training.mbind
                                    (Training.log "error"
                                       (Training.LStr (Main.exn_text e)))
                                    (fun _ => Training.reraise e)) w
                      = (Raise e,
                         Training.mkWorld (Training.files w')
                           (("error", Training.LStr (Main.exn_text e))
                              :: Training.tracked w'))).
Proof.
  unfold Training.try_except. destruct (body w) as [[a | e] w'].
  - left. eexists _, _. split; reflexivity.
  - right. eexists _, _. split; reflexivity.
Qed.

(** Logging does not touch the files. *)
Lemma retrain_body_files (userId : Z) (csv_path : string) (train_frac : Q)
    (w : Training.World) :
  Training.files (snd (Training.retrain_model_body csvs userId csv_path train_frac w))
  = Training.files w.
Proof.
  unfold Training.retrain_model_body, Training.mbind, Training.log, Training.lift,
    Training.on_files, Training.ret.
  cbn [Training.files Training.tracked].
  destruct (Inference.load_dataset csv_path csvs) as [feats | e]; [| reflexivity].
  cbn [Training.files Training.tracked].
  destruct (Inference.retrain_prophet userId feats train_frac (Training.files w))
    as [metrics | e]; [| reflexivity].
  destruct (Training.metric metrics "mae"); [| reflexivity].
  destruct (Training.metric metrics "rmse"); reflexivity.
Qed.

End Orchestration.

Section OrchestrationOutcomes.
Context (P : ProphetLib) (S : Sklearn).

(** What [retrain_prophet] returns is a dictionary of two scores. *)
Lemma retrain_prophet_scores (userId : Z) (feats : DataFrame) (f : number) (fs : FS)
    (metrics : gmap string float) :
  Inference.retrain_prophet userId feats f fs = Ok metrics ->
  exists mae rmse : float, metrics = <["rmse" := rmse]> (<["mae" := mae]> ∅).
Proof.
  unfold Inference.retrain_prophet, Inference.encode_train.
  repeat (first [ discriminate | run_step ]).
  intros [= <-]. eexists _, _. reflexivity.
Qed.

End OrchestrationOutcomes.

(** X20.  [train_model] never returns run information: whatever the
    libraries do, it raises (at the latest where [train_prophet] writes
    the model), after logging the text of the exception as the parameter
    [error]. *)
Theorem train_model_always_raises :
  forall (P : ProphetLib) (S : Sklearn) (csvs : gmap string DataFrame)
         (userId : Z) (csv_path : string) (kw : Training.Kwargs)
         (w : Training.World),
    exists (e : exn) (w' : Training.World) (earlier : list (string * Training.logged)),
      Training.train_model csvs userId csv_path kw w = (Raise e, w')
      /\ Training.tracked w'
         = ("error", Training.LStr (Main.exn_text e)) :: earlier.
Proof.
  intros P S csvs userId csv_path kw w.
  pose proof (train_model_never_returns P S csvs userId csv_path kw w) as Hn.
  unfold Training.train_model in *.
  destruct (try_except_logs (Training.train_model_body csvs userId csv_path kw) w)
    as [(a & w' & Ht & _) | (e & w' & _ & Ht)].
  - unfold Training.mbind in Ht. unfold Training.mbind in Hn.
    rewrite Ht in Hn. discriminate Hn.
  - unfold Training.mbind in Ht. unfold Training.mbind.
    eexists _, _, _. split; [exact Ht | reflexivity].
Qed.

(** X21.  [batch_train_models] returns the empty dictionary for the empty
    mapping and nothing otherwise: for a mapping with at least one user it
    ends with the exception of the first user's [train_model], in the
    world that call left, and no later user is trained. *)
Theorem batch_train_models_outcome :
  forall (P : ProphetLib) (S : Sklearn) (csvs : gmap string DataFrame)
         (user_id : Z) (csv_path : string) (others : list (Z * string))
         (kw : Training.Kwargs) (w : Training.World),
    Training.batch_train_models csvs [] kw w = (Ok ∅, w)
    /\ exists (e : exn) (w' : Training.World),
         Training.train_model csvs user_id csv_path kw w = (Raise e, w')
         /\ Training.batch_train_models csvs ((user_id, csv_path) :: others) kw w
            = (Raise e, w').
Proof.
  intros P S csvs user_id csv_path others kw w. split; [reflexivity |].
  pose proof (train_model_never_returns P S csvs user_id csv_path kw w) as Hn.
  destruct (Training.train_model csvs user_id csv_path kw w) as [[a | e] w'] eqn:Ht;
    [discriminate Hn |].
  exists e, w'. split; [reflexivity |].
  unfold Training.batch_train_models. cbn [Training.batch_loop].
  unfold Training.mbind at 1. rewrite Ht. reflexivity.
Qed.

(** X22.  [retrain_model] never writes a file, whether it returns or
    raises: the retrained model is not persisted.  What it returns is a
    dictionary with the two keys [mae] and [rmse]; when it raises, the
    text of the exception has been logged as the parameter [error]. *)
Theorem retrain_model_outcome :
  forall (P : ProphetLib) (S : Sklearn) (csvs : gmap string DataFrame)
         (userId : Z) (csv_path : string) (train_frac : Q) (w : Training.World),
    let outcome := Training.retrain_model csvs userId csv_path train_frac w in
    Training.files (snd outcome) = Training.files w
    /\ match fst outcome with
       | Ok metrics =>
           exists mae rmse : float,
             metrics = <["rmse" := rmse]> (<["mae" := mae]> ∅)
       | Raise e =>
           exists earlier : list (string * Training.logged),
             Training.tracked (snd outcome)
             = ("error", Training.LStr (Main.exn_text e)) :: earlier
       end.
Proof.
  intros P S csvs userId csv_path train_frac w outcome.
  pose proof (retrain_body_files P S csvs userId csv_path train_frac w) as Hf.
  unfold outcome, Training.retrain_model.
  destruct (try_except_logs
              (Training.retrain_model_body csvs userId csv_path train_frac) w)
    as [(a & w' & Ht & Hb) | (e & w' & Hb & Ht)];
    rewrite Ht; rewrite Hb in Hf; cbn [fst snd Training.files] in *.
  - split; [exact Hf |].
    revert Hb. unfold Training.retrain_model_body, Training.mbind, Training.log,
      Training.lift, Training.on_files, Training.ret.
    cbn [Training.files Training.tracked].
    destruct (Inference.load_dataset csv_path csvs) as [feats | e]; [| discriminate].
    cbn [Training.files Training.tracked].
    destruct (Inference.retrain_prophet userId feats train_frac (Training.files w))
      as [metrics | e] eqn:Er; [| discriminate].
    destruct (Training.metric metrics "mae"); [| discriminate].
    destruct (Training.metric metrics "rmse"); [| discriminate].
    intros [= <- _]. eapply retrain_prophet_scores. exact Er.
  - split; [exact Hf |]. eexists. reflexivity.
Qed.

(** ** [get_Monthly_Unemployment_Rate] *)

Section UnemploymentRate.

Lemma rates_lookup (month : Z) :
  exists q : Q,
    default (Fin 5) (Main.rates !! month) = Fin q
    /\ (q == if ((1 <=? month) && (month <=? 12))%Z
             then inject_Z (49 + month) / 10 else 5)%Q.
Proof.
  destruct ((1 <=? month) && (month <=? 12))%Z eqn:E.
  - apply andb_true_iff in E as [H1 H2]. apply Z.leb_le in H1, H2.
    assert (Hm : (month = 1 \/ month = 2 \/ month = 3 \/ month = 4 \/ month = 5
                  \/ month = 6 \/ month = 7 \/ month = 8 \/ month = 9
                  \/ month = 10 \/ month = 11 \/ month = 12)%Z) by lia.
    repeat (destruct Hm as [-> | Hm];
            [eexists; split; [vm_compute; reflexivity | reflexivity] |]).
    subst month. eexists. split; [vm_compute; reflexivity | reflexivity].
  - assert (Hout : (month < 1 \/ 12 < month)%Z).
    { apply andb_false_iff in E as [E | E]; apply Z.leb_gt in E; lia. }
    assert (Hnone : Main.rates !! month = None).
    { unfold Main.rates. apply not_elem_of_list_to_map_1. cbn [fmap list_fmap fst].
      rewrite !elem_of_cons, elem_of_nil. lia. }
    rewrite Hnone. eexists. split; reflexivity.
Qed.

End UnemploymentRate.

(** X23.  Whenever [get_Monthly_Unemployment_Rate] returns, the date had
    a second piece between dashes that [int] accepted, and the rate is
    [4.9 + month / 10] for a month from 1 to 12 and 5.0 for any other
    number; so it always lies between 5.0 and 6.1. *)
Theorem unemployment_rate_range :
  forall (int_of_str : string -> result Z) (date : string) (rate : float),
    Main.get_Monthly_Unemployment_Rate int_of_str date = Ok rate ->
    exists (piece : string) (month : Z) (q : Q),
      Main.split_dash date !! 1%nat = Some piece
      /\ int_of_str piece = Ok month
      /\ rate = Fin q
      /\ (q == if ((1 <=? month) && (month <=? 12))%Z
               then inject_Z (49 + month) / 10 else 5)%Q
      /\ (5 <= q)%Q /\ (q <= 61 # 10)%Q.
Proof.
  intros int_of_str date rate. unfold Main.get_Monthly_Unemployment_Rate,
    Inference.index.
  destruct (Main.split_dash date !! 1%nat) as [piece |]; cbn [bind];
    [| discriminate].
  destruct (int_of_str piece) as [month | e] eqn:Ei; cbn [bind]; [| discriminate].
  destruct (rates_lookup month) as (q & -> & Hq). intros [= <-].
  exists piece, month, q. split; [reflexivity |]. split; [exact Ei |].
  split; [reflexivity |]. split; [exact Hq |].
  destruct ((1 <=? month) && (month <=? 12))%Z eqn:E.
  - apply andb_true_iff in E as [H1 H2]. apply Z.leb_le in H1, H2.
    assert (Hlo : (inject_Z 50 <= inject_Z (49 + month))%Q)
      by (rewrite <- Zle_Qle; lia).
    assert (Hhi : (inject_Z (49 + month) <= inject_Z 61)%Q)
      by (rewrite <- Zle_Qle; lia).
    change (inject_Z 50) with 50%Q in Hlo. change (inject_Z 61) with 61%Q in Hhi.
    rewrite Hq. split.
    + apply Qle_shift_div_l; [reflexivity | lra].
    + apply Qle_shift_div_r; [reflexivity | lra].
  - rewrite Hq. split; discriminate.
Qed.

Lemma unemployment_rate_range_witness :
  exists (piece : string) (month : Z) (q : Q),
    Main.split_dash "2024-03-15" !! 1%nat = Some piece
    /\ (fun _ : string => Ok 3%Z) piece = Ok month
    /\ Fin (52 # 10) = Fin q
    /\ (q == if ((1 <=? month) && (month <=? 12))%Z
             then inject_Z (49 + month) / 10 else 5)%Q
    /\ (5 <= q)%Q /\ (q <= 61 # 10)%Q.
Proof.
  apply (unemployment_rate_range (fun _ => Ok 3%Z) "2024-03-15").
  vm_compute. reflexivity.
Defined.

(** ** ml/dataGenerator.py *)

Section Generator.
Local Open Scope Q_scope.

Lemma round_nonneg_spec (x : Q) :
  exists k : Z, DataGenerator.round_nonneg x = inject_Z k /\ (0 <= k)%Z.
Proof.
  unfold DataGenerator.round_nonneg. eexists. split; [reflexivity |].
  apply rint_nonneg, Q.le_max_r.
Qed.

Lemma Qpower_le_base (a b : Q) (n : Z) :
  0 < a -> a <= b -> (0 <= n)%Z -> a ^ n <= b ^ n.
Proof.
  intros Ha Hab Hn.
  assert (Hne : ~ a == 0) by lra.
  assert (Hb : b == a * (b / a)) by (field; exact Hne).
  rewrite Hb, Qmult_power.
  assert (H1 : 1 <= (b / a) ^ n).
  { apply Qpower_1_le; [| exact Hn]. apply Qle_shift_div_l; lra. }
  assert (H0 : 0 <= a ^ n) by (apply Qpower_0_le; lra).
  nra.
Qed.

Lemma round_100_close (q : Q) :
  Qabs (inject_Z (Float.rint (q / 100)) * 100 - q) <= 50.
Proof.
  pose proof (rint_close (q / 100)) as H.
  apply Qabs_Qle_condition in H. apply Qabs_Qle_condition.
  assert (E : q == q / 100 * 100) by (field; discriminate).
  split; lra.
Qed.

End Generator.

(** X24.  Whatever the noise drawn, [get_gas_price] returns a price of at
    least 70.0 with at most two decimals. *)
Theorem gas_price_floor :
  forall (month day : Z) (noise : Q),
    exists (q : Q) (cents : Z),
      DataGenerator.get_gas_price month day noise = Fin q
      /\ (q == inject_Z cents / 100)%Q
      /\ (70 <= q)%Q.
Proof.
  intros month day noise. unfold DataGenerator.get_gas_price, round_nd.
  change (inject_Z (10 ^ 2)) with 100%Q.
  set (v := Qmax 70 (DataGenerator.gas_base month day + noise)).
  exists (inject_Z (Float.rint (v * 100)) / 100)%Q, (Float.rint (v * 100)).
  split; [reflexivity |]. split; [reflexivity |].
  assert (Hv : (70 <= v)%Q) by apply Q.le_max_l.
  assert (Hr : (7000 <= Float.rint (v * 100))%Z).
  { rewrite <- (rint_Z 7000). apply rint_mono.
    change (inject_Z 7000) with 7000%Q. lra. }
  rewrite Zle_Qle in Hr. change (inject_Z 7000) with 7000%Q in Hr.
  apply Qle_shift_div_l; [reflexivity | lra].
Qed.

(** X25.  The inflation multipliers are at least 1 and the expense
    multiplier is never below the income multiplier; for a date on or
    before [start_date] both are 1. *)
Theorem inflation_multipliers_order :
  forall days : Z,
    (1 <= fst (DataGenerator.get_inflation_multipliers days))%Q
    /\ (fst (DataGenerator.get_inflation_multipliers days)
        <= snd (DataGenerator.get_inflation_multipliers days))%Q
    /\ (fst (DataGenerator.get_inflation_multipliers (Z.min days 0)) == 1)%Q
    /\ (snd (DataGenerator.get_inflation_multipliers (Z.min days 0)) == 1)%Q.
Proof.
  intros days. unfold DataGenerator.get_inflation_multipliers. cbn [fst snd].
  assert (Hn : (0 <= Z.max days 0)%Z) by lia.
  split; [| split; [| split]].
  - apply Qpower_1_le; [| exact Hn]. unfold Qle. cbn. lia.
  - apply Qpower_le_base; [reflexivity | | exact Hn]. unfold Qle. cbn. lia.
  - replace (Z.max (Z.min days 0) 0) with 0%Z by lia. reflexivity.
  - replace (Z.max (Z.min days 0) 0) with 0%Z by lia. reflexivity.
Qed.

(** X26.  Whatever is drawn and whatever the base and the ranges are,
    [generate_expenses] returns a whole number that is not negative, and
    it takes at least two and at most four draws from the generator. *)
Theorem generate_expenses_range :
  forall (rnd : nat -> Q) (base spike_prob : Q)
         (spike_multiplier spike_add_range : Q * Q) (pos : nat),
    exists k : Z,
      fst (DataGenerator.generate_expenses rnd base spike_prob
             spike_multiplier spike_add_range pos) = inject_Z k
      /\ (0 <= k)%Z
      /\ (pos + 2
          <= snd (DataGenerator.generate_expenses rnd base spike_prob
                    spike_multiplier spike_add_range pos)
          <= pos + 4)%nat.
Proof.
  intros rnd base spike_prob spike_multiplier spike_add_range pos.
  unfold DataGenerator.generate_expenses, DataGenerator.uniform.
  destruct (Qlt_le_dec (rnd (S pos)) spike_prob) as [Hspike | Hnone].
  - destruct (Qlt_le_dec 0 base) as [Hpos | Hneg].
    + destruct (Qlt_le_dec (rnd (S (S pos))) (7 # 10)); cbn [fst snd];
        match goal with |- context [DataGenerator.round_nonneg ?x] =>
          destruct (round_nonneg_spec x) as (k & -> & Hk) end;
        exists k; (split; [reflexivity | split; [exact Hk | lia]]).
    + cbn [fst snd].
      match goal with |- context [DataGenerator.round_nonneg ?x] =>
        destruct (round_nonneg_spec x) as (k & -> & Hk) end.
      exists k. split; [reflexivity | split; [exact Hk | lia]].
  - cbn [fst snd].
    match goal with |- context [DataGenerator.round_nonneg ?x] =>
      destruct (round_nonneg_spec x) as (k & -> & Hk) end.
    exists k. split; [reflexivity | split; [exact Hk | lia]].
Qed.

(** X27.  The monthly target of [_calc_target] is a multiple of 100 that
    is not negative, within 50 of [max(t, 0)], where [t] is
    [income + 0.10 * expenses] when the month's income covers its expenses
    and [2.15 * expenses - income] when it does not. *)
Theorem calc_target_value :
  forall inc exp : Q,
    exists k : Z,
      (0 <= k)%Z
      /\ DataGenerator._calc_target inc exp = (inject_Z k * 100)%Q
      /\ (Qabs (DataGenerator._calc_target inc exp
                - Qmax (if Qle_bool exp inc
                        then inc + (1 # 10) * exp
                        else (215 # 100) * exp - inc) 0)
          <= 50)%Q.
Proof.
  intros inc exp. unfold DataGenerator._calc_target.
  set (target := if Qle_bool 0 (inc - exp)
                 then (exp + (inc - exp) + (10 # 100) * exp)%Q
                 else (exp + Qabs (inc - exp) + (15 # 100) * exp)%Q).
  set (t := if Qle_bool exp inc
            then (inc + (1 # 10) * exp)%Q else ((215 # 100) * exp - inc)%Q).
  assert (Ht : (target == t)%Q).
  { unfold target, t.
    destruct (Qle_bool 0 (inc - exp)) eqn:E1; destruct (Qle_bool exp inc) eqn:E2.
    - ring.
    - apply Qle_bool_iff in E1.
      assert (H : (exp <= inc)%Q) by lra. apply Qle_bool_iff in H. congruence.
    - apply Qle_bool_iff in E2.
      assert (H : (0 <= inc - exp)%Q) by lra. apply Qle_bool_iff in H. congruence.
    - assert (H : (inc - exp <= 0)%Q).
      { destruct (Qlt_le_dec 0 (inc - exp)) as [H | H]; [| exact H].
        apply Qlt_le_weak, Qle_bool_iff in H. congruence. }
      rewrite (Qabs_neg _ H). ring. }
  exists (Float.rint (Qmax target 0 / 100)).
  assert (H0 : (0 <= Qmax target 0)%Q) by apply Q.le_max_r.
  split; [| split; [reflexivity |]].
  - apply rint_nonneg. apply Qle_shift_div_l; [reflexivity | lra].
  - pose proof (round_100_close (Qmax target 0)) as Hc.
    assert (Hm : (Qmax target 0 == Qmax t 0)%Q).
    { destruct (Q.max_spec target 0) as [[H1 ->] | [H1 ->]];
        destruct (Q.max_spec t 0) as [[H2 ->] | [H2 ->]]; lra. }
    apply Qabs_Qle_condition in Hc. apply Qabs_Qle_condition. split; lra.
Qed.
